(** * voc-agentic-copilot: the retrieval layer, the ingestion job and the
      templated generators, embedded from the Python sources.

    Layout:
    - [Py]              : the fragment of Python the sources rely on (str, strip,
                          truthiness, float(), exceptions, a state-and-exception
                          monad over the process state and the log of external calls);
    - [Retrieval]       : src/agents/retrieval.py;
    - [SearchFeedback]  : scripts/search_feedback.py;
    - [App]             : run_retrieval of app/app.py;
    - [IngestFeedback]  : scripts/ingest_feedback.py;
    - [PmAgent], [WeeklyPmBrief] : the two templated generators;
    - [Store]           : the contract of the store behind [cursor.execute];
    - [Doubles]         : test doubles for the embedding provider and the store;
    - [Filters], [Records], [Ingested] : the vocabulary of the properties;
    - [Normalised], [IngestLog], [Consumer] : the vocabulary of the further
                          properties;
    - [PyText], [AppText], [AppPdf], [Flow] : to_readable_text and the PDF
                          flowables of app/app.py, with reportlab's parser
                          of paragraph markup as a parameter;
    - then the properties. *)

From Stdlib Require Import ZArith NArith List String Ascii DecimalString.
From Stdlib Require Import PrimFloat SpecFloat FloatOps.
From stdpp Require Import base option list gmap.

Set Default Proof Using "Type".

(* ===================================================================== *)
(** * Python fragment *)
(* ===================================================================== *)
Module Py.

(** A Python [str] is a sequence of Unicode code points. *)
Abbreviation str := (list N).

(** ASCII literals of the sources. *)
Definition lit (s : string) : str :=
  map N_of_ascii (list_ascii_of_string s).

(** [chr(10)] *)
Definition LF : N := 10%N.

(** Characters removed by [str.strip()] with no argument: the code points
    for which CPython's [Py_UNICODE_ISSPACE] holds. *)
Definition is_space (c : N) : bool :=
  ((0x09 <=? c) && (c <=? 0x0D))%N
  || ((0x1C <=? c) && (c <=? 0x20))%N
  || (c =? 0x85)%N || (c =? 0xA0)%N || (c =? 0x1680)%N
  || ((0x2000 <=? c) && (c <=? 0x200A))%N
  || (c =? 0x2028)%N || (c =? 0x2029)%N || (c =? 0x202F)%N
  || (c =? 0x205F)%N || (c =? 0x3000)%N.

Fixpoint lstrip (s : str) : str :=
  match s with
  | c :: s' => if is_space c then lstrip s' else s
  | [] => []
  end.

Definition rstrip (s : str) : str := rev (lstrip (rev s)).

(** [s.strip()] *)
Definition strip (s : str) : str := rstrip (lstrip s).

(** [sep.join(parts)] *)
Fixpoint join (sep : str) (parts : list str) : str :=
  match parts with
  | [] => []
  | [p] => p
  | p :: rest => p ++ sep ++ join sep rest
  end.

(** Truth value of a [str]: non-empty. *)
Definition nonempty (s : str) : bool :=
  match s with [] => false | _ => true end.

(** The values that flow through the retrieval layer: [None], [int],
    [float] (IEEE binary64), [str] and an embedding ([list] of [float]). *)
Inductive value :=
| VNone
| VInt (z : Z)
| VFloat (f : float)
| VStr (s : str)
| VVec (v : list float).

(** [bool(v)] *)
Definition truthy (v : value) : bool :=
  match v with
  | VNone => false
  | VInt z => negb (z =? 0)%Z
  | VFloat f => negb (PrimFloat.eqb f 0%float)
  | VStr s => nonempty s
  | VVec v => match v with [] => false | _ => true end
  end.

(** [a or b] *)
Definition py_or (a b : value) : value := if truthy a then a else b.

(** A dict literal or a [**kwargs]-style record: keys are [str]. *)
Abbreviation dict := (gmap (list N) value).

(** [d.get(k)] and [d.get(k, default)] *)
Definition get (d : dict) (k : str) : value := default VNone (d !! k).
Definition get_or (d : dict) (k : str) (dflt : value) : value :=
  default dflt (d !! k).

Inductive exn :=
| RuntimeError (msg : str)
| TypeError
| ValueError
| OverflowError
| AttributeError
| ExternalError (origin : str).

Inductive result (A : Type) :=
| Ok (a : A)
| Raise (e : exn).
Arguments Ok {A} a.
Arguments Raise {A} e.

Definition is_ok {A} (r : result A) : bool :=
  match r with Ok _ => true | Raise _ => false end.

(** [float(int)]: the nearest binary64 value, ties to even;
    [OverflowError] when that is not finite. *)
Definition float_of_int (z : Z) : result float :=
  let f := SF2Prim (binary_normalize prec emax z 0 false) in
  if PrimFloat.is_infinity f then Raise OverflowError else Ok f.

Section Float.
(** CPython's decimal-text-to-binary64 conversion behind [float(str)]:
    [None] stands for the [ValueError] of a text that is not a float
    literal.  The sources never depend on which texts parse. *)
Variable float_of_str : str -> option float.

(** [float(v)] *)
Definition py_float (v : value) : result float :=
  match v with
  | VFloat f => Ok f
  | VInt z => float_of_int z
  | VStr s => match float_of_str s with
              | Some f => Ok f
              | None => Raise ValueError
              end
  | VNone | VVec _ => Raise TypeError
  end.
End Float.

(** ** [str()] and format specifications *)

(** [str(int)] *)
Definition str_of_int (z : Z) : str := lit (NilZero.string_of_int (Z.to_int z)).

Section Format.
(** [repr(float)] (shortest round-tripping decimal) and
    [format(float, '.3f')]: CPython's binary64-to-text conversions. *)
Variable float_repr : float -> str.
Variable float_fixed3 : float -> str.

(** [str(v)], which is also [format(v, '')] in an f-string. *)
Definition py_str (v : value) : str :=
  match v with
  | VNone => lit "None"
  | VInt z => str_of_int z
  | VFloat f => float_repr f
  | VStr s => s
  | VVec v => lit "[" ++ join (lit ", ") (map float_repr v) ++ lit "]"
  end.

(** [format(v, '.3f')] *)
Definition format_3f (v : value) : result str :=
  match v with
  | VFloat f => Ok (float_fixed3 f)
  | VInt z => match float_of_int z with
              | Ok f => Ok (float_fixed3 f)
              | Raise e => Raise e
              end
  | VStr _ => Raise ValueError
  | VNone | VVec _ => Raise TypeError
  end.
End Format.

(** ** External calls and the process state *)

(** Parameters handed to [cursor.execute]: a dict for [%(name)s]
    placeholders, a tuple for positional [%s] placeholders. *)
Inductive sqlparams :=
| Named (d : dict)
| Positional (t : list value).

Inductive event :=
| EmbeddingsCreate (model input : str)
| DbConnect (conninfo : option str)
| DbExecute (sql : str) (params : sqlparams)
| DbClose.

(** The environment of [os.getenv] (after [load_dotenv]), the module-level
    [_client] of scripts/search_feedback.py (the API key the cached handle
    was built with), and the log of calls that left the process. *)
Record world := World {
  environ : gmap (list N) (list N);
  _client : option (list N);
  calls : list event;
}.

(** The embedding provider and the store, as seen from the process: each
    answer may depend on everything that was called before. *)
Record services := Services {
  embeddings_create : list event -> str -> str -> result (list float);
  db_connect : list event -> option str -> result unit;
  db_execute : list event -> str -> sqlparams -> result (list (list value));
}.

(** Computations that read and write the process state and may raise. *)
Definition M (A : Type) : Type := world -> result A * world.

Definition ret {A} (a : A) : M A := fun w => (Ok a, w).
Definition raise {A} (e : exn) : M A := fun w => (Raise e, w).
Definition bind {A B} (m : M A) (k : A -> M B) : M B :=
  fun w => match m w with
           | (Ok a, w') => k a w'
           | (Raise e, w') => (Raise e, w')
           end.
Definition lift {A} (r : result A) : M A := fun w => (r, w).

(** [try: body finally: fin] as used by a [with] block: [fin] runs on both
    exits and the outcome of [body] is kept. *)
Definition finally {A} (body : M A) (fin : world -> world) : M A :=
  fun w => let '(r, w') := body w in (r, fin w').

Declare Scope py_scope.
Delimit Scope py_scope with py.
Notation "x <- c ;; k" := (bind c (fun x => k))
  (at level 100, c at next level, right associativity) : py_scope.
Notation "c ;;; k" := (bind c (fun _ => k))
  (at level 100, right associativity) : py_scope.

Definition record (e : event) (w : world) : world :=
  World (environ w) (_client w) (calls w ++ [e]).

(** [os.getenv(name)] *)
Definition getenv (name : str) : M (option str) :=
  fun w => (Ok (environ w !! name), w).

(** [os.getenv(name, dflt)] *)
Definition getenv_default (name dflt : str) : M str :=
  fun w => (Ok (default dflt (environ w !! name)), w).

Section Calls.
Variable svc : services.

(** [client.embeddings.create(model=model, input=text).data[0].embedding] *)
Definition call_embeddings (model text : str) : M (list float) :=
  fun w => (embeddings_create svc (calls w) model text,
            record (EmbeddingsCreate model text) w).

(** [cur.execute(sql, params)] followed by [cur.fetchall()] *)
Definition call_execute (sql : str) (params : sqlparams)
  : M (list (list value)) :=
  fun w => (db_execute svc (calls w) sql params,
            record (DbExecute sql params) w).

(** [with psycopg.connect(conninfo) as conn: body]: the connection is
    closed when the block is left, whichever way. *)
Definition with_connect {A} (conninfo : option str) (body : M A) : M A :=
  fun w =>
    let w1 := record (DbConnect conninfo) w in
    match db_connect svc (calls w) conninfo with
    | Raise e => (Raise e, w1)
    | Ok _ => finally body (record DbClose) w1
    end.
End Calls.

(** Unpacking a row into six names; any other arity is a [ValueError]. *)
Definition unpack6 (row : list value)
  : result (value * value * value * value * value * value) :=
  match row with
  | [a; b; c; d; e; f] => Ok (a, b, c, d, e, f)
  | _ => Raise ValueError
  end.

(** [for x in xs: results.append(body(x))]: [results] grows by one item per
    element, in order; the first element whose body raises ends the loop
    with that exception. *)
Fixpoint for_append {A B} (body : A -> result B) (xs : list A)
    (results : list B) : result (list B) :=
  match xs with
  | [] => Ok results
  | x :: rest =>
      match body x with
      | Raise e => Raise e
      | Ok y => for_append body rest (results ++ [y])
      end
  end.

End Py.


Import Py.
Local Open Scope py_scope.

(** The dict display [{k1: v1, k2: v2, ...}]: keys are set left to right. *)
Definition dict_of (items : list (str * value)) : dict :=
  foldl (fun d kv => <[kv.1 := kv.2]> d) ∅ items.

(** A [str | None] argument as a value. *)
Definition of_opt (o : option str) : value :=
  match o with Some s => VStr s | None => VNone end.

(* ===================================================================== *)
(** * src/agents/retrieval.py *)
(* ===================================================================== *)
Module Retrieval.
Section Retrieval.
Variable float_of_str : str -> option float.
Variable svc : services.

(** [embed_text(text, model)], on the module-level [client]. *)
Definition embed_text (text model : str) : M (list float) :=
  call_embeddings svc model text.

(** [platform and platform.strip()] as a condition. *)
Definition given (arg : option str) : bool :=
  match arg with
  | Some s => nonempty s && nonempty (strip s)
  | None => false
  end.

(** Lines 23-32: the [filters] list and the [params] dict after the two
    conditional blocks. *)
Definition filters_and_params (q_emb : list float) (top_k : Z)
    (platform country : option str) : list str * dict :=
  let filters := [] in
  let params := dict_of [(lit "q_emb", VVec q_emb); (lit "k", VInt top_k)] in
  let '(filters, params) :=
    match platform with
    | Some p =>
        if nonempty p && nonempty (strip p)
        then (filters ++ [lit "platform = %(platform)s"],
              <[lit "platform" := VStr (strip p)]> params)
        else (filters, params)
    | None => (filters, params)
    end in
  let '(filters, params) :=
    match country with
    | Some c =>
        if nonempty c && nonempty (strip c)
        then (filters ++ [lit "country = %(country)s"],
              <[lit "country" := VStr (strip c)]> params)
        else (filters, params)
    | None => (filters, params)
    end in
  (filters, params).

(** Line 34. *)
Definition where_clause (filters : list str) : str :=
  match filters with
  | [] => []
  | _ => lit "where " ++ join (lit " and ") filters
  end.

(** Lines 36-48: the statement text around [{where_clause}]. *)
Definition sql_head : str := lit "
    select
      id,
      country,
      platform,
      rating,
      text,
      1 - (embedding <=> %(q_emb)s) as score
    from public.feedback
    ".

Definition sql_tail : str := lit "
    order by embedding <=> %(q_emb)s
    limit %(k)s;
    ".

Definition sql (filters : list str) : str :=
  sql_head ++ where_clause filters ++ sql_tail.

(** Lines 55-64: the body of the [for] loop that appends to [results]. *)
Definition row_to_dict (row : list value) : result dict :=
  match unpack6 row with
  | Raise e => Raise e
  | Ok (id_, country_, platform_, rating_, text_, score_) =>
      match py_float float_of_str score_ with
      | Raise e => Raise e
      | Ok score =>
          Ok (dict_of [(lit "id", id_); (lit "country", country_);
                       (lit "platform", platform_); (lit "rating", rating_);
                       (lit "text", text_); (lit "score", VFloat score)])
      end
  end.

Definition search_feedback (question : str) (top_k : Z)
    (platform country : option str) : M (list dict) :=
  db_url <- getenv (lit "SUPABASE_DB_URL") ;;
  embed_model <- getenv_default (lit "OPENAI_EMBED_MODEL")
                                (lit "text-embedding-3-small") ;;
  q_emb <- embed_text question embed_model ;;
  let '(filters, params) := filters_and_params q_emb top_k platform country in
  rows <- with_connect svc db_url (call_execute svc (sql filters) (Named params)) ;;
  lift (for_append row_to_dict rows []).

End Retrieval.
End Retrieval.

(* ===================================================================== *)
(** * scripts/search_feedback.py *)
(* ===================================================================== *)
Module SearchFeedback.
Section SearchFeedback.
Variable float_of_str : str -> option float.
Variable svc : services.

(** [not v] for a [str | None]. *)
Definition missing (v : option str) : bool :=
  match v with
  | Some s => negb (nonempty s)
  | None => true
  end.

Definition get_client : M str :=
  fun w =>
    match _client w with
    | None =>
        match environ w !! lit "OPENAI_API_KEY" with
        | Some api_key =>
            if nonempty api_key
            then (Ok api_key, World (environ w) (Some api_key) (calls w))
            else (Raise (RuntimeError (lit "Missing OPENAI_API_KEY in .env")), w)
        | None => (Raise (RuntimeError (lit "Missing OPENAI_API_KEY in .env")), w)
        end
    | Some c => (Ok c, w)
    end.

Definition embed (text : str) : M (list float) :=
  model <- getenv_default (lit "OPENAI_EMBED_MODEL")
                          (lit "text-embedding-3-small") ;;
  client <- get_client ;;
  call_embeddings svc model text.

(** The statement handed to [cur.execute]. *)
Definition sql : str := lit "
                select * from match_feedback(
                    %s::vector(1536),
                    %s,
                    %s,
                    %s,
                    %s
                );
                ".

(** The body of the [for] loop over the fetched rows. *)
Definition row_to_dict (row : list value) : result dict :=
  match unpack6 row with
  | Raise e => Raise e
  | Ok (id_, content, country, platform, rating, similarity) =>
      match py_float float_of_str similarity with
      | Raise e => Raise e
      | Ok sim =>
          Ok (dict_of [(lit "id", id_); (lit "text", content);
                       (lit "country", country); (lit "platform", platform);
                       (lit "rating", rating); (lit "similarity", VFloat sim)])
      end
  end.

Definition search_feedback (query : option str) (top_k : Z)
    (country platform user_type : option str) : M (list dict) :=
  db_url <- getenv (lit "SUPABASE_DB_URL") ;;
  if missing db_url
  then raise (RuntimeError (lit "Missing SUPABASE_DB_URL in .env"))
  else
    let query := strip (default [] query) in
    if negb (nonempty query)
    then ret []
    else
      qvec <- embed query ;;
      rows <- with_connect svc db_url
                (call_execute svc sql
                   (Positional [VVec qvec; VInt top_k; of_opt country;
                                of_opt platform; of_opt user_type])) ;;
      lift (for_append row_to_dict rows []).

End SearchFeedback.
End SearchFeedback.

(* ===================================================================== *)
(** * app/app.py: the consumer of the façade *)
(* ===================================================================== *)
Module App.

Record EvidenceItem := {
  evidence_id : str;
  platform : value;
  country : value;
  rating : value;
  similarity : float;
  text : str;
}.

(** [e.__dict__] *)
Definition as_dict (e : EvidenceItem) : dict :=
  dict_of [(lit "evidence_id", VStr (evidence_id e));
           (lit "platform", platform e); (lit "country", country e);
           (lit "rating", rating e); (lit "similarity", VFloat (similarity e));
           (lit "text", VStr (text e))].

Section App.
Variable float_of_str : str -> option float.
Variable float_repr : float -> str.
Variable svc : services.

(** [(arg.strip() or None) if arg else None] *)
Definition strip_or_none (arg : option str) : option str :=
  match arg with
  | Some s =>
      if nonempty s
      then (if nonempty (strip s) then Some (strip s) else None)
      else None
  | None => None
  end.

(** [(v or "").strip()] *)
Definition or_empty_strip (v : value) : result str :=
  match py_or v (VStr []) with
  | VStr s => Ok (strip s)
  | _ => Raise AttributeError
  end.

(** The body of the [for h in hits] loop. *)
Definition hit_to_item (h : dict) : result EvidenceItem :=
  match py_float float_of_str (py_or (get h (lit "similarity")) (VFloat 0%float)) with
  | Raise e => Raise e
  | Ok sim =>
      match or_empty_strip (get h (lit "text")) with
      | Raise e => Raise e
      | Ok txt =>
          Ok {| evidence_id := py_str float_repr (get h (lit "id"));
                platform := py_or (get h (lit "platform")) (VStr []);
                country := py_or (get h (lit "country")) (VStr []);
                rating := get h (lit "rating");
                similarity := sim;
                text := txt |}
      end
  end.

Definition run_retrieval (query : option str) (platform country : option str)
    (top_k : Z) : M (list EvidenceItem) :=
  hits <- SearchFeedback.search_feedback float_of_str svc query top_k
            (strip_or_none country) (strip_or_none platform) None ;;
  lift (for_append hit_to_item hits []).

End App.
End App.

(* ===================================================================== *)
(** * scripts/ingest_feedback.py *)
(* ===================================================================== *)
Module IngestFeedback.

(** A row of [csv.DictReader]: each header name maps to a [str], or to
    [None] when the line is short. *)
Abbreviation csvrow := (gmap (list N) (option (list N))).

(** What [csv.DictReader(f)] yields while it is iterated: the rows of the
    file, read lazily and in file order, and how the iteration ends: at the
    end of the file ([None]), or with the exception of a read that fails
    after those rows (a decoding error, a [csv.Error]). *)
Record reader := Reader {
  read_rows : list csvrow;
  read_error : option exn;
}.

Definition TABLE_NAME : str := lit "public.feedback".

(** [(r.get(key) or dflt)] *)
Definition get_or_default (r : csvrow) (key dflt : str) : str :=
  match r !! key with
  | Some (Some s) => if nonempty s then s else dflt
  | _ => dflt
  end.

(** [s or None] *)
Definition or_none (s : str) : value :=
  if nonempty s then VStr s else VNone.

Definition delete_sql : str := lit "delete from " ++ TABLE_NAME ++ lit ";".

Definition insert_sql : str := lit "
                        insert into " ++ TABLE_NAME ++ lit "
                          (source, country, platform, rating, user_type, created_at, text, embedding)
                        values
                          (%s, %s, %s, %s, %s, %s, %s, %s::vector)
                        ".

Section IngestFeedback.
(** [str.isdigit] and [int(str)]: [None] stands for the [ValueError] of
    [int] on a text that is not an integer literal. *)
Variable str_isdigit : str -> bool.
Variable int_of_str : str -> option Z.
Variable svc : services.

Definition require_env (name : str) : M str :=
  v <- getenv name ;;
  match v with
  | Some s =>
      if nonempty s then ret s
      else raise (RuntimeError (lit "Missing env var: " ++ name
                                ++ lit ". Check your .env file."))
  | None => raise (RuntimeError (lit "Missing env var: " ++ name
                                 ++ lit ". Check your .env file."))
  end.

(** The body of [for r in reader]; [continue] is the [ret tt] of a row
    with no text. *)
Definition ingest_row (embed_model : str) (r : csvrow) : M unit :=
  let text := strip (get_or_default r (lit "text") []) in
  if negb (nonempty text)
  then ret tt
  else
    emb <- call_embeddings svc embed_model text ;;
    let source := strip (get_or_default r (lit "source") (lit "app_reviews")) in
    let country := or_none (strip (get_or_default r (lit "country") [])) in
    let platform := or_none (strip (get_or_default r (lit "platform") [])) in
    let user_type := or_none (strip (get_or_default r (lit "user_type") [])) in
    let rating_raw := strip (get_or_default r (lit "rating") []) in
    rating <- (if str_isdigit rating_raw
               then match int_of_str rating_raw with
                    | Some z => ret (VInt z)
                    | None => raise ValueError
                    end
               else ret VNone) ;;
    let created_at_raw := strip (get_or_default r (lit "created_at") []) in
    let created_at := if nonempty created_at_raw then VStr created_at_raw else VNone in
    call_execute svc insert_sql
      (Positional [VStr source; country; platform; rating; user_type;
                   created_at; VStr text; VVec emb]) ;;;
    ret tt.

(** The loop body over the rows the reader yields, one after the other:
    a row is read only once the body of the row before it has returned. *)
Fixpoint ingest_rows (embed_model : str) (rows : list csvrow) : M unit :=
  match rows with
  | [] => ret tt
  | r :: rest => ingest_row embed_model r ;;; ingest_rows embed_model rest
  end.

(** [for r in reader: ...]: the body runs on each row as it is read; when
    the rows are used up the loop ends, normally at the end of the file,
    with the exception of the read that failed otherwise. *)
Definition ingest_reader (embed_model : str) (reader : reader) : M unit :=
  ingest_rows embed_model (read_rows reader) ;;;
  match read_error reader with
  | Some e => raise e
  | None => ret tt
  end.

(** [main()]; [csv_file] is what [open(CSV_PATH)] gives: its exception, or
    the reader over the file.  The delete statement is executed with no
    parameters.  The progress lines written to the standard output are not
    part of the model. *)
Definition main (csv_file : result reader) : M unit :=
  db_url <- require_env (lit "SUPABASE_DB_URL") ;;
  api_key <- require_env (lit "OPENAI_API_KEY") ;;
  embed_model <- getenv_default (lit "OPENAI_EMBED_MODEL")
                                (lit "text-embedding-3-small") ;;
  with_connect svc (Some db_url)
    (call_execute svc delete_sql (Positional []) ;;;
     reader <- lift csv_file ;;
     ingest_reader embed_model reader).

End IngestFeedback.
End IngestFeedback.

(* ===================================================================== *)
(** * scripts/pm_agent.py *)
(* ===================================================================== *)
Module PmAgent.

(** The text of the template before and after the evidence lines. *)
Definition md_head : str := lit "
## Summary
Payment failures on Android may be caused by a mix of **UI confusion** (users think payment failed, abandon, or mis-tap) and **platform-specific integration issues** (SDK, network, or auth differences).

## What the evidence suggests
".

Definition md_tail : str := lit "

## Likely root-cause buckets
- **UI/UX:** confusing CTA, unclear error states, payment method selection friction, redirect issues
- **Integration:** Android SDK mismatch, webview/3DS handoff problems, billing permissions, play services
- **Backend:** idempotency handling, gateway error mapping, retries causing double-fail perception

## Recommended next steps
- Add **structured logging** on Android payment flow (start " ++ [0x2192%N] ++ lit " method selected " ++ [0x2192%N] ++ lit " auth " ++ [0x2192%N] ++ lit " confirmation).
- Compare Android vs iOS funnel: **attempt rate, auth-fail rate, drop-off step**.
- Run targeted testing on Android devices with varied OS versions + network conditions.

## Follow-up questions
- Are there Android-specific error logs or user reports tied to payment failures?
- Is Android payment UI identical to iOS, or are there platform-specific differences?
- What is the payment failure rate on Android vs iOS?
".

Section PmAgent.
Variable float_repr : float -> str.
Variable float_fixed3 : float -> str.

(** The f-string appended for one evidence dict; the [.3f] field raises on
    a similarity that is not a number. *)
Definition evidence_line (e : dict) : result str :=
  match format_3f float_fixed3 (get_or e (lit "similarity") (VInt 0)) with
  | Raise x => Raise x
  | Ok sim =>
      Ok (lit "- Evidence #" ++ py_str float_repr (get_or e (lit "evidence_id") (VStr (lit "?")))
          ++ lit " (" ++ py_str float_repr (get_or e (lit "platform") (VStr (lit "?")))
          ++ lit " " ++ py_str float_repr (get_or e (lit "country") (VStr (lit "?")))
          ++ lit ", sim " ++ sim
          ++ lit "): " ++ py_str float_repr (get_or e (lit "text") (VStr [])))
  end.

Definition run_agentic_analysis (question : str) (evidence : list dict)
  : result str :=
  match for_append evidence_line evidence [] with
  | Raise x => Raise x
  | Ok evidence_lines =>
      let md :=
        md_head
        ++ (match evidence_lines with
            | [] => lit "- No evidence retrieved."
            | _ => join [LF] evidence_lines
            end)
        ++ md_tail in
      Ok (strip md)
  end.

End PmAgent.
End PmAgent.

(* ===================================================================== *)
(** * scripts/weekly_pm_brief.py *)
(* ===================================================================== *)
Module WeeklyPmBrief.

Definition md_head : str := lit "
## Weekly PM Brief " ++ [0x2014%N] ++ lit " Payments Reliability

### This week" ++ [0x2019%N] ++ lit "s headline
Investigate Android payment failures end-to-end and validate whether the issue is **technical**, **UX-driven**, or both.

### Why it matters
Payment failures directly impact **conversion**, **revenue**, and **user trust**. Android-specific issues can quietly grow if we don" ++ [0x2019%N] ++ lit "t measure funnel drop-offs by platform.

### Evidence used
- Evidence IDs: ".

Definition md_tail : str := lit "

### What we think is happening
- Users may be experiencing **confusing payment UI states** (success/failure ambiguity).
- There may be Android-only **handoff/auth/SDK** issues (e.g., 3DS, webview redirects, device/network variance).

### Metrics to watch
- Payment funnel by step (Android vs iOS): attempt " ++ [0x2192%N] ++ lit " auth " ++ [0x2192%N] ++ lit " confirm " ++ [0x2192%N] ++ lit " success
- Failure reasons distribution (gateway codes mapped to user-visible errors)
- Drop-off rate at " ++ [0x201C%N] ++ lit "confirm payment" ++ [0x201D%N] ++ lit " step

### Proposed plan (next 5 days)
- Day 1" ++ [0x2013%N] ++ lit "2: add logs + dashboard for Android payment steps
- Day 3: replicate on top devices/OS versions; capture screen recordings
- Day 4: ship quick UX patch for error states if needed
- Day 5: validate impact with funnel deltas + support ticket trend

### Risks / dependencies
- Payment provider SDK version differences
- Error mapping may be hiding true causes (generic " ++ [0x201C%N] ++ lit "failed" ++ [0x201D%N] ++ lit ")

### Draft Jira ticket (copy/paste)
**Title:** Investigate and Resolve Payment Failures on Android  
**Severity:** S2  
**Problem:** Reports of payment failures on Android with unclear cause; evidence suggests possible UI confusion patterns.  
**Acceptance Criteria:**  
- Funnel + error logging added for Android payment flow  
- Failure rate measured and compared vs iOS  
- Root cause identified (UX vs integration vs backend)  
- Fix deployed + verified via metrics improvement
".

Section WeeklyPmBrief.
Variable float_repr : float -> str.

(** [e.get("evidence_id") is not None] *)
Definition has_id (e : dict) : bool :=
  match get e (lit "evidence_id") with VNone => false | _ => true end.

Definition generate_weekly_pm_brief (question : str) (evidence : list dict)
  : str :=
  let evidence_ids :=
    map (fun e => py_str float_repr (get e (lit "evidence_id")))
        (filter (fun e => has_id e = true) evidence) in
  let evidence_ids_txt :=
    match evidence_ids with
    | [] => lit "None"
    | _ => join (lit ", ") evidence_ids
    end in
  let md := md_head ++ evidence_ids_txt ++ md_tail in
  strip md.

End WeeklyPmBrief.
End WeeklyPmBrief.

(* ===================================================================== *)
(** * The store boundary *)
(* ===================================================================== *)
Module Store.

(** The result limit bound in a call of [cursor.execute]: the [k] of the
    [%(k)s] placeholder of retrieval.py, the second positional argument
    ([top_k]) of the [match_feedback] call of search_feedback.py. *)
Definition limit_of (p : sqlparams) : option Z :=
  match p with
  | Named d => match d !! lit "k" with Some (VInt k) => Some k | _ => None end
  | Positional (_ :: VInt k :: _) => Some k
  | Positional _ => None
  end.

(** The sixth column of a fetched row: [score] in retrieval.py,
    [similarity] in search_feedback.py. *)
Definition score_column (row : list value) : value :=
  default VNone (row !! 5%nat).


Section Contract.
Variable float_of_str : str -> option float.

Definition ranked (rows : list (list value)) : Prop :=
  forall i ra rb fa fb,
    rows !! i = Some ra -> rows !! S i = Some rb ->
    py_float float_of_str (score_column ra) = Ok fa ->
    py_float float_of_str (score_column rb) = Ok fb ->
    PrimFloat.leb fb fa = true.

End Contract.





End Store.

(* ===================================================================== *)
(** * Test doubles *)
(* ===================================================================== *)
Module Doubles.

(** A text-to-float conversion for runs in which no score is a text: it is
    not consulted on the rows below. *)
Definition no_float_text : str -> option float := fun _ => None.

(** A provider that answers every request with [embedding], and a store
    that accepts every connection and answers every statement with the
    first [limit] rows of [table]. *)
Definition answering (embedding : list float) (table : list (list value))
  : services :=
  {| embeddings_create := fun _ _ _ => Ok embedding;
     db_connect := fun _ _ => Ok tt;
     db_execute := fun _ _ p =>
       Ok (match Store.limit_of p with
           | Some k => take (Z.to_nat k) table
           | None => table
           end) |}.

(** A provider that must not be reached. *)
Definition unreachable : services :=
  {| embeddings_create := fun _ _ _ => Raise (ExternalError (lit "provider"));
     db_connect := fun _ _ => Raise (ExternalError (lit "store"));
     db_execute := fun _ _ _ => Raise (ExternalError (lit "store")) |}.

Definition unit_vector : list float := [1%float; 0%float; 0%float].

(** Rows in the column order search_feedback.py unpacks. *)
Definition android_rows : list (list value) :=
  [ [VInt 11; VStr (lit "Payment failed twice"); VStr (lit "IN");
     VStr (lit "Android"); VInt 1; VFloat 0.875%float];
    [VInt 4; VStr (lit "Card declined at checkout"); VNone;
     VStr (lit "Android"); VInt 2; VFloat 0.75%float];
    [VInt 29; VStr (lit "  UPI screen froze "); VStr (lit "IN");
     VStr (lit "Android"); VNone; VFloat 0.625%float] ].

(** The same rows in the column order retrieval.py selects. *)
Definition android_rows_by_score : list (list value) :=
  [ [VInt 11; VStr (lit "IN"); VStr (lit "Android"); VInt 1;
     VStr (lit "Payment failed twice"); VFloat 0.875%float];
    [VInt 4; VNone; VStr (lit "Android"); VInt 2;
     VStr (lit "Card declined at checkout"); VFloat 0.75%float];
    [VInt 29; VStr (lit "IN"); VStr (lit "Android"); VNone;
     VStr (lit "  UPI screen froze "); VFloat 0.625%float] ].

(** The records search_feedback.py builds from the first two rows. *)
Definition android_hits : list dict :=
  [ dict_of [(lit "id", VInt 11); (lit "text", VStr (lit "Payment failed twice"));
             (lit "country", VStr (lit "IN")); (lit "platform", VStr (lit "Android"));
             (lit "rating", VInt 1); (lit "similarity", VFloat 0.875%float)];
    dict_of [(lit "id", VInt 4); (lit "text", VStr (lit "Card declined at checkout"));
             (lit "country", VNone); (lit "platform", VStr (lit "Android"));
             (lit "rating", VInt 2); (lit "similarity", VFloat 0.75%float)] ].

(** A row whose score is NULL, in either column order. *)
Definition null_score_row : list value :=
  [VInt 7; VStr (lit "IN"); VStr (lit "Android"); VInt 3;
   VStr (lit "Refund pending"); VNone].

Definition unconfigured : world := World ∅ None [].

Definition configured : world :=
  World (<[lit "OPENAI_API_KEY" := lit "sk-test"]>
           (<[lit "SUPABASE_DB_URL" := lit "postgresql://db.example/postgres"]> ∅))
        None [].

(** The store is configured, the provider key is not. *)
Definition keyless : world :=
  World (<[lit "SUPABASE_DB_URL" := lit "postgresql://db.example/postgres"]> ∅)
        None [].

(** [str.isdigit] and [int(str)] on ASCII digits, enough for the ratings
    of the rows below. *)
Definition ascii_isdigit (s : str) : bool :=
  nonempty s && forallb (fun c => (0x30 <=? c) && (c <=? 0x39))%N s.

Definition ascii_int (s : str) : option Z :=
  if ascii_isdigit s
  then Some (fold_left (fun acc c => 10 * acc + Z.of_N (c - 0x30))%Z s 0%Z)
  else None.

(** Four CSV rows: the second has a white-space text, the third is a
    short line whose text field is [None]. *)
Definition seed_rows : list IngestFeedback.csvrow :=
  [ <[lit "text" := Some (lit " Payment failed ")]>
      (<[lit "rating" := Some (lit "1")]>
         (<[lit "platform" := Some (lit "Android")]> ∅));
    <[lit "text" := Some (lit "   ")]>
      (<[lit "rating" := Some (lit "5")]> ∅);
    <[lit "text" := None]> (<[lit "source" := Some (lit "support")]> ∅);
    <[lit "text" := Some (lit "Crash on login")]>
      (<[lit "country" := Some (lit "IN")]> ∅) ].

(** The file of those rows, read to its end; and a file whose reading
    fails after the first two of them. *)
Definition seed_file : IngestFeedback.reader :=
  IngestFeedback.Reader seed_rows None.

Definition torn_file : IngestFeedback.reader :=
  IngestFeedback.Reader (take 2 seed_rows)
    (Some (ExternalError (lit "UnicodeDecodeError"))).

Definition question : str := lit "why do payments fail on Android?".
Definition blank : str := [0x20; 0x09; 0xA0; 0x0A]%N.

End Doubles.


(* ===================================================================== *)
(** * Vocabulary of the properties *)
(* ===================================================================== *)
Module Filters.

(** The filter mapping of the callers: the three recognised keys, each
    [None] or a text. *)
Record QueryFilters := {
  platform : option str;
  country : option str;
  user_type : option str;
}.

(** [None], empty, or white space only. *)
Definition blank (v : option str) : bool :=
  match v with
  | Some s => negb (nonempty (strip s))
  | None => true
  end.

(** How many of the values carry a constraint. *)
Definition constrained (vs : list (option str)) : nat :=
  length (List.filter (fun v => negb (blank v)) vs).

(** The keys that carry a constraint. *)
Definition active (f : QueryFilters) : nat :=
  constrained [platform f; country f; user_type f].

Fixpoint starts_with (pat s : str) : bool :=
  match pat, s with
  | [], _ => true
  | p :: pat', c :: s' => (p =? c)%N && starts_with pat' s'
  | _ :: _, [] => false
  end.

(** How many times [pat] occurs in [s]. *)
Fixpoint occurrences (pat s : str) : nat :=
  match s with
  | [] => 0
  | _ :: s' => (if starts_with pat s then 1 else 0) + occurrences pat s'
  end.

(** An equality predicate of a statement compares a column with a bound
    parameter: [column = %(name)s] or [column = %s]. *)
Definition equality_predicates (statement : str) : nat :=
  occurrences (lit " = %") statement.

End Filters.

Module Records.

(** The value each record holds under [key] ([None]: no such key). *)
Definition column (key : str) (records : list dict) : list (option value) :=
  map (fun d => d !! key) records.

(** The keys of the records of search_feedback.py and of retrieval.py. *)
Definition similarity_keys : list str :=
  [lit "id"; lit "text"; lit "country"; lit "platform"; lit "rating";
   lit "similarity"].

Definition score_keys : list str :=
  [lit "id"; lit "country"; lit "platform"; lit "rating"; lit "text";
   lit "score"].

(** [d] has exactly the keys [keys]. *)
Definition has_keys (keys : list str) (d : dict) : Prop :=
  forall k, is_Some (d !! k) <-> In k keys.

Section Shape.
Variable float_of_str : str -> option float.

(** A row the loops can map: six columns, the sixth accepted by [float()]. *)
Definition mappable (row : list value) : Prop :=
  length row = 6 /\ is_ok (py_float float_of_str (Store.score_column row)) = true.

(** [d] holds the values of [row] under the names of search_feedback.py,
    the score passed through [float()]. *)
Definition similarity_record (row : list value) (d : dict) : Prop :=
  exists id_ content country platform rating similarity sim,
    row = [id_; content; country; platform; rating; similarity]
    /\ py_float float_of_str similarity = Ok sim
    /\ d !! lit "id" = Some id_ /\ d !! lit "text" = Some content
    /\ d !! lit "country" = Some country /\ d !! lit "platform" = Some platform
    /\ d !! lit "rating" = Some rating
    /\ d !! lit "similarity" = Some (VFloat sim)
    /\ has_keys similarity_keys d.

(** [d] holds the values of [row] under the names of retrieval.py. *)
Definition score_record (row : list value) (d : dict) : Prop :=
  exists id_ country platform rating text score sc,
    row = [id_; country; platform; rating; text; score]
    /\ py_float float_of_str score = Ok sc
    /\ d !! lit "id" = Some id_ /\ d !! lit "country" = Some country
    /\ d !! lit "platform" = Some platform /\ d !! lit "rating" = Some rating
    /\ d !! lit "text" = Some text
    /\ d !! lit "score" = Some (VFloat sc)
    /\ has_keys score_keys d.

End Shape.
End Records.

Module Ingested.

(** The text field of a CSV row; an absent or [None] field reads as empty. *)
Definition text_of (r : IngestFeedback.csvrow) : str :=
  match r !! lit "text" with
  | Some (Some s) => s
  | _ => []
  end.

(** The stripped texts of the rows whose text is not blank, in row order. *)
Definition nonblank_texts (rows : list IngestFeedback.csvrow) : list value :=
  omap (fun r => match strip (text_of r) with
                 | [] => None
                 | t => Some (VStr t)
                 end) rows.

(** The [text] argument of every insert statement in a log of calls. *)
Definition inserted_texts (log : list event) : list value :=
  omap (fun e => match e with
                 | DbExecute sql (Positional [_; _; _; _; _; _; text; _]) =>
                     if bool_decide (sql = IngestFeedback.insert_sql)
                     then Some text else None
                 | _ => None
                 end) log.

(** A persisted text that is neither empty nor white space only. *)
Definition not_blank (v : value) : Prop :=
  exists s, v = VStr s /\ strip s <> [].

End Ingested.


(* ===================================================================== *)
(** * Vocabulary of the further properties *)
(* ===================================================================== *)
Module Normalised.

(** An optional text as the ingestion job and app.py hand it on: [None],
    or a text that is not empty and has nothing left to strip. *)
Definition optional (v : value) : Prop :=
  v = VNone \/ exists s, v = VStr s /\ s <> [] /\ strip s = s.

(** A value the [.3f] field of an f-string accepts: a float, or an int in
    the range of [float]. *)
Definition formattable (v : value) : Prop :=
  match v with
  | VFloat _ => True
  | VInt z => is_ok (float_of_int z) = true
  | _ => False
  end.

(** What an insert of the ingestion job binds, column by column. *)
Definition insert_params (e : event) : Prop :=
  match e with
  | DbExecute sql (Positional ps) =>
      sql = IngestFeedback.insert_sql ->
      exists source country platform rating user_type created_at text emb,
        ps = [VStr source; country; platform; rating; user_type; created_at;
              VStr text; VVec emb]
        /\ strip source = source
        /\ optional country /\ optional platform /\ optional user_type
        /\ optional created_at
        /\ (rating = VNone \/ exists z, rating = VInt z)
  | _ => True
  end.

End Normalised.

Module IngestLog.

(** In the calls [new] made after the history [h], every insert comes
    right after an embedding request for the very text it stores, and
    stores the vector the provider answered to that request. *)
Definition paired (svc : services) (model : str) (h new : list event) : Prop :=
  forall i a b c d e f t g,
    new !! i = Some (DbExecute IngestFeedback.insert_sql
                       (Positional [a; b; c; d; e; f; t; g])) ->
    exists j s emb,
      i = S j /\ t = VStr s /\ g = VVec emb
      /\ new !! j = Some (EmbeddingsCreate model s)
      /\ embeddings_create svc (h ++ take j new) model s = Ok emb.

(** The calls of a run that got as far as connecting to [url]: the
    connection alone when it failed; else the connection, the delete of
    the whole table, calls that neither open nor close a connection, and
    the close. *)
Definition framed (url : str) (new : list event) : Prop :=
  new = [DbConnect (Some url)]
  \/ exists rest,
       new = DbConnect (Some url)
             :: DbExecute IngestFeedback.delete_sql (Positional [])
             :: rest ++ [DbClose]
       /\ Forall (fun e => e <> DbClose /\ forall c, e <> DbConnect c) rest.

(** The embedding requests in a log of calls. *)
Definition embedded_texts (log : list event) : list value :=
  omap (fun e => match e with
                 | EmbeddingsCreate _ text => Some (VStr text)
                 | _ => None
                 end) log.

End IngestLog.

Module Consumer.

(** A call of [match_feedback] with the given limit and filter values. *)
Definition match_feedback_call (top_k : Z) (country platform user_type : value)
    (e : event) : Prop :=
  match e with
  | DbExecute sql params =>
      sql = SearchFeedback.sql
      /\ exists qvec,
           params = Positional [VVec qvec; VInt top_k; country; platform; user_type]
  | _ => True
  end.

(** A hit whose text is a [str] or [None], as the text column of the
    store gives it. *)
Definition has_text (h : dict) : Prop :=
  h !! lit "text" = Some VNone \/ exists s, h !! lit "text" = Some (VStr s).

Section Item.
Variable float_repr : float -> str.

(** The evidence item app.py builds from a hit of the façade. *)
Definition item_of (h : dict) (item : App.EvidenceItem) : Prop :=
  App.evidence_id item = py_str float_repr (get h (lit "id"))
  /\ App.platform item = py_or (get h (lit "platform")) (VStr [])
  /\ App.country item = py_or (get h (lit "country")) (VStr [])
  /\ App.rating item = get h (lit "rating")
  /\ (exists f, h !! lit "similarity" = Some (VFloat f)
                /\ App.similarity item = if PrimFloat.eqb f 0 then 0%float else f)
  /\ App.text item = match h !! lit "text" with
                     | Some (VStr s) => strip s
                     | _ => []
                     end.
End Item.

End Consumer.


(* ===================================================================== *)
(** * app/app.py: text conversion and the PDF flowables *)
(* ===================================================================== *)
Module PyText.

(** [s.startswith(prefix)] *)
Fixpoint startswith (prefix s : str) : bool :=
  match prefix, s with
  | [], _ => true
  | p :: prefix', c :: s' => (p =? c)%N && startswith prefix' s'
  | _ :: _, [] => false
  end.

(** [s.replace(old, new)] for a one-character [old]. *)
Definition replace_char (old : N) (new : str) (s : str) : str :=
  flat_map (fun c => if (c =? old)%N then new else [c]) s.

(** The line boundaries of [str.splitlines]. *)
Definition is_linebreak (c : N) : bool :=
  (c =? 0x0A)%N || (c =? 0x0D)%N || (c =? 0x0B)%N || (c =? 0x0C)%N
  || (c =? 0x1C)%N || (c =? 0x1D)%N || (c =? 0x1E)%N || (c =? 0x85)%N
  || (c =? 0x2028)%N || (c =? 0x2029)%N.

(** [s.splitlines()], with [cur] the line read so far: a boundary ends
    the line (a carriage return directly followed by a line feed is one
    boundary), and a last line with no boundary is kept when not empty. *)
Fixpoint splitlines_from (cur s : str) : list str :=
  match s with
  | [] => match cur with [] => [] | _ => [cur] end
  | c :: rest =>
      if is_linebreak c
      then cur :: match rest with
                  | d :: rest' =>
                      if (c =? 0x0D)%N && (d =? 0x0A)%N
                      then splitlines_from [] rest'
                      else splitlines_from [] rest
                  | [] => []
                  end
      else splitlines_from (cur ++ [c]) rest
  end.

Definition splitlines (s : str) : list str := splitlines_from [] s.

End PyText.

Module AppText.

(** The scalars and containers [to_readable_text] tells apart. *)
Inductive atom :=
| ANone
| AStr (s : str)
| AInt (z : Z)
| AFloat (f : float)
| ABool (b : bool).

#[warnings="-register-all"]
Inductive obj :=
| Atom (a : atom)
| Dict (items : list (atom * obj))
| List (items : list obj).

Section AppText.
(** [repr(float)] and [str.title], both of CPython. *)
Variable float_repr : float -> str.
Variable title : str -> str.

(** [str(a)] *)
Definition atom_str (a : atom) : str :=
  match a with
  | ANone => lit "None"
  | AStr s => s
  | AInt z => str_of_int z
  | AFloat f => float_repr f
  | ABool true => lit "True"
  | ABool false => lit "False"
  end.

(** [to_readable_text(x)] on values nested less deep than the
    interpreter's recursion limit; the [json.dumps] fallback is for types
    outside [obj]. *)
Fixpoint to_readable_text (x : obj) : str :=
  match x with
  | Atom ANone => []
  | Atom (AStr s) => strip s
  | Atom a => atom_str a
  | Dict items =>
      strip (join [LF]
               (map (fun kv =>
                       let '(k, v) := kv in
                       let k2 := title (PyText.replace_char 0x5F (lit " ") (atom_str k)) in
                       match v with
                       | Dict _ | List _ => k2 ++ lit ":" ++ [LF] ++ to_readable_text v
                       | Atom _ => k2 ++ lit ": " ++ to_readable_text v
                       end) items))
  | List items =>
      strip (join [LF]
               (flat_map (fun item =>
                            match to_readable_text item with
                            | [] => []
                            | s => [lit "- " ++ s]
                            end) items))
  end.

End AppText.
End AppText.

Module AppPdf.

(** The four paragraph styles of [markdownish_to_flowables]. *)
Inductive style := Base | H1 | H2 | H3.

(** What the function builds with reportlab: [Paragraph(text, style)],
    [ListItem(flowable)], [ListFlowable(items, bulletType="bullet",
    leftIndent=18)] and [Spacer(width, height)]. *)
#[warnings="-register-all"]
Inductive flowable :=
| Paragraph (text : str) (st : style)
| ListItem (item : flowable)
| ListFlowable (items : list flowable)
| Spacer (width height : Z).

(** Sequencing of two steps of which the first may raise. *)
Definition and_then {A B} (r : result A) (k : A -> result B) : result B :=
  match r with
  | Ok a => k a
  | Raise e => Raise e
  end.

Fixpoint drop_letter_s (s : str) : str :=
  match s with
  | c :: s' => if (c =? 0x73)%N then drop_letter_s s' else s
  | [] => []
  end.

(** [re.sub(r"^[\\-\\*]\\s+", "", b)]: in the raw literal each doubled
    backslash is an escaped backslash, so the pattern is, at the start of
    the text, one character that is a backslash or a star, then a
    backslash, then one or more letters s. *)
Definition sub_marker (b : str) : str :=
  match b with
  | c :: d :: e :: rest =>
      if ((c =? 0x5C) || (c =? 0x2A))%N && (d =? 0x5C)%N && (e =? 0x73)%N
      then drop_letter_s rest
      else b
  | _ => b
  end.

(** [line.replace("&", "&amp;").replace("<", "&lt;").replace(">", "&gt;")] *)
Definition safe (line : str) : str :=
  PyText.replace_char 0x3E (lit "&gt;")
    (PyText.replace_char 0x3C (lit "&lt;")
       (PyText.replace_char 0x26 (lit "&amp;") line)).

Section AppPdf.
(** reportlab parses the markup of a text when the paragraph is built:
    [paragraph_error text style] is the exception [Paragraph(text, style)]
    raises on a text it rejects, [None] on a text it accepts. *)
Variable paragraph_error : str -> style -> option exn.

(** [Paragraph(text, st)] *)
Definition new_paragraph (text : str) (st : style) : result flowable :=
  match paragraph_error text st with
  | Some e => Raise e
  | None => Ok (Paragraph text st)
  end.

(** [flush_bullets()], on the pair ([flow], [bullet_buf]): the items are
    built one after the other, from the text of each buffered line as the
    substitution leaves it. *)
Definition flush_bullets (state : list flowable * list str)
  : result (list flowable * list str) :=
  match snd state with
  | [] => Ok state
  | bullet_buf =>
      and_then
        (for_append (fun b => and_then (new_paragraph (sub_marker b) Base)
                                       (fun p => Ok (ListItem p)))
                    bullet_buf [])
        (fun items => Ok (fst state ++ [ListFlowable items; Spacer 1 6], []))
  end.

(** [flush_bullets()] followed by [flow.append(Paragraph(text, st))], the
    pair of statements of lines 279-280, 283-284, 287-288 and 295-297. *)
Definition flush_and_append (state : list flowable * list str)
    (text : str) (st : style) : result (list flowable * list str) :=
  and_then (flush_bullets state) (fun state =>
  and_then (new_paragraph text st) (fun p =>
  Ok (fst state ++ [p], snd state))).

(** The body of [for raw in lines]. *)
Definition step (state : list flowable * list str) (raw : str)
  : result (list flowable * list str) :=
  let line := strip raw in
  if negb (nonempty line) then flush_bullets state
  else if PyText.startswith (lit "### ") line then
    flush_and_append state (drop 4 line) H3
  else if PyText.startswith (lit "## ") line then
    flush_and_append state (drop 3 line) H2
  else if PyText.startswith (lit "# ") line then
    flush_and_append state (drop 2 line) H1
  else if PyText.startswith (lit "- ") line || PyText.startswith (lit "* ") line then
    Ok (fst state, snd state ++ [line])
  else
    flush_and_append state (safe line) Base.

(** [for raw in lines: ...]: the first line whose body raises ends the
    loop with that exception. *)
Fixpoint for_lines (lines : list str) (state : list flowable * list str)
  : result (list flowable * list str) :=
  match lines with
  | [] => Ok state
  | raw :: rest => and_then (step state raw) (for_lines rest)
  end.

Definition markdownish_to_flowables (md_text : option str)
  : result (list flowable) :=
  let lines := PyText.splitlines (default [] md_text) in
  and_then (for_lines lines ([], [])) (fun state =>
  and_then (flush_bullets state) (fun state =>
  Ok (fst state))).

(** [build_pdf_bytes(title, content)] up to the call of [doc.build]: the
    text [full] and the flowables built from it, or the exception raised
    while they are built.  What [doc.build] does with them is outside the
    model. *)
Definition full (title content : str) : str :=
  lit "# " ++ title ++ [LF; LF] ++ strip content ++ [LF].

Definition build_pdf_flowables (title content : str) : result (list flowable) :=
  markdownish_to_flowables (Some (full title content)).

End AppPdf.
End AppPdf.

Module Flow.

(** A buffered bullet line: stripped, and opening with a dash or a star
    followed by a space. *)
Definition bullet_line (t : str) : Prop :=
  PyText.startswith (lit "- ") t || PyText.startswith (lit "* ") t = true
  /\ strip t = t.

(** No raw angle bracket. *)
Definition escaped (t : str) : Prop := ~ In 0x3C%N t /\ ~ In 0x3E%N t.

(** The items of the bullet list built from the texts [lines]: each a
    list item around a paragraph in the base style. *)
Definition bullet_items (lines : list str) : list AppPdf.flowable :=
  map (fun t => AppPdf.ListItem (AppPdf.Paragraph t AppPdf.Base)) lines.

(** Every bullet list is directly followed by the spacer. *)
Definition spaced (flow : list AppPdf.flowable) : Prop :=
  forall i items,
    flow !! i = Some (AppPdf.ListFlowable items) ->
    flow !! S i = Some (AppPdf.Spacer 1 6).

Section Flow.
Variable paragraph_error : str -> AppPdf.style -> option exn.

(** What holds of every flowable [markdownish_to_flowables] appends to
    [flow]: a paragraph holds a text reportlab accepted, escaped and not
    empty when it is in the base style; a bullet list holds the items of
    buffered lines, markers included, each accepted by reportlab. *)
Definition well_formed (fl : AppPdf.flowable) : Prop :=
  match fl with
  | AppPdf.Paragraph t AppPdf.Base =>
      escaped t /\ t <> [] /\ paragraph_error t AppPdf.Base = None
  | AppPdf.Paragraph t st => paragraph_error t st = None
  | AppPdf.ListItem _ => False
  | AppPdf.ListFlowable items =>
      exists lines,
        items = bullet_items lines /\ lines <> []
        /\ Forall bullet_line lines
        /\ Forall (fun t => paragraph_error t AppPdf.Base = None) lines
  | AppPdf.Spacer w h => w = 1%Z /\ h = 6%Z
  end.

(** What the loop of [markdownish_to_flowables] keeps true of its state. *)
Definition invariant (state : list AppPdf.flowable * list str) : Prop :=
  Forall well_formed (fst state) /\ spaced (fst state)
  /\ Forall bullet_line (snd state).

(** A state whose buffer holds a line reportlab rejects. *)
Definition doomed (state : list AppPdf.flowable * list str) : Prop :=
  exists b, In b (snd state) /\ bullet_line b
            /\ is_Some (paragraph_error b AppPdf.Base).

End Flow.

(** A stand-in for reportlab's parser: it rejects a text that holds a
    raw [<]. *)
Definition no_open_tag (t : str) (st : AppPdf.style) : option exn :=
  if existsb (N.eqb 0x3C) t then Some ValueError else None.

End Flow.

(* ===================================================================== *)
(** * Properties *)
(* ===================================================================== *)

(** ** Facts about [strip] *)

Lemma lstrip_length (s : str) : length (lstrip s) <= length s.
Proof.
  induction s as [|c s IH]; simpl; [lia|].
  destruct (is_space c); simpl; lia.
Qed.

Lemma lstrip_head (s : str) :
  match lstrip s with [] => True | c :: _ => is_space c = false end.
Proof.
  induction s as [|c s IH]; simpl; [exact I|].
  destruct (is_space c) eqn:E; [exact IH | exact E].
Qed.

Lemma lstrip_keeps (c : N) (s : str) :
  is_space c = false -> lstrip (c :: s) = c :: s.
Proof. intros E. simpl. now rewrite E. Qed.

Lemma lstrip_idem (s : str) : lstrip (lstrip s) = lstrip s.
Proof.
  pose proof (lstrip_head s) as H.
  destruct (lstrip s) as [|c t]; [reflexivity|].
  now apply lstrip_keeps.
Qed.

Lemma lstrip_snoc (s : str) (c : N) :
  is_space c = false -> lstrip (s ++ [c]) = lstrip s ++ [c].
Proof.
  intros E. induction s as [|d s IH]; simpl.
  - now rewrite E.
  - destruct (is_space d); [exact IH | reflexivity].
Qed.

Lemma rstrip_idem (s : str) : rstrip (rstrip s) = rstrip s.
Proof. unfold rstrip. now rewrite rev_involutive, lstrip_idem. Qed.

Lemma rstrip_head (c : N) (s : str) :
  is_space c = false -> rstrip (c :: s) = c :: rstrip s.
Proof.
  intros E. unfold rstrip. simpl rev at 2.
  rewrite lstrip_snoc by exact E.
  now rewrite rev_app_distr.
Qed.

(** [strip] is idempotent: what it returns has nothing left to strip. *)
Lemma strip_idem (s : str) : strip (strip s) = strip s.
Proof.
  unfold strip.
  pose proof (lstrip_head s) as H.
  destruct (lstrip s) as [|c t].
  - reflexivity.
  - rewrite (rstrip_head c t H), (lstrip_keeps c _ H), <- (rstrip_head c t H).
    apply rstrip_idem.
Qed.

(** The stripped text is empty exactly when every character is white space. *)
Lemma lstrip_nil_iff (s : str) : lstrip s = [] <-> forallb is_space s = true.
Proof.
  induction s as [|c s IH]; simpl; [tauto|].
  destruct (is_space c); simpl; [exact IH | split; discriminate].
Qed.

Lemma strip_nil_iff (s : str) : strip s = [] <-> forallb is_space s = true.
Proof.
  rewrite <- lstrip_nil_iff. unfold strip. split.
  - intros H. pose proof (lstrip_head s) as Hh.
    destruct (lstrip s) as [|c t]; [reflexivity|].
    rewrite (rstrip_head c t Hh) in H. discriminate.
  - intros ->. reflexivity.
Qed.

Lemma nonempty_false (s : str) : nonempty s = false <-> s = [].
Proof. destruct s; simpl; split; congruence. Qed.

Lemma nonempty_true (s : str) : nonempty s = true <-> s <> [].
Proof. destruct s; simpl; split; congruence. Qed.

(** ** Facts about the append loop *)

Lemma for_append_acc {A B} (body : A -> result B) (xs : list A) (acc out : list B) :
  for_append body xs acc = Ok out <->
  exists ys, out = acc ++ ys /\ Forall2 (fun x y => body x = Ok y) xs ys.
Proof.
  revert acc. induction xs as [|x xs IH]; simpl; intros acc.
  - split.
    + intros [= <-]. exists []. split; [now rewrite app_nil_r | constructor].
    + intros (ys & -> & H). inversion H. now rewrite app_nil_r.
  - destruct (body x) as [y|e] eqn:E.
    + rewrite IH. split.
      * intros (ys & -> & H). exists (y :: ys). split.
        -- now rewrite <- app_assoc.
        -- constructor; assumption.
      * intros (ys & -> & H). inversion H as [|? y' ? ys' Hy Hys]; subst.
        rewrite E in Hy. injection Hy as <-. exists ys'. split; [|assumption].
        now rewrite <- app_assoc.
    + split; [discriminate|].
      intros (ys & _ & H). inversion H; subst. congruence.
Qed.

(** The loop returns exactly when the body returns on every element, and
    then with the bodies' results in element order. *)
Lemma for_append_Forall2 {A B} (body : A -> result B) (xs : list A) (out : list B) :
  for_append body xs [] = Ok out <-> Forall2 (fun x y => body x = Ok y) xs out.
Proof.
  rewrite for_append_acc. split.
  - intros (ys & -> & H). exact H.
  - intros H. exists out. split; [reflexivity | exact H].
Qed.

(** The first element whose body raises decides the exception. *)
Lemma for_append_raise {A B} (body : A -> result B) (xs : list A) (acc : list B) (e : exn) :
  for_append body xs acc = Raise e ->
  exists x, In x xs /\ body x = Raise e.
Proof.
  revert acc. induction xs as [|x xs IH]; simpl; intros acc H; [discriminate|].
  destruct (body x) as [y|e'] eqn:E.
  - destruct (IH _ H) as (x' & Hin & Hx'). exists x'. auto.
  - injection H as <-. exists x. auto.
Qed.

(** ** The façade of scripts/search_feedback.py: configuration and blank
       questions *)

Lemma missing_false (v : option str) :
  SearchFeedback.missing v = false <-> exists s, v = Some s /\ s <> [].
Proof.
  destruct v as [[|c t]|]; simpl; split.
  - discriminate.
  - intros (s & Hs & H). injection Hs as <-. congruence.
  - intros _. eexists. split; [reflexivity | discriminate].
  - reflexivity.
  - discriminate.
  - intros (s & H & _). discriminate.
Qed.

(** C1, as stated, fails on the façade: with no store URL in the
    environment a blank question raises instead of returning the empty
    list. *)
Lemma blank_question_unconfigured_raises :
  SearchFeedback.search_feedback Doubles.no_float_text Doubles.unreachable
    (Some Doubles.blank) 5 None None None Doubles.unconfigured
  = (Raise (RuntimeError (lit "Missing SUPABASE_DB_URL in .env")),
     Doubles.unconfigured).
Proof. reflexivity. Qed.

(** C1 (amended): once the store URL is configured, a question that is
    [None], empty or white space only makes [search_feedback] return the
    empty list with the process state as it was: nothing is added to the
    log of external calls, so neither the provider nor the store is
    reached. *)
Theorem blank_question_short_circuits
    (float_of_str : str -> option float) (svc : services) (w : world)
    (query : option str) (top_k : Z) (country platform user_type : option str) :
  SearchFeedback.missing (environ w !! lit "SUPABASE_DB_URL") = false ->
  strip (default [] query) = [] ->
  SearchFeedback.search_feedback float_of_str svc query top_k
    country platform user_type w = (Ok [], w).
Proof.
  intros Hurl Hblank.
  unfold SearchFeedback.search_feedback, bind, getenv.
  rewrite Hurl, Hblank. reflexivity.
Qed.

Lemma blank_question_short_circuits_witness :
  SearchFeedback.missing (environ Doubles.configured !! lit "SUPABASE_DB_URL") = false
  /\ strip (default [] (Some Doubles.blank)) = []
  /\ SearchFeedback.search_feedback Doubles.no_float_text Doubles.unreachable
       (Some Doubles.blank) 5 None (Some (lit "Android")) None Doubles.configured
     = (Ok [], Doubles.configured).
Proof.
  split; [reflexivity|]. split; [reflexivity|].
  apply (blank_question_short_circuits Doubles.no_float_text Doubles.unreachable
           Doubles.configured (Some Doubles.blank) 5 None (Some (lit "Android")) None);
    reflexivity.
Defined.

(** src/agents/retrieval.py has no such guard: a blank question is sent to
    the provider and the statement is executed. *)
Lemma retrieval_embeds_blank_question :
  calls (snd (Retrieval.search_feedback Doubles.no_float_text
                (Doubles.answering Doubles.unit_vector [])
                Doubles.blank 6 None None Doubles.unconfigured))
  = [EmbeddingsCreate (lit "text-embedding-3-small") Doubles.blank;
     DbConnect None;
     DbExecute (Retrieval.sql [])
       (Named (dict_of [(lit "q_emb", VVec Doubles.unit_vector); (lit "k", VInt 6)]));
     DbClose].
Proof. reflexivity. Qed.

(** C6, as stated, fails on the façade: with the provider key absent a
    blank question still returns the empty list, and no error is raised. *)
Lemma blank_question_keyless_returns :
  SearchFeedback.search_feedback Doubles.no_float_text Doubles.unreachable
    (Some Doubles.blank) 5 None None None Doubles.keyless
  = (Ok [], Doubles.keyless).
Proof. reflexivity. Qed.

(** C6 (amended): [search_feedback] of scripts/search_feedback.py raises
    [RuntimeError] with the process state untouched (no provider call, no
    store call, no second attempt)
    - for every question, when SUPABASE_DB_URL is unset or empty;
    - for every non-blank question, when the URL is set, no client is cached
      yet and OPENAI_API_KEY is unset or empty. *)
Theorem missing_configuration_raises
    (float_of_str : str -> option float) (svc : services) (w : world)
    (query : option str) (top_k : Z) (country platform user_type : option str) :
  (SearchFeedback.missing (environ w !! lit "SUPABASE_DB_URL") = true ->
   SearchFeedback.search_feedback float_of_str svc query top_k
     country platform user_type w
   = (Raise (RuntimeError (lit "Missing SUPABASE_DB_URL in .env")), w))
  /\
  (SearchFeedback.missing (environ w !! lit "SUPABASE_DB_URL") = false ->
   strip (default [] query) <> [] ->
   _client w = None ->
   SearchFeedback.missing (environ w !! lit "OPENAI_API_KEY") = true ->
   SearchFeedback.search_feedback float_of_str svc query top_k
     country platform user_type w
   = (Raise (RuntimeError (lit "Missing OPENAI_API_KEY in .env")), w)).
Proof.
  split.
  - intros Hurl.
    unfold SearchFeedback.search_feedback, bind, getenv. now rewrite Hurl.
  - intros Hurl Hq Hc Hkey.
    unfold SearchFeedback.search_feedback, bind, getenv. rewrite Hurl.
    apply nonempty_true in Hq. rewrite Hq. simpl.
    unfold SearchFeedback.embed, bind, getenv_default, SearchFeedback.get_client.
    rewrite Hc.
    destruct (environ w !! lit "OPENAI_API_KEY") as [[|c k]|]; simpl in *;
      try discriminate; reflexivity.
Qed.

Lemma missing_configuration_raises_witness :
  SearchFeedback.search_feedback Doubles.no_float_text Doubles.unreachable
    (Some Doubles.question) 5 None None None Doubles.unconfigured
  = (Raise (RuntimeError (lit "Missing SUPABASE_DB_URL in .env")), Doubles.unconfigured)
  /\
  SearchFeedback.search_feedback Doubles.no_float_text Doubles.unreachable
    (Some Doubles.question) 5 None None None Doubles.keyless
  = (Raise (RuntimeError (lit "Missing OPENAI_API_KEY in .env")), Doubles.keyless).
Proof.
  split.
  - apply (proj1 (missing_configuration_raises Doubles.no_float_text
                    Doubles.unreachable Doubles.unconfigured
                    (Some Doubles.question) 5 None None None)).
    reflexivity.
  - apply (proj2 (missing_configuration_raises Doubles.no_float_text
                    Doubles.unreachable Doubles.keyless
                    (Some Doubles.question) 5 None None None)).
    + reflexivity.
    + vm_compute. discriminate.
    + reflexivity.
    + reflexivity.
Defined.

(** ** The query builder of src/agents/retrieval.py *)

Lemma given_not_blank (v : option str) : Retrieval.given v = negb (Filters.blank v).
Proof.
  destruct v as [[|c s]|]; simpl; try reflexivity.
  now rewrite Bool.negb_involutive.
Qed.

(** C3, as stated, fails on both builders: with [platform] and [user_type]
    given (two constrained keys), the statement of retrieval.py carries one
    equality predicate, as it has no [user_type] parameter to receive the
    third key, and the statement of search_feedback.py carries none: it
    forwards the three values, a blank one included, as arguments of
    [match_feedback]. *)
Lemma user_type_compiles_to_no_predicate :
  let f := {| Filters.platform := Some (lit "Android");
              Filters.country := Some (lit "  ");
              Filters.user_type := Some (lit "trial") |} in
  Filters.active f = 2
  /\ Filters.equality_predicates
       (Retrieval.sql
          (fst (Retrieval.filters_and_params Doubles.unit_vector 3
                  (Filters.platform f) (Filters.country f)))) = 1
  /\ calls (snd (SearchFeedback.search_feedback Doubles.no_float_text
                   (Doubles.answering Doubles.unit_vector Doubles.android_rows)
                   (Some Doubles.question) 3
                   (Filters.country f) (Filters.platform f) (Filters.user_type f)
                   Doubles.configured))
     = [EmbeddingsCreate (lit "text-embedding-3-small") Doubles.question;
        DbConnect (Some (lit "postgresql://db.example/postgres"));
        DbExecute SearchFeedback.sql
          (Positional [VVec Doubles.unit_vector; VInt 3; VStr (lit "  ");
                       VStr (lit "Android"); VStr (lit "trial")]);
        DbClose]
  /\ Filters.equality_predicates SearchFeedback.sql = 0.
Proof. vm_compute. repeat split. Qed.

(** C3 (amended): in the builder of src/agents/retrieval.py, over the keys
    [platform] and [country]: a key that is [None], empty or white space
    only adds no predicate and no parameter; every other key adds exactly
    one predicate [key = %(key)s], bound to its stripped value; the
    predicates are joined by [and] under one [where]; the statement holds
    as many equality predicates as there are such keys, and none when both
    are blank. *)
Theorem filters_compile_to_predicates
    (q_emb : list float) (top_k : Z) (platform country : option str) :
  let filters := fst (Retrieval.filters_and_params q_emb top_k platform country) in
  let params := snd (Retrieval.filters_and_params q_emb top_k platform country) in
  filters
  = (if Filters.blank platform then [] else [lit "platform = %(platform)s"])
    ++ (if Filters.blank country then [] else [lit "country = %(country)s"])
  /\ params !! lit "platform"
     = (if Filters.blank platform then None
        else Some (VStr (strip (default [] platform))))
  /\ params !! lit "country"
     = (if Filters.blank country then None
        else Some (VStr (strip (default [] country))))
  /\ Retrieval.where_clause filters
     = (if Filters.blank platform && Filters.blank country then []
        else lit "where " ++ join (lit " and ") filters)
  /\ Filters.equality_predicates (Retrieval.sql filters)
     = Filters.constrained [platform; country]
  /\ (Filters.blank platform = true -> Filters.blank country = true ->
      Retrieval.sql filters = Retrieval.sql_head ++ Retrieval.sql_tail).
Proof.
  unfold Retrieval.filters_and_params.
  assert (Hg : forall v : option str,
             match v with
             | Some s => nonempty s && nonempty (strip s)
             | None => false
             end = negb (Filters.blank v)) by apply given_not_blank.
  pose proof (Hg platform) as Hp. pose proof (Hg country) as Hc.
  unfold Filters.constrained.
  destruct platform as [p|], country as [c|]; cbn [default List.filter] in *.
  - rewrite Hp, Hc.
    destruct (Filters.blank (Some p)), (Filters.blank (Some c));
      cbn [negb fst snd app]; repeat split; try discriminate; reflexivity.
  - rewrite Hp.
    destruct (Filters.blank (Some p));
      cbn [negb fst snd app]; repeat split; try discriminate; reflexivity.
  - rewrite Hc.
    destruct (Filters.blank (Some c));
      cbn [negb fst snd app]; repeat split; try discriminate; reflexivity.
  - repeat split; reflexivity.
Qed.

(** ** The result mappers *)

Section Mappers.
Variable float_of_str : str -> option float.

(** What one row of search_feedback.py maps to, field by field. *)
Lemma scripts_row_fields (row : list value) (d : dict) :
  SearchFeedback.row_to_dict float_of_str row = Ok d ->
  Records.similarity_record float_of_str row d.
Proof.
  unfold SearchFeedback.row_to_dict, unpack6.
  destruct row as [|a [|b [|c [|d' [|e [|f [|g r]]]]]]]; try discriminate.
  destruct (py_float float_of_str f) as [sim|x] eqn:E; [|discriminate].
  intros [= <-]. exists a, b, c, d', e, f, sim.
  repeat split; try reflexivity; try assumption.
  - intros Hk. unfold dict_of in Hk. cbn [foldl fst snd] in Hk.
    repeat (apply lookup_insert_is_Some in Hk; destruct Hk as [<-|[_ Hk]];
            [vm_compute; tauto|]).
    rewrite lookup_empty in Hk. destruct Hk; discriminate.
  - intros Hin. cbn in Hin.
    repeat (destruct Hin as [<-|Hin]; [eexists; reflexivity|]). destruct Hin.
Qed.

(** What one row of retrieval.py maps to, field by field. *)
Lemma retrieval_row_fields (row : list value) (d : dict) :
  Retrieval.row_to_dict float_of_str row = Ok d ->
  Records.score_record float_of_str row d.
Proof.
  unfold Retrieval.row_to_dict, unpack6.
  destruct row as [|a [|b [|c [|d' [|e [|f [|g r]]]]]]]; try discriminate.
  destruct (py_float float_of_str f) as [sc|x] eqn:E; [|discriminate].
  intros [= <-]. exists a, b, c, d', e, f, sc.
  repeat split; try reflexivity; try assumption.
  - intros Hk. unfold dict_of in Hk. cbn [foldl fst snd] in Hk.
    repeat (apply lookup_insert_is_Some in Hk; destruct Hk as [<-|[_ Hk]];
            [vm_compute; tauto|]).
    rewrite lookup_empty in Hk. destruct Hk; discriminate.
  - intros Hin. cbn in Hin.
    repeat (destruct Hin as [<-|Hin]; [eexists; reflexivity|]). destruct Hin.
Qed.

(** Both loop bodies return exactly on the mappable rows: a row of another
    arity is a [ValueError], a score [float()] rejects raises what
    [float()] raises. *)
Lemma scripts_row_mappable (row : list value) :
  is_ok (SearchFeedback.row_to_dict float_of_str row) = true
  <-> Records.mappable float_of_str row.
Proof.
  unfold SearchFeedback.row_to_dict, unpack6, Records.mappable, Store.score_column.
  destruct row as [|a [|b [|c [|d' [|e [|f [|g r]]]]]]]; cbn;
    try (split; [discriminate | intros [H _]; discriminate]).
  destruct (py_float float_of_str f); cbn; intuition congruence.
Qed.

Lemma retrieval_row_mappable (row : list value) :
  is_ok (Retrieval.row_to_dict float_of_str row) = true
  <-> Records.mappable float_of_str row.
Proof.
  unfold Retrieval.row_to_dict, unpack6, Records.mappable, Store.score_column.
  destruct row as [|a [|b [|c [|d' [|e [|f [|g r]]]]]]]; cbn;
    try (split; [discriminate | intros [H _]; discriminate]).
  destruct (py_float float_of_str f); cbn; intuition congruence.
Qed.

End Mappers.

Lemma for_append_in_order {A B} (body : A -> result B) (xs : list A) (out : list B) :
  for_append body xs [] = Ok out ->
  length out = length xs
  /\ forall i x, xs !! i = Some x -> exists y, out !! i = Some y /\ body x = Ok y.
Proof.
  intros H. apply for_append_Forall2 in H. split.
  - symmetry. eapply Forall2_length; eauto.
  - intros i x Hx. destruct (Forall2_lookup_l _ _ _ _ _ H Hx) as (y & Hy & Hxy).
    eauto.
Qed.

Lemma for_append_is_ok {A B} (body : A -> result B) (xs : list A) :
  is_ok (for_append body xs []) = true
  <-> Forall (fun x => is_ok (body x) = true) xs.
Proof.
  split.
  - destruct (for_append body xs []) as [out|e] eqn:E; [|discriminate].
    intros _. apply for_append_Forall2 in E.
    induction E as [|x y xs ys Hxy _ IH]; constructor; [now rewrite Hxy | exact IH].
  - intros H.
    assert (exists out, Forall2 (fun x y => body x = Ok y) xs out) as [out Hout].
    { induction H as [|x xs Hx _ [out IH]]; [exists []; constructor|].
      destruct (body x) as [y|e] eqn:E; [|discriminate].
      exists (y :: out). constructor; assumption. }
    apply for_append_Forall2 in Hout. now rewrite Hout.
Qed.

(** C7: for every sequence of rows, when the mapper of either module
    returns, its output has the length of the input and its i-th record
    holds the values of the i-th row, under the field names of the module
    and with the score passed through [float()]; and it returns whenever
    every row is mappable. *)
Theorem mapper_keeps_row_order
    (float_of_str : str -> option float) (rows : list (list value)) :
  (forall out,
      for_append (SearchFeedback.row_to_dict float_of_str) rows [] = Ok out ->
      length out = length rows
      /\ forall i row, rows !! i = Some row ->
           exists d, out !! i = Some d
                     /\ Records.similarity_record float_of_str row d)
  /\ (forall out,
      for_append (Retrieval.row_to_dict float_of_str) rows [] = Ok out ->
      length out = length rows
      /\ forall i row, rows !! i = Some row ->
           exists d, out !! i = Some d
                     /\ Records.score_record float_of_str row d)
  /\ (Forall (Records.mappable float_of_str) rows ->
      is_ok (for_append (SearchFeedback.row_to_dict float_of_str) rows []) = true
      /\ is_ok (for_append (Retrieval.row_to_dict float_of_str) rows []) = true).
Proof.
  split; [|split].
  - intros out H. apply for_append_in_order in H as [Hlen Hi].
    split; [exact Hlen|]. intros i row Hrow.
    destruct (Hi i row Hrow) as (d & Hd & Hbody).
    exists d. split; [exact Hd|]. now apply scripts_row_fields.
  - intros out H. apply for_append_in_order in H as [Hlen Hi].
    split; [exact Hlen|]. intros i row Hrow.
    destruct (Hi i row Hrow) as (d & Hd & Hbody).
    exists d. split; [exact Hd|]. now apply retrieval_row_fields.
  - intros H. split; apply for_append_is_ok; eapply Forall_impl; eauto; cbn;
      intros row Hrow.
    + now apply scripts_row_mappable.
    + now apply retrieval_row_mappable.
Qed.

(** The mapper of search_feedback.py on the first two rows. *)
Lemma android_map :
  for_append (SearchFeedback.row_to_dict Doubles.no_float_text)
    (take 2 Doubles.android_rows) []
  = Ok Doubles.android_hits.
Proof. vm_compute. reflexivity. Qed.

Lemma mapper_keeps_row_order_witness :
  length Doubles.android_hits = length (take 2 Doubles.android_rows)
  /\ exists d,
       Doubles.android_hits !! 1%nat = Some d
       /\ Records.similarity_record Doubles.no_float_text
            [VInt 4; VStr (lit "Card declined at checkout"); VNone;
             VStr (lit "Android"); VInt 2; VFloat 0.75%float] d.
Proof.
  destruct (proj1 (mapper_keeps_row_order Doubles.no_float_text
                     (take 2 Doubles.android_rows))
              Doubles.android_hits android_map) as [Hlen Hi].
  split; [exact Hlen|]. exact (Hi 1%nat _ eq_refl).
Defined.

(** C2, as stated, fails on both mappers: a row whose score is NULL makes
    the loop raise [TypeError]; no record with a 0.0 score is produced.  So
    does a row that lacks a column ([ValueError]). *)
Lemma null_score_raises :
  for_append (SearchFeedback.row_to_dict Doubles.no_float_text)
    (Doubles.android_rows ++ [Doubles.null_score_row]) [] = Raise TypeError
  /\ for_append (Retrieval.row_to_dict Doubles.no_float_text)
       (Doubles.android_rows_by_score ++ [Doubles.null_score_row]) [] = Raise TypeError
  /\ for_append (SearchFeedback.row_to_dict Doubles.no_float_text)
       [[VInt 7; VStr (lit "Refund pending"); VFloat 0.5%float]] [] = Raise ValueError.
Proof. repeat split. Qed.

(** C2 (amended): for every sequence of rows, the mapper of either module
    returns exactly when every row has six columns and a sixth column that
    [float()] accepts; each record then holds the row's values under the
    module's field names ([None] stays [None]) and the score passed through
    [float()]; otherwise the call raises. *)
Theorem rows_map_to_their_values
    (float_of_str : str -> option float) (rows : list (list value)) :
  (is_ok (for_append (SearchFeedback.row_to_dict float_of_str) rows []) = true
   <-> Forall (Records.mappable float_of_str) rows)
  /\ (is_ok (for_append (Retrieval.row_to_dict float_of_str) rows []) = true
      <-> Forall (Records.mappable float_of_str) rows)
  /\ (forall out,
        for_append (SearchFeedback.row_to_dict float_of_str) rows [] = Ok out ->
        Forall2 (Records.similarity_record float_of_str) rows out)
  /\ (forall out,
        for_append (Retrieval.row_to_dict float_of_str) rows [] = Ok out ->
        Forall2 (Records.score_record float_of_str) rows out).
Proof.
  repeat split.
  - intros H. apply for_append_is_ok in H. eapply Forall_impl; eauto; cbn.
    intros row. apply scripts_row_mappable.
  - intros H. apply for_append_is_ok. eapply Forall_impl; eauto; cbn.
    intros row. apply scripts_row_mappable.
  - intros H. apply for_append_is_ok in H. eapply Forall_impl; eauto; cbn.
    intros row. apply retrieval_row_mappable.
  - intros H. apply for_append_is_ok. eapply Forall_impl; eauto; cbn.
    intros row. apply retrieval_row_mappable.
  - intros out H. apply for_append_Forall2 in H.
    eapply Forall2_impl; eauto. apply scripts_row_fields.
  - intros out H. apply for_append_Forall2 in H.
    eapply Forall2_impl; eauto. apply retrieval_row_fields.
Qed.

(** ** Runs of the two façades *)

Lemma bind_ok {A B} (m : M A) (k : A -> M B) (w w' : world) (b : B) :
  bind m k w = (Ok b, w') ->
  exists a w1, m w = (Ok a, w1) /\ k a w1 = (Ok b, w').
Proof.
  unfold bind. destruct (m w) as [[a|e] w1]; [eauto | discriminate].
Qed.

Lemma with_connect_ok {A} (svc : services) (c : option str) (body : M A)
    (w w' : world) (a : A) :
  with_connect svc c body w = (Ok a, w') ->
  exists w1 w2, body w1 = (Ok a, w2).
Proof.
  unfold with_connect, finally.
  destruct (db_connect svc (calls w) c); [|discriminate].
  destruct (body _) as [r w2] eqn:E. intros [= -> <-]. eauto.
Qed.

Lemma call_execute_ok (svc : services) (sql : str) (p : sqlparams)
    (w w' : world) (rows : list (list value)) :
  call_execute svc sql p w = (Ok rows, w') ->
  db_execute svc (calls w) sql p = Ok rows.
Proof. unfold call_execute. now intros [= -> _]. Qed.

Section Runs.
Variable float_of_str : str -> option float.
Variable svc : services.

(** A returned list comes from rows the store answered to the statement of
    retrieval.py, with [top_k] bound to [k]. *)
Lemma retrieval_run_ok (question : str) (top_k : Z) (platform country : option str)
    (w w' : world) (out : list dict) :
  Retrieval.search_feedback float_of_str svc question top_k platform country w
  = (Ok out, w') ->
  exists h sql p rows,
    db_execute svc h sql p = Ok rows
    /\ Store.limit_of p = Some top_k
    /\ for_append (Retrieval.row_to_dict float_of_str) rows [] = Ok out.
Proof.
  unfold Retrieval.search_feedback. intros H.
  apply bind_ok in H as (db_url & w1 & _ & H).
  apply bind_ok in H as (model & w2 & _ & H).
  apply bind_ok in H as (q_emb & w3 & _ & H).
  destruct (Retrieval.filters_and_params q_emb top_k platform country)
    as [filters params] eqn:Efp.
  apply bind_ok in H as (rows & w4 & Hrows & H).
  apply with_connect_ok in Hrows as (w5 & w6 & Hrows).
  apply call_execute_ok in Hrows.
  unfold lift in H. injection H as H _.
  exists (calls w5), (Retrieval.sql filters), (Named params), rows.
  split; [exact Hrows|]. split; [|exact H].
  assert (params = snd (Retrieval.filters_and_params q_emb top_k platform country))
    as -> by now rewrite Efp.
  unfold Retrieval.filters_and_params.
  destruct platform as [p|], country as [c|];
    repeat match goal with
           | |- context [if ?b then _ else _] => destruct b
           end; reflexivity.
Qed.

(** A returned list is empty (blank question) or comes from rows the store
    answered to the [match_feedback] call, with [top_k] as its second
    argument. *)
Lemma scripts_run_ok (query : option str) (top_k : Z)
    (country platform user_type : option str) (w w' : world) (out : list dict) :
  SearchFeedback.search_feedback float_of_str svc query top_k
    country platform user_type w = (Ok out, w') ->
  (strip (default [] query) = [] /\ out = [])
  \/ exists h sql p rows,
       db_execute svc h sql p = Ok rows
       /\ Store.limit_of p = Some top_k
       /\ for_append (SearchFeedback.row_to_dict float_of_str) rows [] = Ok out.
Proof.
  unfold SearchFeedback.search_feedback. intros H.
  apply bind_ok in H as (db_url & w1 & _ & H).
  destruct (SearchFeedback.missing db_url); [discriminate|].
  destruct (strip (default [] query)) as [|c q] eqn:Eq; cbn [nonempty negb] in H.
  - left. injection H as <- _. auto.
  - right.
    apply bind_ok in H as (qvec & w2 & _ & H).
    apply bind_ok in H as (rows & w3 & Hrows & H).
    apply with_connect_ok in Hrows as (w4 & w5 & Hrows).
    apply call_execute_ok in Hrows.
    unfold lift in H. injection H as H _.
    eexists _, _, _, rows. split; [exact Hrows|]. split; [reflexivity | exact H].
Qed.




End Runs.

Lemma similarity_record_score (float_of_str : str -> option float)
    (row : list value) (d : dict) :
  Records.similarity_record float_of_str row d ->
  exists f, py_float float_of_str (Store.score_column row) = Ok f
            /\ d !! lit "similarity" = Some (VFloat f).
Proof.
  intros (a & b & c & d' & e & s & f & -> & Hf & _ & _ & _ & _ & _ & Hs & _).
  exists f. auto.
Qed.




Lemma android_rows_by_score_ranked :
  Store.ranked Doubles.no_float_text Doubles.android_rows_by_score.
Proof.
  intros i ra rb fa fb Hra Hrb Hfa Hfb.
  destruct i as [|[|[|i]]]; cbn in Hra, Hrb; try discriminate;
    injection Hra as <-; injection Hrb as <-; cbn in Hfa, Hfb;
    injection Hfa as <-; injection Hfb as <-; reflexivity.
Qed.




(** A run of the façade of search_feedback.py: a filter on Android and
    [top_k] = 2 over three ranked rows. *)
Lemma android_run :
  fst (SearchFeedback.search_feedback Doubles.no_float_text
         (Doubles.answering Doubles.unit_vector Doubles.android_rows)
         (Some Doubles.question) 2 None (Some (lit "Android")) None
         Doubles.configured)
  = Ok Doubles.android_hits.
Proof. vm_compute. reflexivity. Qed.


(** C5, as stated, fails on src/agents/retrieval.py: its records have no
    key [similarity]; the score is exposed as [score]. *)
Lemma retrieval_records_expose_score :
  match fst (Retrieval.search_feedback Doubles.no_float_text
               (Doubles.answering Doubles.unit_vector Doubles.android_rows_by_score)
               Doubles.question 2 (Some (lit "Android")) None
               Doubles.unconfigured) with
  | Ok out =>
      Records.column (lit "similarity") out = [None; None]
      /\ Records.column (lit "score") out
         = [Some (VFloat 0.875%float); Some (VFloat 0.75%float)]
  | Raise _ => False
  end.
Proof. vm_compute. split; reflexivity. Qed.

(** C5 (amended): every record returned by [search_feedback] of
    scripts/search_feedback.py, the façade app.py imports, has exactly the
    keys id, text, country, platform, rating and similarity, the last a
    float; every record returned by [search_feedback] of
    src/agents/retrieval.py has exactly the keys id, country, platform,
    rating, text and score: the score is named [score] there, and
    [similarity] is absent. *)
Theorem records_expose_fields
    (float_of_str : str -> option float) (svc : services) (w : world) :
  (forall query top_k country platform user_type out w',
      SearchFeedback.search_feedback float_of_str svc query top_k
        country platform user_type w = (Ok out, w') ->
      Forall (fun d => Records.has_keys Records.similarity_keys d
                       /\ exists f, d !! lit "similarity" = Some (VFloat f)) out)
  /\ (forall question top_k platform country out w',
      Retrieval.search_feedback float_of_str svc question top_k
        platform country w = (Ok out, w') ->
      Forall (fun d => Records.has_keys Records.score_keys d
                       /\ d !! lit "similarity" = None
                       /\ exists f, d !! lit "score" = Some (VFloat f)) out).
Proof.
  split.
  - intros query top_k country platform user_type out w' Hrun.
    apply scripts_run_ok in Hrun as [[_ ->]|(h & sql & p & rows & _ & _ & Hout)];
      [constructor|].
    apply for_append_Forall2 in Hout.
    induction Hout as [|row d rows out Hd _ IH]; constructor; [|exact IH].
    apply scripts_row_fields in Hd.
    destruct Hd as (a & b & c & d' & e & s & f & _ & _ & _ & _ & _ & _ & _ & Hs & Hkeys).
    split; [exact Hkeys | eauto].
  - intros question top_k platform country out w' Hrun.
    apply retrieval_run_ok in Hrun as (h & sql & p & rows & _ & _ & Hout).
    apply for_append_Forall2 in Hout.
    induction Hout as [|row d rows out Hd _ IH]; constructor; [|exact IH].
    apply retrieval_row_fields in Hd.
    destruct Hd as (a & b & c & d' & e & s & f & _ & _ & _ & _ & _ & _ & _ & Hs & Hkeys).
    split; [exact Hkeys|]. split; [|eauto].
    destruct (d !! lit "similarity") as [v|] eqn:E; [|reflexivity].
    assert (Hin : In (lit "similarity") Records.score_keys)
      by (apply Hkeys; eauto).
    vm_compute in Hin. intuition discriminate.
Qed.

Lemma records_expose_fields_witness :
  Forall (fun d => Records.has_keys Records.similarity_keys d
                   /\ exists f, d !! lit "similarity" = Some (VFloat f))
         Doubles.android_hits.
Proof.
  pose proof (surjective_pairing
                (SearchFeedback.search_feedback Doubles.no_float_text
                   (Doubles.answering Doubles.unit_vector Doubles.android_rows)
                   (Some Doubles.question) 2 None (Some (lit "Android")) None
                   Doubles.configured)) as E.
  rewrite android_run in E.
  exact (proj1 (records_expose_fields Doubles.no_float_text
                  (Doubles.answering Doubles.unit_vector Doubles.android_rows)
                  Doubles.configured)
           (Some Doubles.question) 2%Z None (Some (lit "Android")) None _ _ E).
Defined.

(** The consumer in app.py reads the score under [similarity]: from a
    record of search_feedback.py it takes the float (a zero is replaced by
    0.0), from a record that lacks the key, as those of retrieval.py do,
    it takes 0.0. *)
Lemma run_retrieval_reads_similarity
    (float_of_str : str -> option float) (float_repr : float -> str)
    (h : dict) (s : str) :
  h !! lit "text" = Some (VStr s) ->
  (forall f, h !! lit "similarity" = Some (VFloat f) ->
     exists item,
       App.hit_to_item float_of_str float_repr h = Ok item
       /\ App.similarity item = (if PrimFloat.eqb f 0 then 0%float else f)
       /\ App.text item = strip s)
  /\ (h !! lit "similarity" = None ->
      exists item,
        App.hit_to_item float_of_str float_repr h = Ok item
        /\ App.similarity item = 0%float).
Proof.
  intros Htext. unfold App.hit_to_item, App.or_empty_strip, get, py_or.
  rewrite Htext. split.
  - intros f ->. unfold default, from_option, id, truthy, py_float.
    destruct (PrimFloat.eqb f 0); cbn [negb];
      destruct s; cbn [nonempty]; eexists; repeat split; reflexivity.
  - intros ->. unfold default, from_option, id, truthy, py_float.
    destruct s; cbn [nonempty]; eexists; split; reflexivity.
Qed.

(** app.py collapses a blank filter to [None] before it calls the façade. *)
Lemma strip_or_none_blank (v : option str) :
  App.strip_or_none v
  = if Filters.blank v then None else Some (strip (default [] v)).
Proof.
  destruct v as [[|c s]|]; cbn; try reflexivity.
  destruct (nonempty _); reflexivity.
Qed.

(** C9: for a non-blank question, when the embedding request of the run
    succeeds, the connection opens and the store answers zero rows to the
    statement of the run, either façade returns the empty list, not an
    exception (for search_feedback.py: once the store URL is set and a
    client is cached or the provider key is set).  Nothing is asked of
    any other call of the provider or the store. *)
Theorem zero_rows_give_empty_list
    (float_of_str : str -> option float) (svc : services) (w : world)
    (question : str) (top_k : Z) :
  strip question <> [] ->
  let model := default (lit "text-embedding-3-small")
                       (environ w !! lit "OPENAI_EMBED_MODEL") in
  (forall platform country q_emb,
      let url := environ w !! lit "SUPABASE_DB_URL" in
      let h1 := calls w ++ [EmbeddingsCreate model question] in
      let built := Retrieval.filters_and_params q_emb top_k platform country in
      embeddings_create svc (calls w) model question = Ok q_emb ->
      db_connect svc h1 url = Ok tt ->
      db_execute svc (h1 ++ [DbConnect url])
        (Retrieval.sql (fst built)) (Named (snd built)) = Ok [] ->
      fst (Retrieval.search_feedback float_of_str svc question top_k
             platform country w) = Ok [])
  /\ (forall url country platform user_type qvec,
      let h1 := calls w ++ [EmbeddingsCreate model (strip question)] in
      environ w !! lit "SUPABASE_DB_URL" = Some url -> url <> [] ->
      is_Some (_client w)
      \/ SearchFeedback.missing (environ w !! lit "OPENAI_API_KEY") = false ->
      embeddings_create svc (calls w) model (strip question) = Ok qvec ->
      db_connect svc h1 (Some url) = Ok tt ->
      db_execute svc (h1 ++ [DbConnect (Some url)]) SearchFeedback.sql
        (Positional [VVec qvec; VInt top_k; of_opt country; of_opt platform;
                     of_opt user_type]) = Ok [] ->
      fst (SearchFeedback.search_feedback float_of_str svc (Some question) top_k
             country platform user_type w) = Ok []).
Proof.
  intros Hq model. split.
  - intros platform country q_emb url h1 built Hemb Hconn Hexec.
    unfold Retrieval.search_feedback, bind, getenv, getenv_default,
      Retrieval.embed_text, call_embeddings.
    fold model. rewrite Hemb.
    subst built. destruct (Retrieval.filters_and_params q_emb top_k platform country)
      as [filters params].
    unfold with_connect, finally, call_execute, record.
    cbn [calls environ _client fst snd] in *.
    fold url. fold h1. rewrite Hconn, Hexec. reflexivity.
  - intros url country platform user_type qvec h1 Hurl Hune Hclient Hemb Hconn Hexec.
    unfold SearchFeedback.search_feedback, bind, getenv. rewrite Hurl.
    destruct url as [|u0 url]; [contradiction|]. cbn [SearchFeedback.missing nonempty negb].
    change (default [] (Some question)) with question.
    apply nonempty_true in Hq. rewrite Hq. cbn [negb].
    unfold SearchFeedback.embed, bind, getenv_default, SearchFeedback.get_client,
      call_embeddings, with_connect, finally, call_execute, record.
    fold model.
    destruct (_client w) as [c|] eqn:Ec.
    + cbn [calls environ _client fst snd]. rewrite Hemb.
      cbn [calls environ _client fst snd]. fold h1. rewrite Hconn, Hexec. reflexivity.
    + destruct Hclient as [[c Hc]|Hkey]; [discriminate|].
      destruct (environ w !! lit "OPENAI_API_KEY") as [[|k ks]|]; try discriminate.
      cbn [nonempty calls environ _client fst snd]. rewrite Hemb.
      cbn [calls environ _client fst snd]. fold h1. rewrite Hconn, Hexec. reflexivity.
Qed.

(** Both façades in a configured process, against a store that answers
    no row. *)
Lemma zero_rows_give_empty_list_witness :
  fst (Retrieval.search_feedback Doubles.no_float_text
         (Doubles.answering Doubles.unit_vector [])
         Doubles.question 6 (Some (lit "iOS")) None Doubles.configured) = Ok []
  /\ fst (SearchFeedback.search_feedback Doubles.no_float_text
            (Doubles.answering Doubles.unit_vector [])
            (Some Doubles.question) 5 None (Some (lit "iOS")) None
            Doubles.configured) = Ok [].
Proof.
  assert (Hq : strip Doubles.question <> []) by (vm_compute; discriminate).
  assert (Hu : lit "postgresql://db.example/postgres" <> [])
    by (vm_compute; discriminate).
  split.
  - exact (proj1 (zero_rows_give_empty_list Doubles.no_float_text
                    (Doubles.answering Doubles.unit_vector [])
                    Doubles.configured Doubles.question 6 Hq)
             (Some (lit "iOS")) None Doubles.unit_vector eq_refl eq_refl eq_refl).
  - exact (proj2 (zero_rows_give_empty_list Doubles.no_float_text
                    (Doubles.answering Doubles.unit_vector [])
                    Doubles.configured Doubles.question 5 Hq)
             (lit "postgresql://db.example/postgres") None (Some (lit "iOS")) None
             Doubles.unit_vector eq_refl Hu (or_intror eq_refl)
             eq_refl eq_refl eq_refl).
Defined.

(** ** The ingestion job *)

Lemma get_text_or_empty (r : IngestFeedback.csvrow) :
  IngestFeedback.get_or_default r (lit "text") [] = Ingested.text_of r.
Proof.
  unfold IngestFeedback.get_or_default, Ingested.text_of.
  destruct (r !! lit "text") as [[[|c s]|]|]; reflexivity.
Qed.

Lemma inserted_texts_app (l1 l2 : list event) :
  Ingested.inserted_texts (l1 ++ l2)
  = Ingested.inserted_texts l1 ++ Ingested.inserted_texts l2.
Proof. unfold Ingested.inserted_texts. apply omap_app. Qed.

Lemma inserted_texts_insert (a b c d e f t g : value) :
  Ingested.inserted_texts
    [DbExecute IngestFeedback.insert_sql (Positional [a; b; c; d; e; f; t; g])]
  = [t].
Proof.
  unfold Ingested.inserted_texts. cbn [omap list_omap].
  now rewrite bool_decide_eq_true_2.
Qed.

Lemma nonblank_texts_cons (r : IngestFeedback.csvrow) (rows : list IngestFeedback.csvrow) :
  Ingested.nonblank_texts (r :: rows)
  = Ingested.nonblank_texts [r] ++ Ingested.nonblank_texts rows.
Proof.
  unfold Ingested.nonblank_texts. cbn [omap list_omap].
  destruct (strip (Ingested.text_of r)); reflexivity.
Qed.

Lemma nonblank_texts_not_blank (rows : list IngestFeedback.csvrow) :
  Forall Ingested.not_blank (Ingested.nonblank_texts rows).
Proof.
  induction rows as [|r rows IH]; [constructor|].
  rewrite nonblank_texts_cons. apply Forall_app. split; [|exact IH].
  unfold Ingested.nonblank_texts. cbn [omap list_omap].
  destruct (strip (Ingested.text_of r)) as [|c t] eqn:E; constructor; [|constructor].
  exists (c :: t). split; [reflexivity|].
  rewrite <- E, strip_idem, E. discriminate.
Qed.

Section Ingestion.
Variable str_isdigit : str -> bool.
Variable int_of_str : str -> option Z.
Variable svc : services.

(** One row adds to the log at most one insert, the one of its stripped
    text, and exactly that one when the row is processed without an
    exception; a row with a blank text adds nothing. *)
Lemma ingest_row_log (model : str) (r : IngestFeedback.csvrow) (w : world) :
  exists new,
    calls (snd (IngestFeedback.ingest_row str_isdigit int_of_str svc model r w))
    = calls w ++ new
    /\ Ingested.inserted_texts new `prefix_of` Ingested.nonblank_texts [r]
    /\ (is_ok (fst (IngestFeedback.ingest_row str_isdigit int_of_str svc model r w)) = true ->
        Ingested.inserted_texts new = Ingested.nonblank_texts [r]).
Proof.
  unfold IngestFeedback.ingest_row. rewrite get_text_or_empty.
  unfold Ingested.nonblank_texts. cbn [omap list_omap].
  destruct (strip (Ingested.text_of r)) as [|c t] eqn:Et; cbn [nonempty negb].
  - exists []. cbn. rewrite app_nil_r. split; [reflexivity|]. split; [reflexivity|auto].
  - unfold bind, call_embeddings, call_execute, ret, raise, record. cbn [calls].
    destruct (embeddings_create svc (calls w) model (c :: t)) as [emb|e].
    2: { eexists [_]. split; [reflexivity|]. cbn.
         split; [apply prefix_nil | discriminate]. }
    destruct (str_isdigit _).
    + destruct (int_of_str _) as [z|].
      * cbn [calls].
        match goal with
        | |- context [db_execute svc ?h ?s ?p] => destruct (db_execute svc h s p)
        end; cbn [fst snd calls];
          (eexists [_; _]; split; [now rewrite <- app_assoc|];
           change [?x; ?y] with ([x] ++ [y]);
           rewrite inserted_texts_app, inserted_texts_insert; cbn;
           split; [reflexivity | auto]).
      * eexists [_]. split; [reflexivity|]. cbn.
        split; [apply prefix_nil | discriminate].
    + cbn [calls].
      match goal with
      | |- context [db_execute svc ?h ?s ?p] => destruct (db_execute svc h s p)
      end; cbn [fst snd calls];
        (eexists [_; _]; split; [now rewrite <- app_assoc|];
         change [?x; ?y] with ([x] ++ [y]);
         rewrite inserted_texts_app, inserted_texts_insert; cbn;
         split; [reflexivity | auto]).
Qed.

Lemma ingest_rows_log (model : str) (rows : list IngestFeedback.csvrow) (w : world) :
  exists new,
    calls (snd (IngestFeedback.ingest_rows str_isdigit int_of_str svc model rows w))
    = calls w ++ new
    /\ Ingested.inserted_texts new `prefix_of` Ingested.nonblank_texts rows
    /\ (is_ok (fst (IngestFeedback.ingest_rows str_isdigit int_of_str svc model rows w)) = true ->
        Ingested.inserted_texts new = Ingested.nonblank_texts rows).
Proof.
  revert w. induction rows as [|r rows IH]; intros w.
  - exists []. cbn. rewrite app_nil_r. split; [reflexivity|]. split; [reflexivity|auto].
  - cbn [IngestFeedback.ingest_rows]. unfold bind.
    destruct (ingest_row_log model r w) as (new1 & Hlog1 & Hpre1 & Hok1).
    rewrite nonblank_texts_cons.
    destruct (IngestFeedback.ingest_row str_isdigit int_of_str svc model r w)
      as [[[]|e] w1]; cbn [fst snd is_ok] in *.
    + destruct (IH w1) as (new2 & Hlog2 & Hpre2 & Hok2).
      exists (new1 ++ new2). rewrite Hlog2, Hlog1, <- app_assoc.
      split; [reflexivity|]. rewrite inserted_texts_app, (Hok1 eq_refl).
      split; [now apply prefix_app | intros H; now rewrite (Hok2 H)].
    + exists new1. split; [exact Hlog1|].
      split; [now apply prefix_app_r | discriminate].
Qed.

Lemma ingest_reader_log (model : str) (reader : IngestFeedback.reader) (w : world) :
  exists new,
    calls (snd (IngestFeedback.ingest_reader str_isdigit int_of_str svc model reader w))
    = calls w ++ new
    /\ Ingested.inserted_texts new
       `prefix_of` Ingested.nonblank_texts (IngestFeedback.read_rows reader)
    /\ (is_ok (fst (IngestFeedback.ingest_reader str_isdigit int_of_str svc model
                      reader w)) = true ->
        Ingested.inserted_texts new
        = Ingested.nonblank_texts (IngestFeedback.read_rows reader)).
Proof.
  unfold IngestFeedback.ingest_reader, bind.
  destruct (ingest_rows_log model (IngestFeedback.read_rows reader) w)
    as (new & Hlog & Hpre & Hok).
  destruct (IngestFeedback.ingest_rows str_isdigit int_of_str svc model
              (IngestFeedback.read_rows reader) w) as [[[]|e] w1];
    cbn [fst snd is_ok] in *.
  - exists new. destruct (IngestFeedback.read_error reader);
      unfold raise, ret; cbn [fst snd is_ok]; auto.
  - exists new. auto.
Qed.

End Ingestion.

(** C8: whatever the CSV holds, whether its reading ends at the end of
    the file or fails after some rows, and whatever the provider and the
    store answer, the text of every insert [main] issues is neither empty
    nor white space only; the inserts are, in row order, those of the
    stripped texts of the rows read whose text is not blank (all of them
    when [main] ends without an exception, a prefix of them otherwise), so
    a row with a blank text gets no insert. *)
Theorem blank_text_is_never_inserted
    (str_isdigit : str -> bool) (int_of_str : str -> option Z)
    (svc : services) (csv_file : result IngestFeedback.reader) (w : world) :
  exists new,
    calls (snd (IngestFeedback.main str_isdigit int_of_str svc csv_file w))
    = calls w ++ new
    /\ Forall Ingested.not_blank (Ingested.inserted_texts new)
    /\ forall reader, csv_file = Ok reader ->
        Ingested.inserted_texts new
        `prefix_of` Ingested.nonblank_texts (IngestFeedback.read_rows reader)
        /\ (is_ok (fst (IngestFeedback.main str_isdigit int_of_str svc csv_file w)) = true ->
            Ingested.inserted_texts new
            = Ingested.nonblank_texts (IngestFeedback.read_rows reader)).
Proof.
  set (rows0 := match csv_file with
                | Ok reader => IngestFeedback.read_rows reader
                | Raise _ => []
                end).
  assert (exists new,
             calls (snd (IngestFeedback.main str_isdigit int_of_str svc csv_file w))
             = calls w ++ new
             /\ Ingested.inserted_texts new `prefix_of` Ingested.nonblank_texts rows0
             /\ (is_ok (fst (IngestFeedback.main str_isdigit int_of_str svc csv_file w)) = true ->
                 Ingested.inserted_texts new = Ingested.nonblank_texts rows0))
    as (new & Hlog & Hpre & Hok).
  { unfold IngestFeedback.main, IngestFeedback.require_env, bind, getenv,
      getenv_default, ret, raise.
    destruct (environ w !! lit "SUPABASE_DB_URL") as [[|c url]|]; cbn [nonempty];
      try (exists []; rewrite app_nil_r; cbn;
           split; [reflexivity|]; split; [apply prefix_nil | discriminate]).
    destruct (environ w !! lit "OPENAI_API_KEY") as [[|c' key]|]; cbn [nonempty];
      try (exists []; rewrite app_nil_r; cbn;
           split; [reflexivity|]; split; [apply prefix_nil | discriminate]).
    unfold with_connect, finally.
    destruct (db_connect svc (calls w) (Some (c :: url))).
    2: { eexists [_]. cbn. split; [reflexivity|].
         split; [apply prefix_nil | discriminate]. }
    unfold call_execute, lift.
    match goal with
    | |- context [db_execute svc ?h ?s ?p] => destruct (db_execute svc h s p)
    end.
    2: { eexists [_; _; _]. cbn. rewrite <- !app_assoc. split; [reflexivity|].
         split; [apply prefix_nil | discriminate]. }
    destruct csv_file as [reader|e]; subst rows0.
    2: { eexists [_; _; _]. cbn. rewrite <- !app_assoc. split; [reflexivity|].
         split; [apply prefix_nil | discriminate]. }
    match goal with
    | |- context [IngestFeedback.ingest_reader _ _ _ ?m reader ?w1] =>
        destruct (ingest_reader_log str_isdigit int_of_str svc m reader w1)
          as (new & Hlog & Hpre & Hok);
        destruct (IngestFeedback.ingest_reader str_isdigit int_of_str svc m reader w1)
          as [r w2]
    end.
    cbn [fst snd] in *.
    eexists ([_; _] ++ new ++ [_]). cbn [record calls]. rewrite Hlog. cbn [record calls].
    rewrite <- !app_assoc. split; [reflexivity|].
    rewrite !inserted_texts_app. cbn [Ingested.inserted_texts omap list_omap].
    rewrite app_nil_r. cbn [app]. auto. }
  exists new. split; [exact Hlog|]. split.
  - destruct Hpre as [k Hk].
    pose proof (nonblank_texts_not_blank rows0) as H. rewrite Hk in H.
    now apply Forall_app in H.
  - intros reader ->. subst rows0. auto.
Qed.

Lemma blank_text_is_never_inserted_witness :
  Ingested.inserted_texts
    (calls (snd (IngestFeedback.main Doubles.ascii_isdigit Doubles.ascii_int
                   (Doubles.answering Doubles.unit_vector [])
                   (Ok Doubles.seed_file) Doubles.configured)))
  = [VStr (lit "Payment failed"); VStr (lit "Crash on login")]
  /\ Forall Ingested.not_blank
       (Ingested.inserted_texts
          (calls (snd (IngestFeedback.main Doubles.ascii_isdigit Doubles.ascii_int
                         (Doubles.answering Doubles.unit_vector [])
                         (Ok Doubles.seed_file) Doubles.configured))))
  /\ Forall Ingested.not_blank
       (Ingested.inserted_texts
          (calls (snd (IngestFeedback.main Doubles.ascii_isdigit Doubles.ascii_int
                         (Doubles.answering Doubles.unit_vector [])
                         (Ok Doubles.torn_file) Doubles.configured)))).
Proof.
  split; [vm_compute; reflexivity|]. split.
  - destruct (blank_text_is_never_inserted Doubles.ascii_isdigit Doubles.ascii_int
                (Doubles.answering Doubles.unit_vector [])
                (Ok Doubles.seed_file) Doubles.configured) as (new & Hlog & H & _).
    rewrite Hlog. exact H.
  - destruct (blank_text_is_never_inserted Doubles.ascii_isdigit Doubles.ascii_int
                (Doubles.answering Doubles.unit_vector [])
                (Ok Doubles.torn_file) Doubles.configured) as (new & Hlog & H & _).
    rewrite Hlog. exact H.
Defined.

(** ** The templated generators *)

(** C10: neither generator reads its [question] argument: on the same
    evidence, any two questions give the same outcome (the same text, or
    the same exception of the similarity format field). *)
Theorem generators_ignore_question
    (float_repr float_fixed3 : float -> str) (q1 q2 : str) (evidence : list dict) :
  PmAgent.run_agentic_analysis float_repr float_fixed3 q1 evidence
  = PmAgent.run_agentic_analysis float_repr float_fixed3 q2 evidence
  /\ WeeklyPmBrief.generate_weekly_pm_brief float_repr q1 evidence
     = WeeklyPmBrief.generate_weekly_pm_brief float_repr q2 evidence.
Proof. split; reflexivity. Qed.

(** With no evidence the analysis is the template around the fallback
    line, stripped: it opens with the Summary heading. *)
Lemma analysis_without_evidence (float_repr float_fixed3 : float -> str) (q : str) :
  PmAgent.run_agentic_analysis float_repr float_fixed3 q []
  = Ok (strip (PmAgent.md_head ++ lit "- No evidence retrieved." ++ PmAgent.md_tail))
  /\ take 10 (strip (PmAgent.md_head ++ lit "- No evidence retrieved." ++ PmAgent.md_tail))
     = lit "## Summary".
Proof. split; [reflexivity | vm_compute; reflexivity]. Qed.

(** The brief lists the identifiers of the evidence that has one. *)
Lemma brief_lists_identifiers (float_repr : float -> str) (q : str) :
  WeeklyPmBrief.generate_weekly_pm_brief float_repr q
    [dict_of [(lit "evidence_id", VStr (lit "11")); (lit "text", VStr (lit "a"))];
     dict_of [(lit "text", VStr (lit "b"))];
     dict_of [(lit "evidence_id", VInt 4)]]
  = strip (WeeklyPmBrief.md_head ++ lit "11, 4" ++ WeeklyPmBrief.md_tail).
Proof. reflexivity. Qed.

(* ===================================================================== *)
(** * Further properties of the sources *)
(* ===================================================================== *)

(** ** The provider client of scripts/search_feedback.py *)

(** X1: once [get_client] has returned a handle, every later call returns
    that same handle, whatever the environment has become (the key may
    have been removed or changed), and [get_client] itself never reaches
    the provider or the store; a failed call caches nothing. *)
Theorem get_client_caches (w w1 : world) (r : result str) :
  SearchFeedback.get_client w = (r, w1) ->
  calls w1 = calls w /\ environ w1 = environ w
  /\ match r with
     | Ok c =>
         _client w1 = Some c
         /\ forall env log,
              SearchFeedback.get_client (World env (_client w1) log)
              = (Ok c, World env (_client w1) log)
     | Raise e =>
         w1 = w /\ _client w = None
         /\ e = RuntimeError (lit "Missing OPENAI_API_KEY in .env")
     end.
Proof.
  unfold SearchFeedback.get_client.
  destruct (_client w) as [c|] eqn:Ec.
  - intros [= <- <-]. rewrite Ec. repeat split; reflexivity.
  - destruct (environ w !! lit "OPENAI_API_KEY") as [[|k ks]|];
      cbn [nonempty]; intros [= <- <-]; repeat split; auto.
Qed.

Lemma get_client_caches_witness :
  SearchFeedback.get_client
    (World ∅ (_client (snd (SearchFeedback.get_client Doubles.configured))) [])
  = (Ok (lit "sk-test"), World ∅ (Some (lit "sk-test")) []).
Proof.
  pose proof (get_client_caches Doubles.configured
                (snd (SearchFeedback.get_client Doubles.configured))
                (Ok (lit "sk-test")) eq_refl) as (_ & _ & _ & H).
  exact (H ∅ []).
Defined.

(** ** The call sequence of the two façades *)

(** X2: with the store URL set, a client cached or the provider key set,
    and a non-blank question, [search_feedback] of
    scripts/search_feedback.py makes its calls strictly in sequence: one
    embedding request for the stripped question (model from
    OPENAI_EMBED_MODEL, else text-embedding-3-small); only if that
    succeeds, one connection to the URL; only if that succeeds, one
    [match_feedback] statement bound to the returned vector, [top_k] and
    the three filters as given, after which the connection is closed
    whether or not the statement failed.  The first failure is the outcome
    of the call, and nothing is attempted twice. *)
Theorem search_calls_in_sequence
    (float_of_str : str -> option float) (svc : services) (w : world)
    (query : option str) (top_k : Z) (country platform user_type : option str)
    (url : str) :
  environ w !! lit "SUPABASE_DB_URL" = Some url -> url <> [] ->
  strip (default [] query) <> [] ->
  is_Some (_client w)
  \/ SearchFeedback.missing (environ w !! lit "OPENAI_API_KEY") = false ->
  let q := strip (default [] query) in
  let model := default (lit "text-embedding-3-small")
                       (environ w !! lit "OPENAI_EMBED_MODEL") in
  let h1 := calls w ++ [EmbeddingsCreate model q] in
  let h2 := h1 ++ [DbConnect (Some url)] in
  let run := SearchFeedback.search_feedback float_of_str svc query top_k
               country platform user_type w in
  match embeddings_create svc (calls w) model q with
  | Raise e => fst run = Raise e /\ calls (snd run) = h1
  | Ok qvec =>
      let params := Positional [VVec qvec; VInt top_k; of_opt country;
                                of_opt platform; of_opt user_type] in
      match db_connect svc h1 (Some url) with
      | Raise e => fst run = Raise e /\ calls (snd run) = h2
      | Ok _ =>
          calls (snd run) = h2 ++ [DbExecute SearchFeedback.sql params; DbClose]
          /\ fst run
             = match db_execute svc h2 SearchFeedback.sql params with
               | Raise e => Raise e
               | Ok rows =>
                   for_append (SearchFeedback.row_to_dict float_of_str) rows []
               end
      end
  end.
Proof.
  intros Hurl Hne Hq Hclient. cbv zeta.
  destruct w as [env cl log]. cbn [environ _client calls] in *.
  unfold SearchFeedback.search_feedback, bind, getenv. cbn [environ].
  rewrite Hurl. destruct url as [|u0 url]; [contradiction|].
  cbn [SearchFeedback.missing nonempty negb].
  apply nonempty_true in Hq. rewrite Hq. cbn [negb].
  unfold SearchFeedback.embed, bind, getenv_default, SearchFeedback.get_client,
    call_embeddings, with_connect, finally, call_execute, lift, record.
  cbn [environ _client calls].
  assert (Hc : exists c env' cl',
             match cl with
             | Some c0 => (Ok c0, World env cl log)
             | None =>
                 match env !! lit "OPENAI_API_KEY" with
                 | Some api_key =>
                     if nonempty api_key
                     then (Ok api_key, World env (Some api_key) log)
                     else (Raise (RuntimeError (lit "Missing OPENAI_API_KEY in .env")),
                           World env cl log)
                 | None => (Raise (RuntimeError (lit "Missing OPENAI_API_KEY in .env")),
                            World env cl log)
                 end
             end = (Ok c, World env' cl' log)).
  { destruct cl as [c|]; [eauto|].
    destruct Hclient as [[c Hc]|Hk]; [discriminate|].
    destruct (env !! lit "OPENAI_API_KEY") as [[|k ks]|]; try discriminate.
    cbn [nonempty]. eauto. }
  destruct Hc as (c & env' & cl' & ->). cbn [calls environ _client].
  destruct (embeddings_create svc log _ _) as [qvec|e]; cbn [fst snd calls];
    [|split; reflexivity].
  destruct (db_connect svc _ _) as [[]|e]; cbn [fst snd calls].
  - destruct (db_execute svc _ _ _) as [rows|e]; cbn [fst snd calls].
    + destruct (for_append _ rows []); cbn [fst snd calls];
        rewrite <- !app_assoc; split; reflexivity.
    + rewrite <- !app_assoc; split; reflexivity.
  - rewrite <- !app_assoc; split; reflexivity.
Qed.

Lemma search_calls_in_sequence_witness :
  calls (snd (SearchFeedback.search_feedback Doubles.no_float_text
                (Doubles.answering Doubles.unit_vector Doubles.android_rows)
                (Some (lit "  why?  ")) 2 None (Some (lit "Android")) None
                Doubles.configured))
  = [EmbeddingsCreate (lit "text-embedding-3-small") (lit "why?");
     DbConnect (Some (lit "postgresql://db.example/postgres"));
     DbExecute SearchFeedback.sql
       (Positional [VVec Doubles.unit_vector; VInt 2; VNone;
                    VStr (lit "Android"); VNone]);
     DbClose].
Proof.
  assert (Hq : strip (default [] (Some (lit "  why?  "))) <> [])
    by (vm_compute; discriminate).
  assert (Hu : lit "postgresql://db.example/postgres" <> [])
    by (vm_compute; discriminate).
  exact (proj1 (search_calls_in_sequence Doubles.no_float_text
                  (Doubles.answering Doubles.unit_vector Doubles.android_rows)
                  Doubles.configured (Some (lit "  why?  ")) 2 None
                  (Some (lit "Android")) None
                  (lit "postgresql://db.example/postgres")
                  eq_refl Hu Hq (or_intror eq_refl))).
Defined.

(** X3: [search_feedback] of src/agents/retrieval.py, in every state and
    for every question: it first sends the question exactly as given (not
    stripped, blank or not) to the provider; if that succeeds it connects
    with whatever SUPABASE_DB_URL holds ([None] when unset), executes one
    statement with the parameters of the builder and closes the
    connection, also when the statement fails.  The first failure is the
    outcome of the call. *)
Theorem retrieval_calls_in_sequence
    (float_of_str : str -> option float) (svc : services) (w : world)
    (question : str) (top_k : Z) (platform country : option str) :
  let model := default (lit "text-embedding-3-small")
                       (environ w !! lit "OPENAI_EMBED_MODEL") in
  let url := environ w !! lit "SUPABASE_DB_URL" in
  let h1 := calls w ++ [EmbeddingsCreate model question] in
  let h2 := h1 ++ [DbConnect url] in
  let run := Retrieval.search_feedback float_of_str svc question top_k
               platform country w in
  match embeddings_create svc (calls w) model question with
  | Raise e => fst run = Raise e /\ calls (snd run) = h1
  | Ok q_emb =>
      let built := Retrieval.filters_and_params q_emb top_k platform country in
      let statement := Retrieval.sql (fst built) in
      match db_connect svc h1 url with
      | Raise e => fst run = Raise e /\ calls (snd run) = h2
      | Ok _ =>
          calls (snd run) = h2 ++ [DbExecute statement (Named (snd built)); DbClose]
          /\ fst run
             = match db_execute svc h2 statement (Named (snd built)) with
               | Raise e => Raise e
               | Ok rows =>
                   for_append (Retrieval.row_to_dict float_of_str) rows []
               end
      end
  end.
Proof.
  cbv zeta. destruct w as [env cl log].
  unfold Retrieval.search_feedback, bind, getenv, getenv_default,
    Retrieval.embed_text, call_embeddings, record.
  cbn [environ _client calls].
  destruct (embeddings_create svc log _ _) as [q_emb|e]; cbn [fst snd calls];
    [|split; reflexivity].
  destruct (Retrieval.filters_and_params q_emb top_k platform country)
    as [filters params].
  unfold with_connect, finally, call_execute, lift, record.
  cbn [environ _client calls fst snd].
  destruct (db_connect svc _ _) as [[]|e]; cbn [fst snd calls].
  - destruct (db_execute svc _ _ _) as [rows|e]; cbn [fst snd calls].
    + destruct (for_append _ rows []); cbn [fst snd calls];
        rewrite <- !app_assoc; split; reflexivity.
    + rewrite <- !app_assoc; split; reflexivity.
  - rewrite <- !app_assoc; split; reflexivity.
Qed.

(** ** The statement of src/agents/retrieval.py *)

Lemma filters_by_blankness (q_emb : list float) (top_k : Z)
    (platform country : option str) :
  fst (Retrieval.filters_and_params q_emb top_k platform country)
  = (if Filters.blank platform then [] else [lit "platform = %(platform)s"])
    ++ (if Filters.blank country then [] else [lit "country = %(country)s"]).
Proof.
  unfold Retrieval.filters_and_params.
  pose proof (given_not_blank platform) as Hp.
  pose proof (given_not_blank country) as Hc.
  unfold Retrieval.given in Hp, Hc.
  destruct platform as [p|], country as [c|]; try rewrite Hp; try rewrite Hc;
    repeat match goal with
           | |- context [Filters.blank (Some ?x)] => destruct (Filters.blank (Some x))
           end; reflexivity.
Qed.

(** X4: the text of the statement retrieval.py builds does not depend on
    the filter values, the query vector or [top_k]: two calls whose
    filters are blank or not in the same places build the same text, so a
    filter value is never spliced into the statement, only bound as a
    parameter; and the bound [q_emb] and [k] are the query vector and
    [top_k] whatever the filters are. *)
Theorem statement_ignores_filter_values
    (q1 q2 : list float) (k1 k2 : Z) (p1 p2 c1 c2 : option str) :
  Filters.blank p1 = Filters.blank p2 ->
  Filters.blank c1 = Filters.blank c2 ->
  Retrieval.sql (fst (Retrieval.filters_and_params q1 k1 p1 c1))
  = Retrieval.sql (fst (Retrieval.filters_and_params q2 k2 p2 c2))
  /\ snd (Retrieval.filters_and_params q1 k1 p1 c1) !! lit "q_emb" = Some (VVec q1)
  /\ snd (Retrieval.filters_and_params q1 k1 p1 c1) !! lit "k" = Some (VInt k1).
Proof.
  intros Hp Hc.
  rewrite !filters_by_blankness, Hp, Hc. split; [reflexivity|].
  unfold Retrieval.filters_and_params.
  destruct p1 as [a|], c1 as [b|];
    repeat match goal with
           | |- context [if ?b then _ else _] => destruct b
           end; split; reflexivity.
Qed.

Lemma statement_ignores_filter_values_witness :
  Retrieval.sql (fst (Retrieval.filters_and_params Doubles.unit_vector 3
                        (Some (lit "Android")) None))
  = Retrieval.sql (fst (Retrieval.filters_and_params [] 7
                          (Some (lit "x' or '1'='1")) (Some (lit "  ")))).
Proof.
  exact (proj1 (statement_ignores_filter_values Doubles.unit_vector [] 3 7
                  (Some (lit "Android")) (Some (lit "x' or '1'='1"))
                  None (Some (lit "  ")) eq_refl eq_refl)).
Defined.

(** ** The ingestion job: configuration, wipe, pairing, normalisation *)

(** X5: [main] of the ingestion job checks its two settings before it
    touches anything: with SUPABASE_DB_URL unset or empty it raises the
    [RuntimeError] that names that variable; with the URL set and
    OPENAI_API_KEY unset or empty, the one that names the key.  In both
    cases the state is untouched: no connection, no delete, no embedding
    request. *)
Theorem ingestion_needs_configuration
    (str_isdigit : str -> bool) (int_of_str : str -> option Z)
    (svc : services) (csv_file : result IngestFeedback.reader) (w : world) :
  (SearchFeedback.missing (environ w !! lit "SUPABASE_DB_URL") = true ->
   IngestFeedback.main str_isdigit int_of_str svc csv_file w
   = (Raise (RuntimeError
               (lit "Missing env var: SUPABASE_DB_URL. Check your .env file.")), w))
  /\ (SearchFeedback.missing (environ w !! lit "SUPABASE_DB_URL") = false ->
      SearchFeedback.missing (environ w !! lit "OPENAI_API_KEY") = true ->
      IngestFeedback.main str_isdigit int_of_str svc csv_file w
      = (Raise (RuntimeError
                  (lit "Missing env var: OPENAI_API_KEY. Check your .env file.")), w)).
Proof.
  unfold IngestFeedback.main, IngestFeedback.require_env, bind, getenv, ret, raise.
  split.
  - intros H.
    destruct (environ w !! lit "SUPABASE_DB_URL") as [[|c u]|];
      cbn [SearchFeedback.missing nonempty negb] in *;
      try discriminate; reflexivity.
  - intros H1 H2.
    destruct (environ w !! lit "SUPABASE_DB_URL") as [[|c u]|];
      cbn [SearchFeedback.missing nonempty negb] in *; try discriminate.
    destruct (environ w !! lit "OPENAI_API_KEY") as [[|c' k]|];
      cbn [SearchFeedback.missing nonempty negb] in *;
      try discriminate; reflexivity.
Qed.

Lemma ingestion_needs_configuration_witness :
  IngestFeedback.main Doubles.ascii_isdigit Doubles.ascii_int Doubles.unreachable
    (Ok Doubles.seed_file) Doubles.unconfigured
  = (Raise (RuntimeError
              (lit "Missing env var: SUPABASE_DB_URL. Check your .env file.")),
     Doubles.unconfigured)
  /\ IngestFeedback.main Doubles.ascii_isdigit Doubles.ascii_int Doubles.unreachable
       (Ok Doubles.seed_file) Doubles.keyless
     = (Raise (RuntimeError
                 (lit "Missing env var: OPENAI_API_KEY. Check your .env file.")),
        Doubles.keyless).
Proof.
  split.
  - exact (proj1 (ingestion_needs_configuration Doubles.ascii_isdigit
                    Doubles.ascii_int Doubles.unreachable (Ok Doubles.seed_file)
                    Doubles.unconfigured) eq_refl).
  - exact (proj2 (ingestion_needs_configuration Doubles.ascii_isdigit
                    Doubles.ascii_int Doubles.unreachable (Ok Doubles.seed_file)
                    Doubles.keyless) eq_refl eq_refl).
Defined.

Section IngestionTrace.
Variable str_isdigit : str -> bool.
Variable int_of_str : str -> option Z.
Variable svc : services.

(** With both settings present [main] is the connection block. *)
Lemma main_configured (csv_file : result IngestFeedback.reader) (w : world)
    (url key : str) :
  environ w !! lit "SUPABASE_DB_URL" = Some url -> url <> [] ->
  environ w !! lit "OPENAI_API_KEY" = Some key -> key <> [] ->
  IngestFeedback.main str_isdigit int_of_str svc csv_file w
  = with_connect svc (Some url)
      (call_execute svc IngestFeedback.delete_sql (Positional []) ;;;
       reader <- lift csv_file ;;
       IngestFeedback.ingest_reader str_isdigit int_of_str svc
         (default (lit "text-embedding-3-small")
                  (environ w !! lit "OPENAI_EMBED_MODEL")) reader) w.
Proof.
  intros Hu Hune Hk Hkne.
  unfold IngestFeedback.main, IngestFeedback.require_env, getenv,
    getenv_default, ret.
  unfold bind at 1. unfold bind at 1. cbn beta iota.
  rewrite Hu. destruct url as [|c u]; [contradiction|]. cbn beta iota delta [nonempty].
  unfold bind at 1. unfold bind at 1. cbn beta iota.
  rewrite Hk. destruct key as [|c' k]; [contradiction|]. cbn beta iota delta [nonempty].
  unfold bind at 1. reflexivity.
Qed.

(** The calls one row adds: none for a blank text; else the embedding
    request for the stripped text and, unless the request or the rating
    conversion raised, the insert that stores that text with the answered
    vector. *)
Lemma ingest_row_shape (model : str) (r : IngestFeedback.csvrow) (w : world) :
  let run := IngestFeedback.ingest_row str_isdigit int_of_str svc model r w in
  let text := strip (Ingested.text_of r) in
  environ (snd run) = environ w /\ _client (snd run) = _client w
  /\ ((text = [] /\ run = (Ok tt, w))
      \/ (text <> []
          /\ ((calls (snd run) = calls w ++ [EmbeddingsCreate model text]
               /\ is_ok (fst run) = false)
              \/ exists source country platform rating user_type created_at emb,
                   calls (snd run)
                   = calls w ++ [EmbeddingsCreate model text;
                                 DbExecute IngestFeedback.insert_sql
                                   (Positional [VStr source; country; platform;
                                                rating; user_type; created_at;
                                                VStr text; VVec emb])]
                   /\ embeddings_create svc (calls w) model text = Ok emb
                   /\ strip source = source
                   /\ Normalised.optional country /\ Normalised.optional platform
                   /\ Normalised.optional user_type
                   /\ Normalised.optional created_at
                   /\ (rating = VNone \/ exists z, rating = VInt z)))).
Proof.
  cbv zeta. unfold IngestFeedback.ingest_row. rewrite get_text_or_empty.
  destruct (strip (Ingested.text_of r)) as [|c t] eqn:Et; cbn [nonempty negb].
  { cbn. auto. }
  assert (Hopt : forall s, Normalised.optional (IngestFeedback.or_none (strip s))).
  { intros s. unfold IngestFeedback.or_none, Normalised.optional.
    destruct (strip s) as [|x y] eqn:E; cbn [nonempty]; [auto|].
    right. exists (x :: y). split; [reflexivity|]. split; [discriminate|].
    rewrite <- E. apply strip_idem. }
  unfold bind, call_embeddings, call_execute, ret, raise, record.
  cbn [calls environ _client].
  destruct (embeddings_create svc (calls w) model (c :: t)) as [emb|e] eqn:Eemb.
  2: { cbn [fst snd environ _client calls is_ok].
       split; [reflexivity|]. split; [reflexivity|].
       right. split; [discriminate|]. left. split; reflexivity. }
  match goal with
  | |- context [if str_isdigit ?raw then _ else _] =>
      destruct (str_isdigit raw);
      [destruct (int_of_str raw) as [z|]|]
  end; cbn [calls environ _client fst snd is_ok].
  2: { split; [reflexivity|]. split; [reflexivity|].
       right. split; [discriminate|]. left. split; reflexivity. }
  all: match goal with
       | |- context [db_execute svc ?h ?s ?p] =>
           assert (Hlog : forall (x : result (list (list value))),
                      calls (snd (match x with
                                  | Ok _ => (Ok tt, World (environ w) (_client w)
                                               ((calls w ++ [EmbeddingsCreate model (c :: t)])
                                                ++ [DbExecute s p]))
                                  | Raise e0 => (@Raise unit e0,
                                                 World (environ w) (_client w)
                                                   ((calls w ++ [EmbeddingsCreate model (c :: t)])
                                                    ++ [DbExecute s p]))
                                  end))
                      = calls w ++ [EmbeddingsCreate model (c :: t); DbExecute s p])
             by (intros [?|?]; cbn [snd calls]; now rewrite <- app_assoc);
           destruct (db_execute svc h s p) as [rows|e0]
       end.
  all: cbn [calls environ _client fst snd is_ok].
  all: split; [reflexivity|]; split; [reflexivity|].
  all: right; split; [discriminate|]; right.
  all: eexists _, _, _, _, _, _, emb.
  all: split; [rewrite <- app_assoc; reflexivity|].
  all: split; [reflexivity|].
  all: split; [apply strip_idem|].
  all: repeat (split; [apply Hopt|]).
  all: first [left; reflexivity | right; eexists; reflexivity].
Qed.

Lemma embedded_texts_app (l1 l2 : list event) :
  IngestLog.embedded_texts (l1 ++ l2)
  = IngestLog.embedded_texts l1 ++ IngestLog.embedded_texts l2.
Proof. unfold IngestLog.embedded_texts. apply omap_app. Qed.

Lemma paired_nil (model : str) (h : list event) :
  IngestLog.paired svc model h [].
Proof. intros i a b c d e f t g H. discriminate. Qed.

Lemma paired_app (model : str) (h n1 n2 : list event) :
  IngestLog.paired svc model h n1 ->
  IngestLog.paired svc model (h ++ n1) n2 ->
  IngestLog.paired svc model h (n1 ++ n2).
Proof.
  intros P1 P2 i a b c d e f t g H.
  apply lookup_app_Some in H as [H|[Hge H]].
  - destruct (P1 _ _ _ _ _ _ _ _ _ H) as (j & s & emb & -> & -> & -> & Hj & Hemb).
    exists j, s, emb. repeat split; [now apply lookup_app_l_Some|].
    rewrite take_app_le; [exact Hemb|].
    apply lookup_lt_Some in Hj. lia.
  - destruct (P2 _ _ _ _ _ _ _ _ _ H) as (j & s & emb & Hi & -> & -> & Hj & Hemb).
    exists (length n1 + j), s, emb. repeat split.
    + lia.
    + rewrite lookup_app_r by lia.
      now replace (length n1 + j - length n1) with j by lia.
    + rewrite take_app_add, app_assoc. exact Hemb.
Qed.

(** The calls a run over the rows adds. *)
Lemma ingest_rows_shape (model : str) (rows : list IngestFeedback.csvrow) (w : world) :
  let run := IngestFeedback.ingest_rows str_isdigit int_of_str svc model rows w in
  exists new,
    calls (snd run) = calls w ++ new
    /\ Forall Normalised.insert_params new
    /\ IngestLog.paired svc model (calls w) new
    /\ Forall (fun e => e <> DbClose /\ forall c, e <> DbConnect c) new
    /\ IngestLog.embedded_texts new `prefix_of` Ingested.nonblank_texts rows
    /\ (is_ok (fst run) = true ->
        IngestLog.embedded_texts new = Ingested.nonblank_texts rows).
Proof.
  cbv zeta. revert w. induction rows as [|r rows IH]; intros w.
  - exists []. cbn. rewrite app_nil_r. repeat split; auto using paired_nil.
  - cbn [IngestFeedback.ingest_rows]. unfold bind.
    destruct (ingest_row_shape model r w) as (_ & _ & Hrow). cbv zeta in Hrow.
    rewrite nonblank_texts_cons.
    assert (Hone : Ingested.nonblank_texts [r]
                   = match strip (Ingested.text_of r) with
                     | [] => []
                     | t => [VStr t]
                     end).
    { unfold Ingested.nonblank_texts. cbn [omap list_omap].
      destruct (strip (Ingested.text_of r)); reflexivity. }
    destruct Hrow as [[Ht Hrun]|[Ht [[Hlog Hfail]|Hins]]].
    + rewrite Hrun, Hone, Ht. cbn [app]. apply IH.
    + destruct (IngestFeedback.ingest_row str_isdigit int_of_str svc model r w)
        as [[[]|e] w1]; cbn [fst snd is_ok] in *; [discriminate|].
      exists [EmbeddingsCreate model (strip (Ingested.text_of r))].
      split; [exact Hlog|]. split; [repeat constructor|].
      split.
      { intros i a b c d e' f t g H. destruct i; discriminate. }
      split; [repeat constructor; discriminate|].
      rewrite Hone. destruct (strip (Ingested.text_of r)) as [|c t];
        [contradiction|].
      split; [|discriminate]. exists (Ingested.nonblank_texts rows). reflexivity.
    + destruct Hins as (source & country & platform & rating & user_type
                        & created_at & emb & Hlog & Hemb & Hs & Hc & Hp & Hu
                        & Hcr & Hr).
      set (new1 := [EmbeddingsCreate model (strip (Ingested.text_of r));
                    DbExecute IngestFeedback.insert_sql
                      (Positional [VStr source; country; platform; rating;
                                   user_type; created_at;
                                   VStr (strip (Ingested.text_of r)); VVec emb])])
        in *.
      assert (P1 : IngestLog.paired svc model (calls w) new1).
      { intros i a b c d e' f t g H.
        destruct i as [|[|i]]; try discriminate.
        cbn in H. injection H as <- <- <- <- <- <- <- <-.
        exists 0, (strip (Ingested.text_of r)), emb.
        repeat split. rewrite take_0, app_nil_r. exact Hemb. }
      assert (F1 : Forall Normalised.insert_params new1).
      { repeat constructor. cbn. intros _.
        exists source, country, platform, rating, user_type, created_at,
          (strip (Ingested.text_of r)), emb. repeat split; assumption. }
      assert (E1 : IngestLog.embedded_texts new1
                   = [VStr (strip (Ingested.text_of r))]) by reflexivity.
      destruct (IngestFeedback.ingest_row str_isdigit int_of_str svc model r w)
        as [[[]|e] w1]; cbn [fst snd is_ok] in *.
      * destruct (IH w1) as (new2 & Hlog2 & F2 & P2 & N2 & Hpre & Hok).
        exists (new1 ++ new2). rewrite Hlog2, Hlog, <- app_assoc.
        split; [reflexivity|]. split; [now apply Forall_app|].
        split; [apply paired_app; [exact P1 | now rewrite <- Hlog]|].
        split; [apply Forall_app; split; [repeat constructor; discriminate | exact N2]|].
        rewrite embedded_texts_app, E1, Hone.
        destruct (strip (Ingested.text_of r)) as [|c t]; [contradiction|].
        split; [now apply prefix_app | intros H; now rewrite (Hok H)].
      * exists new1. split; [exact Hlog|]. split; [exact F1|]. split; [exact P1|].
        split; [repeat constructor; discriminate|].
        rewrite E1, Hone. destruct (strip (Ingested.text_of r)) as [|c t];
          [contradiction|].
        split; [now apply prefix_app_r | discriminate].
Qed.

(** The calls a run over the reader adds: those of its rows; the end of
    the iteration adds none. *)
Lemma ingest_reader_shape (model : str) (reader : IngestFeedback.reader) (w : world) :
  let run := IngestFeedback.ingest_reader str_isdigit int_of_str svc model reader w in
  exists new,
    calls (snd run) = calls w ++ new
    /\ Forall Normalised.insert_params new
    /\ IngestLog.paired svc model (calls w) new
    /\ Forall (fun e => e <> DbClose /\ forall c, e <> DbConnect c) new
    /\ IngestLog.embedded_texts new
       `prefix_of` Ingested.nonblank_texts (IngestFeedback.read_rows reader)
    /\ (is_ok (fst run) = true ->
        IngestLog.embedded_texts new
        = Ingested.nonblank_texts (IngestFeedback.read_rows reader)).
Proof.
  cbv zeta. unfold IngestFeedback.ingest_reader, bind.
  destruct (ingest_rows_shape model (IngestFeedback.read_rows reader) w)
    as (new & Hlog & F & P & N & Hpre & Hok).
  cbv zeta in Hlog, Hok.
  destruct (IngestFeedback.ingest_rows str_isdigit int_of_str svc model
              (IngestFeedback.read_rows reader) w) as [[[]|e] w1];
    cbn [fst snd is_ok] in *.
  - exists new. destruct (IngestFeedback.read_error reader);
      unfold raise, ret; cbn [fst snd is_ok]; repeat split; auto.
  - exists new. repeat split; auto.
Qed.

(** With a setting missing [main] leaves the state as it was. *)
Lemma main_unconfigured_raises (csv_file : result IngestFeedback.reader) (w : world) :
  SearchFeedback.missing (environ w !! lit "SUPABASE_DB_URL") = true
  \/ SearchFeedback.missing (environ w !! lit "OPENAI_API_KEY") = true ->
  exists e, IngestFeedback.main str_isdigit int_of_str svc csv_file w = (Raise e, w).
Proof.
  intros H.
  unfold IngestFeedback.main, IngestFeedback.require_env, bind, getenv, ret, raise.
  destruct (environ w !! lit "SUPABASE_DB_URL") as [[|c u]|];
    cbn [SearchFeedback.missing nonempty negb] in *; eauto.
  destruct (environ w !! lit "OPENAI_API_KEY") as [[|c' k]|];
    cbn [SearchFeedback.missing nonempty negb] in *; eauto.
  destruct H; discriminate.
Qed.

Lemma main_unconfigured (csv_file : result IngestFeedback.reader) (w : world) :
  SearchFeedback.missing (environ w !! lit "SUPABASE_DB_URL") = true
  \/ SearchFeedback.missing (environ w !! lit "OPENAI_API_KEY") = true ->
  snd (IngestFeedback.main str_isdigit int_of_str svc csv_file w) = w
  /\ is_ok (fst (IngestFeedback.main str_isdigit int_of_str svc csv_file w)) = false.
Proof.
  intros H. destruct (main_unconfigured_raises csv_file w H) as [e ->].
  split; reflexivity.
Qed.

Lemma missing_true_or_value (v : option str) :
  SearchFeedback.missing v = true \/ exists s, v = Some s /\ s <> [].
Proof.
  destruct v as [[|c s]|]; cbn; auto. right. eexists. split; [reflexivity|discriminate].
Qed.

(** The calls a run of [main] adds, in every case. *)
Lemma main_log (csv_file : result IngestFeedback.reader) (w : world) :
  let run := IngestFeedback.main str_isdigit int_of_str svc csv_file w in
  let model := default (lit "text-embedding-3-small")
                       (environ w !! lit "OPENAI_EMBED_MODEL") in
  let rows := match csv_file with
              | Ok reader => IngestFeedback.read_rows reader
              | Raise _ => []
              end in
  exists new,
    calls (snd run) = calls w ++ new
    /\ Forall Normalised.insert_params new
    /\ IngestLog.paired svc model (calls w) new
    /\ IngestLog.embedded_texts new `prefix_of` Ingested.nonblank_texts rows
    /\ (is_ok (fst run) = true ->
        IngestLog.embedded_texts new = Ingested.nonblank_texts rows)
    /\ ((new = []
         /\ (SearchFeedback.missing (environ w !! lit "SUPABASE_DB_URL") = true
             \/ SearchFeedback.missing (environ w !! lit "OPENAI_API_KEY") = true))
        \/ exists url,
             environ w !! lit "SUPABASE_DB_URL" = Some url /\ url <> []
             /\ IngestLog.framed url new).
Proof.
  cbv zeta.
  set (rows := match csv_file with
               | Ok reader => IngestFeedback.read_rows reader
               | Raise _ => []
               end).
  set (model := default (lit "text-embedding-3-small")
                        (environ w !! lit "OPENAI_EMBED_MODEL")).
  assert (Hnil : SearchFeedback.missing (environ w !! lit "SUPABASE_DB_URL") = true
                 \/ SearchFeedback.missing (environ w !! lit "OPENAI_API_KEY") = true ->
                 exists new : list event,
                   calls w = calls w ++ new
                   /\ Forall Normalised.insert_params new
                   /\ IngestLog.paired svc model (calls w) new
                   /\ IngestLog.embedded_texts new `prefix_of` Ingested.nonblank_texts rows
                   /\ (false = true ->
                       IngestLog.embedded_texts new = Ingested.nonblank_texts rows)
                   /\ ((new = []
                        /\ (SearchFeedback.missing (environ w !! lit "SUPABASE_DB_URL") = true
                            \/ SearchFeedback.missing (environ w !! lit "OPENAI_API_KEY") = true))
                       \/ exists url,
                            environ w !! lit "SUPABASE_DB_URL" = Some url /\ url <> []
                            /\ IngestLog.framed url new)).
  { intros Hm. exists []. rewrite app_nil_r.
    split; [reflexivity|]. split; [constructor|]. split; [apply paired_nil|].
    split; [apply prefix_nil|]. split; [discriminate|]. left. split; [reflexivity | exact Hm]. }
  destruct (missing_true_or_value (environ w !! lit "SUPABASE_DB_URL"))
    as [Hu|(url & Hu & Hune)].
  { destruct (main_unconfigured csv_file w (or_introl Hu)) as [-> ->].
    exact (Hnil (or_introl Hu)). }
  destruct (missing_true_or_value (environ w !! lit "OPENAI_API_KEY"))
    as [Hk|(key & Hk & Hkne)].
  { destruct (main_unconfigured csv_file w (or_intror Hk)) as [-> ->].
    exact (Hnil (or_intror Hk)). }
  clear Hnil. rewrite (main_configured csv_file w url key Hu Hune Hk Hkne).
  fold model.
  unfold with_connect, finally, bind, call_execute, lift, record.
  cbn beta iota delta [calls environ _client].
  destruct (db_connect svc (calls w) (Some url)) as [[]|e].
  2: { exists [DbConnect (Some url)]. cbn [fst snd calls is_ok].
       split; [reflexivity|]. split; [repeat constructor|].
       split; [intros i a b c d e' f t g H; destruct i; discriminate|].
       split; [apply prefix_nil|]. split; [discriminate|].
       right. exists url. split; [exact Hu|]. split; [exact Hune|]. left. reflexivity. }
  set (h2 := (calls w ++ [DbConnect (Some url)])
             ++ [DbExecute IngestFeedback.delete_sql (Positional [])]).
  assert (Hh2 : forall rest,
             (h2 ++ rest) ++ [DbClose]
             = calls w ++ DbConnect (Some url)
                 :: DbExecute IngestFeedback.delete_sql (Positional [])
                 :: rest ++ [DbClose]).
  { intros rest. unfold h2. now rewrite <- !app_assoc. }
  assert (Hpre : forall rest,
             IngestLog.paired svc model h2 rest ->
             Forall Normalised.insert_params rest ->
             Forall Normalised.insert_params
               (DbConnect (Some url)
                :: DbExecute IngestFeedback.delete_sql (Positional [])
                :: rest ++ [DbClose])
             /\ IngestLog.paired svc model (calls w)
                  (DbConnect (Some url)
                   :: DbExecute IngestFeedback.delete_sql (Positional [])
                   :: rest ++ [DbClose])).
  { intros rest P F. split.
    - constructor; [exact I|]. constructor.
      + cbn. intros Hsql. exfalso. vm_compute in Hsql. discriminate.
      + apply Forall_app. split; [exact F | repeat constructor].
    - change (DbConnect (Some url)
              :: DbExecute IngestFeedback.delete_sql (Positional [])
              :: rest ++ [DbClose])
        with ([DbConnect (Some url);
               DbExecute IngestFeedback.delete_sql (Positional [])]
              ++ rest ++ [DbClose]).
      apply paired_app.
      + intros i a b c d e' f t g H. destruct i as [|[|i]]; discriminate.
      + apply paired_app.
        * unfold h2 in P. rewrite <- app_assoc in P. exact P.
        * intros i a b c d e' f t g H. destruct i as [|i]; discriminate. }
  assert (Hstop : forall (r : result unit),
             is_ok r = false ->
             exists new,
               h2 ++ [DbClose] = calls w ++ new
               /\ Forall Normalised.insert_params new
               /\ IngestLog.paired svc model (calls w) new
               /\ IngestLog.embedded_texts new `prefix_of` Ingested.nonblank_texts rows
               /\ (is_ok r = true ->
                   IngestLog.embedded_texts new = Ingested.nonblank_texts rows)
               /\ ((new = []
                    /\ (SearchFeedback.missing (environ w !! lit "SUPABASE_DB_URL") = true
                        \/ SearchFeedback.missing (environ w !! lit "OPENAI_API_KEY") = true))
                   \/ exists url0,
                        environ w !! lit "SUPABASE_DB_URL" = Some url0 /\ url0 <> []
                        /\ IngestLog.framed url0 new)).
  { intros r Hr. destruct (Hpre [] (paired_nil _ _) (Forall_nil_2 _)) as [F P].
    exists (DbConnect (Some url)
            :: DbExecute IngestFeedback.delete_sql (Positional [])
            :: [] ++ [DbClose]).
    split; [rewrite <- (Hh2 []); now rewrite app_nil_r|].
    split; [exact F|]. split; [exact P|].
    split; [apply prefix_nil|]. split; [rewrite Hr; discriminate|].
    right. exists url. split; [exact Hu|]. split; [exact Hune|].
    right. exists []. split; [reflexivity | constructor]. }
  destruct (db_execute svc _ IngestFeedback.delete_sql (Positional [])) as [deleted|e].
  2: { cbn [fst snd calls is_ok]. fold h2. now apply (Hstop (Raise e)). }
  destruct csv_file as [reader|e].
  2: { cbn [fst snd calls is_ok]. fold h2. now apply (Hstop (Raise e)). }
  clear Hstop. fold h2. subst rows.
  destruct (ingest_reader_shape model reader (World (environ w) (_client w) h2))
    as (rest & Hlog & F & P & N & Hemb & Hok).
  cbv zeta in Hlog, Hok. cbn [calls] in Hlog, P.
  destruct (IngestFeedback.ingest_reader str_isdigit int_of_str svc model reader
              (World (environ w) (_client w) h2)) as [r w2].
  cbn [fst snd] in *.
  destruct (Hpre rest P F) as [F' P'].
  exists (DbConnect (Some url)
          :: DbExecute IngestFeedback.delete_sql (Positional [])
          :: rest ++ [DbClose]).
  cbn [calls]. rewrite Hlog.
  split; [apply Hh2|].
  split; [exact F'|]. split; [exact P'|].
  assert (E : IngestLog.embedded_texts
                (DbConnect (Some url)
                 :: DbExecute IngestFeedback.delete_sql (Positional [])
                 :: rest ++ [DbClose])
              = IngestLog.embedded_texts rest).
  { change (DbConnect (Some url)
            :: DbExecute IngestFeedback.delete_sql (Positional [])
            :: rest ++ [DbClose])
      with ([DbConnect (Some url);
             DbExecute IngestFeedback.delete_sql (Positional [])]
            ++ rest ++ [DbClose]).
    rewrite !embedded_texts_app. cbn. now rewrite app_nil_r. }
  rewrite E. split; [exact Hemb|]. split; [exact Hok|].
  right. exists url. split; [exact Hu|]. split; [exact Hune|].
  right. exists rest. split; [reflexivity | exact N].
Qed.

(** A failed read is never swallowed: with it no run of [main] ends
    normally. *)
Lemma main_read_error (reader : IngestFeedback.reader) (w : world) (e : exn) :
  IngestFeedback.read_error reader = Some e ->
  is_ok (fst (IngestFeedback.main str_isdigit int_of_str svc (Ok reader) w)) = false.
Proof.
  intros He.
  destruct (missing_true_or_value (environ w !! lit "SUPABASE_DB_URL"))
    as [Hu|(url & Hu & Hune)].
  { now destruct (main_unconfigured (Ok reader) w (or_introl Hu)) as [_ ->]. }
  destruct (missing_true_or_value (environ w !! lit "OPENAI_API_KEY"))
    as [Hk|(key & Hk & Hkne)].
  { now destruct (main_unconfigured (Ok reader) w (or_intror Hk)) as [_ ->]. }
  rewrite (main_configured (Ok reader) w url key Hu Hune Hk Hkne).
  unfold with_connect, finally, bind, call_execute, lift, IngestFeedback.ingest_reader.
  destruct (db_connect svc (calls w) (Some url)) as [[]|e1]; [|reflexivity].
  destruct (db_execute svc _ IngestFeedback.delete_sql (Positional [])) as [deleted|e1];
    [|reflexivity].
  unfold bind. rewrite He.
  destruct (IngestFeedback.ingest_rows _ _ _ _ _ _) as [[[]|e1] w1]; reflexivity.
Qed.

End IngestionTrace.

(** X6: with both settings present, a connection that opens and a delete
    that succeeds, a CSV file that cannot be opened makes [main] raise the
    exception of [open] after the table has been emptied: the run is
    connect, delete, close, with no embedding request and no insert.  The
    wipe is not undone. *)
Theorem unreadable_csv_leaves_table_wiped
    (str_isdigit : str -> bool) (int_of_str : str -> option Z)
    (svc : services) (w : world) (url key : str) (e : exn)
    (deleted : list (list value)) :
  environ w !! lit "SUPABASE_DB_URL" = Some url -> url <> [] ->
  environ w !! lit "OPENAI_API_KEY" = Some key -> key <> [] ->
  db_connect svc (calls w) (Some url) = Ok tt ->
  db_execute svc (calls w ++ [DbConnect (Some url)])
    IngestFeedback.delete_sql (Positional []) = Ok deleted ->
  IngestFeedback.main str_isdigit int_of_str svc (Raise e) w
  = (Raise e,
     World (environ w) (_client w)
       (calls w ++ [DbConnect (Some url);
                    DbExecute IngestFeedback.delete_sql (Positional []);
                    DbClose])).
Proof.
  intros Hu Hune Hk Hkne Hconn Hdel.
  rewrite (main_configured str_isdigit int_of_str svc (Raise e) w url key
             Hu Hune Hk Hkne).
  unfold with_connect, finally, bind, call_execute, lift, record.
  cbn beta iota delta [calls environ _client].
  rewrite Hconn, Hdel. cbn beta iota delta [calls environ _client].
  now rewrite <- !app_assoc.
Qed.

Lemma unreadable_csv_leaves_table_wiped_witness :
  IngestFeedback.main Doubles.ascii_isdigit Doubles.ascii_int
    (Doubles.answering Doubles.unit_vector [])
    (Raise (ExternalError (lit "FileNotFoundError"))) Doubles.configured
  = (Raise (ExternalError (lit "FileNotFoundError")),
     World (environ Doubles.configured) None
       [DbConnect (Some (lit "postgresql://db.example/postgres"));
        DbExecute IngestFeedback.delete_sql (Positional []);
        DbClose]).
Proof.
  assert (Hu : lit "postgresql://db.example/postgres" <> [])
    by (vm_compute; discriminate).
  assert (Hk : lit "sk-test" <> []) by (vm_compute; discriminate).
  exact (unreadable_csv_leaves_table_wiped Doubles.ascii_isdigit Doubles.ascii_int
           (Doubles.answering Doubles.unit_vector []) Doubles.configured
           (lit "postgresql://db.example/postgres") (lit "sk-test")
           (ExternalError (lit "FileNotFoundError")) []
           eq_refl Hu eq_refl Hk eq_refl eq_refl).
Defined.

(** X7: whatever the settings, the CSV (read to its end, failing to open
    or failing after some rows) and the answers of the provider and the
    store, a run of [main] either makes no call at all, a setting being
    missing, or opens one connection, to the value of SUPABASE_DB_URL and
    to nothing else; once that is open, the delete is the first call
    after it, before any embedding request or insert, and the close is the
    last call of the run, also when a step in between raised. *)
Theorem ingestion_wipes_first_and_closes_last
    (str_isdigit : str -> bool) (int_of_str : str -> option Z)
    (svc : services) (csv_file : result IngestFeedback.reader) (w : world) :
  exists new,
    calls (snd (IngestFeedback.main str_isdigit int_of_str svc csv_file w))
    = calls w ++ new
    /\ ((new = []
         /\ (SearchFeedback.missing (environ w !! lit "SUPABASE_DB_URL") = true
             \/ SearchFeedback.missing (environ w !! lit "OPENAI_API_KEY") = true))
        \/ exists url,
             environ w !! lit "SUPABASE_DB_URL" = Some url /\ url <> []
             /\ IngestLog.framed url new).
Proof.
  destruct (main_log str_isdigit int_of_str svc csv_file w)
    as (new & Hlog & _ & _ & _ & _ & Hshape).
  exists new. split; assumption.
Qed.

(** X8: in every run of [main], whether the CSV is read to its end, fails
    to open or fails after some rows, each insert comes right after an
    embedding request made with the configured model for exactly the text
    the insert stores, and the vector it stores is the one the provider
    answered to that request: a stored embedding always belongs to the
    stored text. *)
Theorem inserts_store_the_embedding_of_their_text
    (str_isdigit : str -> bool) (int_of_str : str -> option Z)
    (svc : services) (csv_file : result IngestFeedback.reader) (w : world) :
  exists new,
    calls (snd (IngestFeedback.main str_isdigit int_of_str svc csv_file w))
    = calls w ++ new
    /\ IngestLog.paired svc
         (default (lit "text-embedding-3-small")
                  (environ w !! lit "OPENAI_EMBED_MODEL"))
         (calls w) new.
Proof.
  destruct (main_log str_isdigit int_of_str svc csv_file w)
    as (new & Hlog & _ & Hp & _).
  exists new. split; assumption.
Qed.

(** X9: in every run of [main], whether the CSV is read to its end, fails
    to open or fails after some rows, each insert binds a stripped source,
    and for country, platform, user type and creation time either [None]
    or a text that is non-empty and stripped, never an empty or padded
    one; the rating is [None] or an integer. *)
Theorem inserted_fields_are_normalised
    (str_isdigit : str -> bool) (int_of_str : str -> option Z)
    (svc : services) (csv_file : result IngestFeedback.reader) (w : world) :
  exists new,
    calls (snd (IngestFeedback.main str_isdigit int_of_str svc csv_file w))
    = calls w ++ new
    /\ Forall Normalised.insert_params new.
Proof.
  destruct (main_log str_isdigit int_of_str svc csv_file w)
    as (new & Hlog & Hf & _).
  exists new. split; assumption.
Qed.

(** X10: for every file that opens, [main] asks the provider for one
    embedding per row read whose text is not blank, for its stripped text
    and in row order, and for none of the blank rows: for all of them when
    the run ends without an exception, for a prefix of them otherwise (a
    step raised, or the reading failed after those rows). *)
Theorem one_embedding_request_per_nonblank_row
    (str_isdigit : str -> bool) (int_of_str : str -> option Z)
    (svc : services) (reader : IngestFeedback.reader) (w : world) :
  exists new,
    calls (snd (IngestFeedback.main str_isdigit int_of_str svc (Ok reader) w))
    = calls w ++ new
    /\ IngestLog.embedded_texts new
       `prefix_of` Ingested.nonblank_texts (IngestFeedback.read_rows reader)
    /\ (is_ok (fst (IngestFeedback.main str_isdigit int_of_str svc (Ok reader) w)) = true ->
        IngestLog.embedded_texts new
        = Ingested.nonblank_texts (IngestFeedback.read_rows reader))
    /\ (forall e, IngestFeedback.read_error reader = Some e ->
        is_ok (fst (IngestFeedback.main str_isdigit int_of_str svc (Ok reader) w)) = false).
Proof.
  destruct (main_log str_isdigit int_of_str svc (Ok reader) w)
    as (new & Hlog & _ & _ & Hpre & Hok & _).
  exists new. split; [exact Hlog|]. split; [exact Hpre|]. split; [exact Hok|].
  intros e He.
  apply (main_read_error str_isdigit int_of_str svc reader w e He).
Qed.

(** A run over the seed rows: two embedding requests, each followed by its
    insert; the blank and the short row add nothing. *)
Lemma seed_run_log :
  calls (snd (IngestFeedback.main Doubles.ascii_isdigit Doubles.ascii_int
                (Doubles.answering Doubles.unit_vector [])
                (Ok Doubles.seed_file) Doubles.configured))
  = [DbConnect (Some (lit "postgresql://db.example/postgres"));
     DbExecute IngestFeedback.delete_sql (Positional []);
     EmbeddingsCreate (lit "text-embedding-3-small") (lit "Payment failed");
     DbExecute IngestFeedback.insert_sql
       (Positional [VStr (lit "app_reviews"); VNone; VStr (lit "Android");
                    VInt 1; VNone; VNone; VStr (lit "Payment failed");
                    VVec Doubles.unit_vector]);
     EmbeddingsCreate (lit "text-embedding-3-small") (lit "Crash on login");
     DbExecute IngestFeedback.insert_sql
       (Positional [VStr (lit "app_reviews"); VStr (lit "IN"); VNone;
                    VNone; VNone; VNone; VStr (lit "Crash on login");
                    VVec Doubles.unit_vector]);
     DbClose].
Proof. vm_compute. reflexivity. Qed.

(** A file whose reading fails after two rows: the first row is embedded
    and inserted, the blank second one adds nothing, and the error of the
    read is the outcome of [main], after the close. *)
Lemma torn_run :
  fst (IngestFeedback.main Doubles.ascii_isdigit Doubles.ascii_int
         (Doubles.answering Doubles.unit_vector [])
         (Ok Doubles.torn_file) Doubles.configured)
  = Raise (ExternalError (lit "UnicodeDecodeError"))
  /\ calls (snd (IngestFeedback.main Doubles.ascii_isdigit Doubles.ascii_int
                   (Doubles.answering Doubles.unit_vector [])
                   (Ok Doubles.torn_file) Doubles.configured))
     = [DbConnect (Some (lit "postgresql://db.example/postgres"));
        DbExecute IngestFeedback.delete_sql (Positional []);
        EmbeddingsCreate (lit "text-embedding-3-small") (lit "Payment failed");
        DbExecute IngestFeedback.insert_sql
          (Positional [VStr (lit "app_reviews"); VNone; VStr (lit "Android");
                       VInt 1; VNone; VNone; VStr (lit "Payment failed");
                       VVec Doubles.unit_vector]);
        DbClose].
Proof. split; vm_compute; reflexivity. Qed.

(** ** app.py: from the façade to the evidence items *)

Section Consumer.
Variable float_of_str : str -> option float.
Variable float_repr : float -> str.
Variable svc : services.

(** Whatever happens, the only statement a run of the façade executes is
    the [match_feedback] call with the limit and the filters it was
    given. *)
Lemma scripts_run_log (query : option str) (top_k : Z)
    (country platform user_type : option str) (w : world) :
  exists new,
    calls (snd (SearchFeedback.search_feedback float_of_str svc query top_k
                  country platform user_type w)) = calls w ++ new
    /\ Forall (Consumer.match_feedback_call top_k (of_opt country)
                 (of_opt platform) (of_opt user_type)) new.
Proof.
  destruct w as [env cl log].
  unfold SearchFeedback.search_feedback, bind, getenv, raise, ret.
  cbn [environ _client calls].
  destruct (SearchFeedback.missing (env !! lit "SUPABASE_DB_URL")).
  { exists []. cbn. now rewrite app_nil_r. }
  destruct (nonempty (strip (default [] query))); cbn [negb].
  2: { exists []. cbn. now rewrite app_nil_r. }
  unfold SearchFeedback.embed, bind, getenv_default, SearchFeedback.get_client,
    call_embeddings, with_connect, finally, call_execute, lift, record.
  cbn [environ _client calls].
  assert (Hc : forall x : result str * world,
             x = match cl with
                 | Some c0 => (Ok c0, World env cl log)
                 | None =>
                     match env !! lit "OPENAI_API_KEY" with
                     | Some api_key =>
                         if nonempty api_key
                         then (Ok api_key, World env (Some api_key) log)
                         else (Raise (RuntimeError (lit "Missing OPENAI_API_KEY in .env")),
                               World env cl log)
                     | None => (Raise (RuntimeError (lit "Missing OPENAI_API_KEY in .env")),
                                World env cl log)
                     end
                 end -> calls (snd x) = log).
  { intros x ->. destruct cl; [reflexivity|].
    destruct (env !! lit "OPENAI_API_KEY") as [k|]; [|reflexivity].
    destruct (nonempty k); reflexivity. }
  match goal with
  | |- context [match ?x with (r, w') => _ end] =>
      match type of x with
      | (result str * world)%type =>
          specialize (Hc x eq_refl); destruct x as [[c|e] w1]
      end
  end; cbn [snd] in Hc; cbn [calls environ _client fst snd].
  2: { exists []. rewrite app_nil_r. split; [exact Hc | constructor]. }
  rewrite Hc.
  destruct (embeddings_create svc log _ _) as [qvec|e]; cbn [fst snd calls].
  2: { eexists [_]. split; [reflexivity | repeat constructor]. }
  destruct (db_connect svc _ _) as [[]|e]; cbn [fst snd calls].
  2: { eexists [_; _]. rewrite <- !app_assoc.
       split; [reflexivity | repeat constructor]. }
  assert (Hcall : Consumer.match_feedback_call top_k (of_opt country)
                    (of_opt platform) (of_opt user_type)
                    (DbExecute SearchFeedback.sql
                       (Positional [VVec qvec; VInt top_k; of_opt country;
                                    of_opt platform; of_opt user_type])))
    by (split; eauto).
  assert (Hfour : forall a b c0,
             Forall (Consumer.match_feedback_call top_k (of_opt country)
                       (of_opt platform) (of_opt user_type))
               [EmbeddingsCreate a b; DbConnect c0;
                DbExecute SearchFeedback.sql
                  (Positional [VVec qvec; VInt top_k; of_opt country;
                               of_opt platform; of_opt user_type]);
                DbClose]).
  { intros a b c0. constructor; [exact I|]. constructor; [exact I|].
    constructor; [exact Hcall|]. constructor; [exact I | constructor]. }
  destruct (db_execute svc _ _ _) as [rows|e]; cbn [fst snd calls].
  - destruct (for_append (SearchFeedback.row_to_dict float_of_str) rows []);
      cbn [fst snd calls];
      (eexists; split; [rewrite <- !app_assoc; reflexivity | apply Hfour]).
  - eexists; split; [rewrite <- !app_assoc; reflexivity | apply Hfour].
Qed.

Lemma strip_or_none_optional (v : option str) :
  Normalised.optional (of_opt (App.strip_or_none v)).
Proof.
  unfold App.strip_or_none, Normalised.optional.
  destruct v as [s|]; [|auto].
  destruct (nonempty s); [|auto].
  destruct (strip s) as [|c t] eqn:E; cbn [nonempty of_opt]; [auto|].
  right. exists (c :: t). split; [reflexivity|]. split; [discriminate|].
  rewrite <- E. apply strip_idem.
Qed.

Lemma run_retrieval_state (query platform country : option str) (top_k : Z) (w : world) :
  snd (App.run_retrieval float_of_str float_repr svc query platform country top_k w)
  = snd (SearchFeedback.search_feedback float_of_str svc query top_k
           (App.strip_or_none country) (App.strip_or_none platform) None w).
Proof.
  unfold App.run_retrieval, bind, lift.
  destruct (SearchFeedback.search_feedback _ _ _ _ _ _ _ w) as [[hits|e] w1];
    reflexivity.
Qed.

(** One hit of the façade becomes one evidence item. *)
Lemma hit_to_item_ok (h : dict) (f : float) :
  h !! lit "similarity" = Some (VFloat f) ->
  Consumer.has_text h ->
  exists item,
    App.hit_to_item float_of_str float_repr h = Ok item
    /\ Consumer.item_of float_repr h item.
Proof.
  intros Hsim Htext.
  unfold App.hit_to_item, App.or_empty_strip, Consumer.item_of.
  unfold get at 1 2. rewrite Hsim.
  unfold py_or at 1 2, default, from_option, id, truthy, py_float.
  assert (Hf : (if negb (PrimFloat.eqb f 0) then VFloat f else VFloat 0)
               = VFloat (if PrimFloat.eqb f 0 then 0%float else f))
    by (destruct (PrimFloat.eqb f 0); reflexivity).
  rewrite Hf.
  destruct Htext as [Ht|[s Ht]]; rewrite Ht.
  - eexists. split; [reflexivity|]. cbn. repeat split; eauto.
  - destruct s as [|c s]; cbn [nonempty];
      (eexists; split; [reflexivity|]; cbn; repeat split; eauto).
Qed.

End Consumer.

(** X11: app.py never passes a blank filter on: in every run of
    [run_retrieval] the only statement executed is the [match_feedback]
    call with the caller's [top_k], a country and a platform that are each
    [None] or a non-empty stripped text, and [None] as user type. *)
Theorem run_retrieval_collapses_blank_filters
    (float_of_str : str -> option float) (float_repr : float -> str)
    (svc : services) (query platform country : option str) (top_k : Z) (w : world) :
  exists new,
    calls (snd (App.run_retrieval float_of_str float_repr svc query
                  platform country top_k w)) = calls w ++ new
    /\ Forall (fun e => exists c p,
                   Consumer.match_feedback_call top_k c p VNone e
                   /\ Normalised.optional c /\ Normalised.optional p
                   /\ (Filters.blank country = true -> c = VNone)
                   /\ (Filters.blank platform = true -> p = VNone)) new.
Proof.
  rewrite run_retrieval_state.
  destruct (scripts_run_log float_of_str svc query top_k
              (App.strip_or_none country) (App.strip_or_none platform) None w)
    as (new & Hlog & Hall).
  exists new. split; [exact Hlog|].
  eapply Forall_impl; [exact Hall|]. cbn. intros e He.
  exists (of_opt (App.strip_or_none country)), (of_opt (App.strip_or_none platform)).
  split; [exact He|].
  split; [apply strip_or_none_optional|]. split; [apply strip_or_none_optional|].
  split; intros Hb; rewrite strip_or_none_blank, Hb; reflexivity.
Qed.

(** X12: when the façade returns hits whose text is a [str] or [None],
    [run_retrieval] returns one evidence item per hit, in the order of the
    hits, and does not raise: the identifier is [str(id)], a [None] or
    empty platform or country becomes the empty text, the rating is kept,
    the similarity is the hit's float with a zero replaced by 0.0, and the
    text is stripped ([None] becomes empty). *)
Theorem run_retrieval_builds_one_item_per_hit
    (float_of_str : str -> option float) (float_repr : float -> str)
    (svc : services) (query platform country : option str) (top_k : Z)
    (w w' : world) (hits : list dict) :
  SearchFeedback.search_feedback float_of_str svc query top_k
    (App.strip_or_none country) (App.strip_or_none platform) None w
  = (Ok hits, w') ->
  Forall Consumer.has_text hits ->
  exists items,
    App.run_retrieval float_of_str float_repr svc query platform country top_k w
    = (Ok items, w')
    /\ Forall2 (Consumer.item_of float_repr) hits items.
Proof.
  intros Hrun Htext.
  unfold App.run_retrieval, bind, lift. rewrite Hrun.
  assert (Hsim : Forall (fun d => exists f, d !! lit "similarity" = Some (VFloat f)) hits).
  { apply scripts_run_ok in Hrun as [[_ ->]|(h & sql & p & rows & _ & _ & Hout)];
      [constructor|].
    apply for_append_Forall2 in Hout. clear Htext.
    induction Hout as [|row d rows out Hd _ IH]; constructor; [|exact IH].
    apply scripts_row_fields, similarity_record_score in Hd as (f & _ & Hf). eauto. }
  assert (exists items,
             Forall2 (fun h item => App.hit_to_item float_of_str float_repr h = Ok item
                                    /\ Consumer.item_of float_repr h item) hits items)
    as [items Hitems].
  { clear Hrun. induction hits as [|h hits IH]; [exists []; constructor|].
    apply Forall_cons in Htext as [Ht Htext]. apply Forall_cons in Hsim as [[f Hf] Hsim].
    destruct (IH Htext Hsim) as [items Hitems].
    destruct (hit_to_item_ok float_of_str float_repr h f Hf Ht) as (item & Hi & Hio).
    exists (item :: items). constructor; auto. }
  exists items. split.
  - assert (H : for_append (App.hit_to_item float_of_str float_repr) hits [] = Ok items).
    { apply for_append_Forall2. eapply Forall2_impl; [exact Hitems|].
      cbn. intros h item [Hi _]. exact Hi. }
    now rewrite H.
  - eapply Forall2_impl; [exact Hitems|]. cbn. intros h item [_ Hio]. exact Hio.
Qed.

Lemma run_retrieval_builds_one_item_per_hit_witness :
  exists items,
    App.run_retrieval Doubles.no_float_text (fun _ => lit "?")
      (Doubles.answering Doubles.unit_vector Doubles.android_rows)
      (Some Doubles.question) (Some (lit "Android")) (Some (lit "  ")) 2
      Doubles.configured
    = (Ok items,
       snd (SearchFeedback.search_feedback Doubles.no_float_text
              (Doubles.answering Doubles.unit_vector Doubles.android_rows)
              (Some Doubles.question) 2 None (Some (lit "Android")) None
              Doubles.configured))
    /\ Forall2 (Consumer.item_of (fun _ => lit "?")) Doubles.android_hits items.
Proof.
  pose proof (surjective_pairing
                (SearchFeedback.search_feedback Doubles.no_float_text
                   (Doubles.answering Doubles.unit_vector Doubles.android_rows)
                   (Some Doubles.question) 2 None (Some (lit "Android")) None
                   Doubles.configured)) as E.
  rewrite android_run in E.
  apply (run_retrieval_builds_one_item_per_hit Doubles.no_float_text (fun _ => lit "?")
           (Doubles.answering Doubles.unit_vector Doubles.android_rows)
           (Some Doubles.question) (Some (lit "Android")) (Some (lit "  ")) 2
           Doubles.configured _ Doubles.android_hits E).
  constructor; [right; eexists; reflexivity|].
  constructor; [right; eexists; reflexivity | constructor].
Defined.

(** ** The templated generators on the evidence app.py passes *)

Section Generators.
Variable float_repr : float -> str.
Variable float_fixed3 : float -> str.

Lemma format_3f_ok (v : value) :
  is_ok (format_3f float_fixed3 v) = true <-> Normalised.formattable v.
Proof.
  destruct v as [|z|f|s|l]; cbn; try (split; [discriminate | contradiction]).
  - destruct (float_of_int z); cbn; reflexivity.
  - split; auto.
Qed.

Lemma evidence_line_ok (e : dict) :
  is_ok (PmAgent.evidence_line float_repr float_fixed3 e) = true
  <-> Normalised.formattable (get_or e (lit "similarity") (VInt 0)).
Proof.
  rewrite <- format_3f_ok. unfold PmAgent.evidence_line.
  destruct (format_3f float_fixed3 _); cbn; reflexivity.
Qed.

Lemma analysis_ok (q : str) (evidence : list dict) :
  is_ok (PmAgent.run_agentic_analysis float_repr float_fixed3 q evidence) = true
  <-> Forall (fun e => Normalised.formattable (get_or e (lit "similarity") (VInt 0)))
             evidence.
Proof.
  assert (H : is_ok (PmAgent.run_agentic_analysis float_repr float_fixed3 q evidence)
              = is_ok (for_append (PmAgent.evidence_line float_repr float_fixed3)
                         evidence [])).
  { unfold PmAgent.run_agentic_analysis.
    destruct (for_append _ evidence []); reflexivity. }
  rewrite H, for_append_is_ok.
  split; intros Hall; (eapply Forall_impl; [exact Hall|]); cbn; intros e He;
    now apply evidence_line_ok.
Qed.

Lemma analysis_stripped (q : str) (evidence : list dict) (text : str) :
  PmAgent.run_agentic_analysis float_repr float_fixed3 q evidence = Ok text ->
  strip text = text.
Proof.
  unfold PmAgent.run_agentic_analysis.
  destruct (for_append _ evidence []); [|discriminate].
  intros [= <-]. apply strip_idem.
Qed.

Lemma item_similarity (item : App.EvidenceItem) :
  get_or (App.as_dict item) (lit "similarity") (VInt 0)
  = VFloat (App.similarity item).
Proof. reflexivity. Qed.

Lemma item_identifier (item : App.EvidenceItem) :
  get (App.as_dict item) (lit "evidence_id") = VStr (App.evidence_id item).
Proof. reflexivity. Qed.

(** The identifiers the brief lists. *)
Lemma brief_identifiers (evidence : list dict) :
  map (fun e => py_str float_repr (get e (lit "evidence_id")))
      (filter (fun e => WeeklyPmBrief.has_id e = true) evidence)
  = omap (fun v => match v with
                   | VNone => None
                   | _ => Some (py_str float_repr v)
                   end)
         (map (fun e => get e (lit "evidence_id")) evidence).
Proof.
  induction evidence as [|e evidence IH]; [reflexivity|].
  rewrite filter_cons. cbn [map omap list_omap].
  destruct (decide (WeeklyPmBrief.has_id e = true)) as [H|H];
    unfold WeeklyPmBrief.has_id in H;
    destruct (get e (lit "evidence_id")) eqn:E;
    try discriminate; try (exfalso; apply H; reflexivity);
    cbn [map]; rewrite ?E, IH; reflexivity.
Qed.

End Generators.

(** X13: [run_agentic_analysis] returns normally exactly when the
    similarity of every evidence dict, taken as 0 when the key is absent,
    is a float or an int within float range; a similarity that is present
    but [None], or a text, makes the [.3f] field raise.  Whenever it
    returns, the text has no white space left at either end. *)
Theorem analysis_needs_numeric_similarity
    (float_repr float_fixed3 : float -> str) (q : str) (evidence : list dict) :
  (is_ok (PmAgent.run_agentic_analysis float_repr float_fixed3 q evidence) = true
   <-> Forall (fun e => Normalised.formattable
                          (get_or e (lit "similarity") (VInt 0))) evidence)
  /\ (forall e, In e evidence -> e !! lit "similarity" = Some VNone ->
      is_ok (PmAgent.run_agentic_analysis float_repr float_fixed3 q evidence) = false)
  /\ (forall text,
        PmAgent.run_agentic_analysis float_repr float_fixed3 q evidence = Ok text ->
        strip text = text).
Proof.
  split; [apply analysis_ok|]. split; [|apply analysis_stripped].
  intros e Hin He.
  destruct (is_ok _) eqn:Hok; [|reflexivity].
  apply analysis_ok in Hok. rewrite Forall_forall in Hok.
  apply list_elem_of_In in Hin.
  specialize (Hok e Hin). unfold get_or in Hok. rewrite He in Hok. contradiction.
Qed.

(** X14: on the evidence app.py passes, the [__dict__] of its evidence
    items, [run_agentic_analysis] never raises, whatever the items hold:
    their similarity is always a float. *)
Theorem analysis_accepts_evidence_items
    (float_repr float_fixed3 : float -> str) (q : str)
    (items : list App.EvidenceItem) :
  exists text,
    PmAgent.run_agentic_analysis float_repr float_fixed3 q (map App.as_dict items)
    = Ok text
    /\ strip text = text.
Proof.
  assert (Hok : is_ok (PmAgent.run_agentic_analysis float_repr float_fixed3 q
                         (map App.as_dict items)) = true).
  { apply analysis_ok. induction items as [|item items IH]; [constructor|].
    cbn [map]. constructor; [|exact IH]. rewrite item_similarity. exact I. }
  destruct (PmAgent.run_agentic_analysis _ _ q (map App.as_dict items))
    as [text|e] eqn:E; [|discriminate].
  exists text. split; [reflexivity|]. eapply analysis_stripped; eauto.
Qed.

(** X15: the weekly brief reads nothing of the evidence but the
    [evidence_id] values: two evidence lists with the same identifiers in
    the same places give the same brief, whatever their texts, scores or
    other fields are, and whatever the two questions are. *)
Theorem brief_depends_on_identifiers_only
    (float_repr : float -> str) (q1 q2 : str) (ev1 ev2 : list dict) :
  map (fun e => get e (lit "evidence_id")) ev1
  = map (fun e => get e (lit "evidence_id")) ev2 ->
  WeeklyPmBrief.generate_weekly_pm_brief float_repr q1 ev1
  = WeeklyPmBrief.generate_weekly_pm_brief float_repr q2 ev2.
Proof.
  intros H. unfold WeeklyPmBrief.generate_weekly_pm_brief.
  now rewrite !brief_identifiers, H.
Qed.

Lemma brief_depends_on_identifiers_only_witness :
  WeeklyPmBrief.generate_weekly_pm_brief (fun _ => lit "?") (lit "a")
    [dict_of [(lit "evidence_id", VStr (lit "11")); (lit "text", VStr (lit "x"))];
     dict_of [(lit "text", VStr (lit "y"))]]
  = WeeklyPmBrief.generate_weekly_pm_brief (fun _ => lit "?") (lit "b")
      [dict_of [(lit "similarity", VFloat 0.5); (lit "evidence_id", VStr (lit "11"))];
       dict_of [(lit "evidence_id", VNone)]].
Proof.
  apply (brief_depends_on_identifiers_only (fun _ => lit "?") (lit "a") (lit "b")).
  reflexivity.
Defined.

(** X16: on the evidence app.py passes, the brief lists the identifiers of
    all the items, in item order, separated by a comma and a space, and
    says None when there is no item; no item is left out, since an item's
    identifier is always a text. *)
Theorem brief_lists_every_item
    (float_repr : float -> str) (q : str) (items : list App.EvidenceItem) :
  WeeklyPmBrief.generate_weekly_pm_brief float_repr q (map App.as_dict items)
  = strip (WeeklyPmBrief.md_head
           ++ match items with
              | [] => lit "None"
              | _ => join (lit ", ") (map App.evidence_id items)
              end
           ++ WeeklyPmBrief.md_tail).
Proof.
  unfold WeeklyPmBrief.generate_weekly_pm_brief. rewrite brief_identifiers.
  assert (H : omap (fun v => match v with
                             | VNone => None
                             | _ => Some (py_str float_repr v)
                             end)
                (map (fun e => get e (lit "evidence_id")) (map App.as_dict items))
              = map App.evidence_id items).
  { induction items as [|item items IH]; [reflexivity|].
    cbn [map omap list_omap]. rewrite item_identifier. cbn [py_str].
    now rewrite IH. }
  rewrite H. destruct items; reflexivity.
Qed.

(** ** app.py: [to_readable_text] *)

Section Readable.
Variable float_repr : float -> str.
Variable title : str -> str.






End Readable.

(** X17: the text app.py shows and exports is the generator's own:
    [to_readable_text] returns the outcome of [run_agentic_analysis] and of
    [generate_weekly_pm_brief] unchanged, since both are already
    stripped. *)
Theorem readable_text_keeps_generated_text
    (float_repr float_fixed3 : float -> str) (title : str -> str)
    (q : str) (evidence : list dict) :
  (forall text,
      PmAgent.run_agentic_analysis float_repr float_fixed3 q evidence = Ok text ->
      AppText.to_readable_text float_repr title (AppText.Atom (AppText.AStr text))
      = text)
  /\ AppText.to_readable_text float_repr title
       (AppText.Atom (AppText.AStr
          (WeeklyPmBrief.generate_weekly_pm_brief float_repr q evidence)))
     = WeeklyPmBrief.generate_weekly_pm_brief float_repr q evidence.
Proof.
  split.
  - intros text H. cbn [AppText.to_readable_text].
    eapply analysis_stripped; eauto.
  - cbn [AppText.to_readable_text].
    unfold WeeklyPmBrief.generate_weekly_pm_brief. apply strip_idem.
Qed.



(** ** app.py: the flowables of the PDF export *)

Lemma replace_char_in (old c : N) (new s : str) :
  In c (PyText.replace_char old new s)
  <-> exists x, In x s /\ In c (if (x =? old)%N then new else [x]).
Proof. unfold PyText.replace_char. apply in_flat_map. Qed.

Lemma safe_escaped (line : str) : Flow.escaped (AppPdf.safe line).
Proof.
  unfold Flow.escaped, AppPdf.safe. split; intros H.
  - apply replace_char_in in H as (x & Hx & H).
    destruct (x =? 0x3E)%N eqn:E1.
    + vm_compute in H. intuition discriminate.
    + destruct H as [->|[]].
      apply replace_char_in in Hx as (y & Hy & H).
      destruct (y =? 0x3C)%N eqn:E2.
      * vm_compute in H. intuition discriminate.
      * destruct H as [->|[]]. discriminate.
  - apply replace_char_in in H as (x & Hx & H).
    destruct (x =? 0x3E)%N eqn:E1.
    + vm_compute in H. intuition discriminate.
    + destruct H as [->|[]]. discriminate.
Qed.

Lemma safe_nonempty (line : str) : line <> [] -> AppPdf.safe line <> [].
Proof.
  destruct line as [|c line]; [contradiction|]. intros _.
  unfold AppPdf.safe, PyText.replace_char. cbn [flat_map].
  destruct (c =? 0x26)%N eqn:E.
  - vm_compute. discriminate.
  - cbn [flat_map app]. destruct (c =? 0x3C)%N.
    + vm_compute. discriminate.
    + cbn [flat_map app]. destruct (c =? 0x3E)%N; [vm_compute|cbn]; discriminate.
Qed.

Lemma spaced_app (f1 f2 : list AppPdf.flowable) :
  Flow.spaced f1 -> Flow.spaced f2 -> Flow.spaced (f1 ++ f2).
Proof.
  intros S1 S2 i items H.
  apply lookup_app_Some in H as [H|[Hge H]].
  - apply lookup_app_l_Some. eapply S1; eauto.
  - rewrite lookup_app_r by lia.
    replace (S i - length f1) with (S (i - length f1)) by lia.
    eapply S2; eauto.
Qed.

Lemma spaced_list (items : list AppPdf.flowable) :
  Flow.spaced [AppPdf.ListFlowable items; AppPdf.Spacer 1 6].
Proof. intros [|[|i]] its H; try discriminate. reflexivity. Qed.

(** The pattern of [flush_bullets] never matches a buffered line: its
    second character is a space, the pattern wants a backslash there. *)
Lemma sub_marker_bullet (t : str) :
  PyText.startswith (lit "- ") t || PyText.startswith (lit "* ") t = true ->
  AppPdf.sub_marker t = t.
Proof.
  destruct t as [|c [|d [|e rest]]]; try reflexivity.
  intros H. unfold AppPdf.sub_marker.
  assert (Hd : d = 0x20%N).
  { apply orb_true_iff in H as [H|H]; cbn in H;
      apply andb_true_iff in H as [_ H]; apply andb_true_iff in H as [H _];
      apply N.eqb_eq in H; now subst. }
  subst d. cbn [N.eqb]. rewrite andb_false_r. reflexivity.
Qed.

Lemma and_then_ok {A B} (r : result A) (k : A -> result B) (b : B) :
  AppPdf.and_then r k = Ok b -> exists a, r = Ok a /\ k a = Ok b.
Proof. destruct r as [a|e]; cbn; [eauto | discriminate]. Qed.

Section Flowables.
Variable paragraph_error : str -> AppPdf.style -> option exn.

Lemma new_paragraph_ok (t : str) (st : AppPdf.style) (p : AppPdf.flowable) :
  AppPdf.new_paragraph paragraph_error t st = Ok p ->
  p = AppPdf.Paragraph t st /\ paragraph_error t st = None.
Proof.
  unfold AppPdf.new_paragraph. destruct (paragraph_error t st); [discriminate|].
  intros [= <-]. auto.
Qed.

(** The items [flush_bullets] builds from buffered bullet lines: one per
    line, around the line as it was buffered, each text accepted. *)
Lemma bullet_items_built (buf : list str) (items : list AppPdf.flowable) :
  Forall Flow.bullet_line buf ->
  for_append (fun b => AppPdf.and_then
                         (AppPdf.new_paragraph paragraph_error (AppPdf.sub_marker b)
                            AppPdf.Base)
                         (fun p => Ok (AppPdf.ListItem p))) buf [] = Ok items ->
  items = Flow.bullet_items buf
  /\ Forall (fun t => paragraph_error t AppPdf.Base = None) buf.
Proof.
  intros Hb H. apply for_append_Forall2 in H.
  induction H as [|b it buf items Hit _ IH]; [split; [reflexivity | constructor]|].
  apply Forall_cons in Hb as [[Hb1 Hb2] Hb].
  destruct (IH Hb) as [-> Hacc].
  rewrite (sub_marker_bullet b Hb1) in Hit.
  apply and_then_ok in Hit as (p & Hp & [= <-]).
  apply new_paragraph_ok in Hp as [-> Hp].
  split; [reflexivity | constructor; assumption].
Qed.

Lemma flush_invariant (state state' : list AppPdf.flowable * list str) :
  AppPdf.flush_bullets paragraph_error state = Ok state' ->
  Flow.invariant paragraph_error state ->
  Flow.invariant paragraph_error state' /\ snd state' = [].
Proof.
  destruct state as [flow buf]. intros H (Hw & Hs & Hb).
  unfold AppPdf.flush_bullets in H. cbn [fst snd] in *.
  destruct buf as [|b buf].
  { injection H as <-. repeat split; assumption. }
  apply and_then_ok in H as (items & Hitems & [= <-]).
  apply (bullet_items_built _ _ Hb) in Hitems as [-> Hacc].
  split; [|reflexivity]. split; [|split; [|constructor]]; cbn [fst snd].
  - apply Forall_app. split; [exact Hw|].
    constructor.
    + exists (b :: buf). split; [reflexivity|]. split; [discriminate|]. auto.
    + constructor; [split; reflexivity | constructor].
  - apply spaced_app; [exact Hs | apply spaced_list].
Qed.

Lemma flush_and_append_invariant (state state' : list AppPdf.flowable * list str)
    (t : str) (st : AppPdf.style) :
  AppPdf.flush_and_append paragraph_error state t st = Ok state' ->
  Flow.invariant paragraph_error state ->
  (paragraph_error t st = None ->
   Flow.well_formed paragraph_error (AppPdf.Paragraph t st)) ->
  Flow.invariant paragraph_error state'.
Proof.
  unfold AppPdf.flush_and_append. intros H Hinv Hwf.
  apply and_then_ok in H as (s1 & Hflush & H).
  apply and_then_ok in H as (p & Hp & [= <-]).
  apply new_paragraph_ok in Hp as [-> Hacc].
  destruct (flush_invariant _ _ Hflush Hinv) as [(Hw & Hs & Hb) Hnil].
  split; [|split]; cbn [fst snd].
  - apply Forall_app. split; [exact Hw|]. constructor; [auto | constructor].
  - apply spaced_app; [exact Hs|].
    intros [|i] items H; discriminate.
  - exact Hb.
Qed.

Lemma step_invariant (state state' : list AppPdf.flowable * list str) (raw : str) :
  AppPdf.step paragraph_error state raw = Ok state' ->
  Flow.invariant paragraph_error state -> Flow.invariant paragraph_error state'.
Proof.
  unfold AppPdf.step. intros H Hinv.
  destruct (nonempty (strip raw)) eqn:Hne; cbn [negb] in H.
  2: { now apply (flush_invariant _ _ H). }
  destruct (PyText.startswith (lit "### ") (strip raw)).
  { apply (flush_and_append_invariant _ _ _ _ H Hinv). auto. }
  destruct (PyText.startswith (lit "## ") (strip raw)).
  { apply (flush_and_append_invariant _ _ _ _ H Hinv). auto. }
  destruct (PyText.startswith (lit "# ") (strip raw)).
  { apply (flush_and_append_invariant _ _ _ _ H Hinv). auto. }
  destruct (PyText.startswith (lit "- ") (strip raw)
            || PyText.startswith (lit "* ") (strip raw)) eqn:Hb.
  { injection H as <-. destruct Hinv as (Hw & Hs & Hbuf).
    split; [exact Hw|]. split; [exact Hs|].
    cbn [snd]. apply Forall_app. split; [exact Hbuf|].
    constructor; [|constructor]. split; [exact Hb | apply strip_idem]. }
  apply (flush_and_append_invariant _ _ _ _ H Hinv). intros Hacc.
  split; [apply safe_escaped|]. split; [|exact Hacc].
  apply safe_nonempty. now apply nonempty_true.
Qed.

Lemma for_lines_invariant (lines : list str)
    (state state' : list AppPdf.flowable * list str) :
  AppPdf.for_lines paragraph_error lines state = Ok state' ->
  Flow.invariant paragraph_error state -> Flow.invariant paragraph_error state'.
Proof.
  revert state. induction lines as [|l lines IH]; intros state H Hinv.
  - injection H as <-. exact Hinv.
  - cbn [AppPdf.for_lines] in H. apply and_then_ok in H as (s1 & Hstep & H).
    apply (IH _ H). now apply (step_invariant _ _ _ Hstep).
Qed.

Lemma flowables_invariant (md_text : option str) (flow : list AppPdf.flowable) :
  AppPdf.markdownish_to_flowables paragraph_error md_text = Ok flow ->
  Forall (Flow.well_formed paragraph_error) flow /\ Flow.spaced flow.
Proof.
  unfold AppPdf.markdownish_to_flowables. intros H.
  apply and_then_ok in H as (s1 & Hloop & H).
  apply and_then_ok in H as (s2 & Hflush & [= <-]).
  assert (H0 : Flow.invariant paragraph_error ([], [])).
  { split; [constructor|]. split; [|constructor]. intros i items H. discriminate. }
  destruct (flush_invariant _ _ Hflush (for_lines_invariant _ _ _ Hloop H0))
    as [(Hw & Hs & _) _].
  split; assumption.
Qed.

(** ** Where the exceptions come from *)

Lemma new_paragraph_raise (t : str) (st : AppPdf.style) (e : exn) :
  AppPdf.new_paragraph paragraph_error t st = Raise e ->
  paragraph_error t st = Some e.
Proof.
  unfold AppPdf.new_paragraph. destruct (paragraph_error t st); [|discriminate].
  now intros [= ->].
Qed.

Lemma flush_raise (state : list AppPdf.flowable * list str) (e : exn) :
  AppPdf.flush_bullets paragraph_error state = Raise e ->
  exists t st, paragraph_error t st = Some e.
Proof.
  unfold AppPdf.flush_bullets. destruct (snd state) as [|b buf]; [discriminate|].
  destruct (for_append _ (b :: buf) []) as [items|e'] eqn:E; cbn; [discriminate|].
  intros [= ->]. apply for_append_raise in E as (x & _ & Hx).
  destruct (AppPdf.new_paragraph paragraph_error (AppPdf.sub_marker x) AppPdf.Base)
    as [p|e'] eqn:Ep; cbn in Hx; [discriminate|].
  injection Hx as ->. apply new_paragraph_raise in Ep. eauto.
Qed.

Lemma flush_and_append_raise (state : list AppPdf.flowable * list str)
    (t : str) (st : AppPdf.style) (e : exn) :
  AppPdf.flush_and_append paragraph_error state t st = Raise e ->
  exists t' st', paragraph_error t' st' = Some e.
Proof.
  unfold AppPdf.flush_and_append.
  destruct (AppPdf.flush_bullets paragraph_error state) as [s1|e'] eqn:E; cbn.
  - destruct (AppPdf.new_paragraph paragraph_error t st) as [p|e'] eqn:Ep; cbn;
      [discriminate|].
    intros [= ->]. apply new_paragraph_raise in Ep. eauto.
  - intros [= ->]. now apply flush_raise in E.
Qed.

Lemma step_raise (state : list AppPdf.flowable * list str) (raw : str) (e : exn) :
  AppPdf.step paragraph_error state raw = Raise e ->
  exists t st, paragraph_error t st = Some e.
Proof.
  unfold AppPdf.step.
  repeat match goal with
         | |- context [if ?b then _ else _] => destruct b
         end;
    first [apply flush_raise | apply flush_and_append_raise | discriminate].
Qed.

Lemma for_lines_raise (lines : list str) (state : list AppPdf.flowable * list str)
    (e : exn) :
  AppPdf.for_lines paragraph_error lines state = Raise e ->
  exists t st, paragraph_error t st = Some e.
Proof.
  revert state. induction lines as [|l lines IH]; intros state; [discriminate|].
  cbn [AppPdf.for_lines].
  destruct (AppPdf.step paragraph_error state l) as [s1|e'] eqn:E; cbn.
  - apply IH.
  - intros [= ->]. now apply step_raise in E.
Qed.

(** [markdownish_to_flowables] raises nothing of its own: an exception is
    one that [Paragraph] raised on some text. *)
Lemma flowables_raise (md_text : option str) (e : exn) :
  AppPdf.markdownish_to_flowables paragraph_error md_text = Raise e ->
  exists t st, paragraph_error t st = Some e.
Proof.
  unfold AppPdf.markdownish_to_flowables.
  destruct (AppPdf.for_lines _ _ _) as [s1|e'] eqn:E; cbn.
  - destruct (AppPdf.flush_bullets paragraph_error s1) as [s2|e'] eqn:E2; cbn;
      [discriminate|].
    intros [= ->]. now apply flush_raise in E2.
  - intros [= ->]. now apply for_lines_raise in E.
Qed.

(** ** A rejected bullet line *)

Lemma flush_doomed (state : list AppPdf.flowable * list str) :
  Flow.doomed paragraph_error state ->
  is_ok (AppPdf.flush_bullets paragraph_error state) = false.
Proof.
  intros (b & Hin & [Hb _] & [e He]).
  unfold AppPdf.flush_bullets. destruct (snd state) as [|b0 buf] eqn:Ebuf; [destruct Hin|].
  destruct (for_append _ (b0 :: buf) []) as [items|e'] eqn:E; [|reflexivity].
  exfalso. apply for_append_Forall2 in E.
  apply list_elem_of_In, list_elem_of_lookup_1 in Hin as [i Hi].
  destruct (Forall2_lookup_l _ _ _ _ _ E Hi) as (it & _ & Hit).
  rewrite (sub_marker_bullet b Hb) in Hit.
  unfold AppPdf.new_paragraph in Hit. rewrite He in Hit. discriminate.
Qed.

Lemma flush_and_append_doomed (state : list AppPdf.flowable * list str)
    (t : str) (st : AppPdf.style) :
  Flow.doomed paragraph_error state ->
  is_ok (AppPdf.flush_and_append paragraph_error state t st) = false.
Proof.
  intros H. apply flush_doomed in H. unfold AppPdf.flush_and_append.
  destruct (AppPdf.flush_bullets paragraph_error state); [discriminate | reflexivity].
Qed.

Lemma step_doomed (state : list AppPdf.flowable * list str) (raw : str) :
  Flow.doomed paragraph_error state ->
  match AppPdf.step paragraph_error state raw with
  | Ok state' => Flow.doomed paragraph_error state'
  | Raise _ => True
  end.
Proof.
  intros H. unfold AppPdf.step.
  repeat match goal with
         | |- context [if ?b then _ else _] => destruct b
         end;
    try (match goal with
         | |- match ?r with _ => _ end =>
             assert (Hr : is_ok r = false)
               by first [now apply flush_doomed | now apply flush_and_append_doomed];
             destruct r; [discriminate | exact I]
         end).
  destruct H as (b & Hin & Hb & He). exists b. cbn [snd].
  split; [apply in_or_app; now left | auto].
Qed.

Lemma for_lines_doomed (lines : list str) (state : list AppPdf.flowable * list str) :
  Flow.doomed paragraph_error state ->
  match AppPdf.for_lines paragraph_error lines state with
  | Ok state' => Flow.doomed paragraph_error state'
  | Raise _ => True
  end.
Proof.
  revert state. induction lines as [|l lines IH]; intros state H; [exact H|].
  cbn [AppPdf.for_lines]. pose proof (step_doomed state l H) as Hs.
  destruct (AppPdf.step paragraph_error state l) as [s1|e]; cbn; [now apply IH | exact I].
Qed.

Lemma for_lines_app (l1 l2 : list str) (state : list AppPdf.flowable * list str) :
  AppPdf.for_lines paragraph_error (l1 ++ l2) state
  = AppPdf.and_then (AppPdf.for_lines paragraph_error l1 state)
      (AppPdf.for_lines paragraph_error l2).
Proof.
  revert state. induction l1 as [|l l1 IH]; intros state; [reflexivity|].
  cbn [app AppPdf.for_lines].
  destruct (AppPdf.step paragraph_error state l); cbn; [apply IH | reflexivity].
Qed.

(** A bullet line is buffered as it is. *)
Lemma step_bullet (state : list AppPdf.flowable * list str) (raw : str) :
  PyText.startswith (lit "- ") (strip raw)
  || PyText.startswith (lit "* ") (strip raw) = true ->
  AppPdf.step paragraph_error state raw = Ok (fst state, snd state ++ [strip raw]).
Proof.
  intros H. unfold AppPdf.step. rewrite H.
  destruct (strip raw) as [|c t]; [discriminate H|].
  assert (Hc : c = 0x2D%N \/ c = 0x2A%N).
  { apply orb_true_iff in H as [H|H]; destruct t; try discriminate H; cbn in H;
      apply andb_true_iff in H as [H _]; apply N.eqb_eq in H; auto. }
  destruct Hc as [-> | ->]; reflexivity.
Qed.

End Flowables.



(** X20: whenever [markdownish_to_flowables] returns, every bullet list
    among the flowables is directly followed by the 1 by 6 spacer, is not
    empty, and holds one item per buffered line: a list item around a
    paragraph in the base style whose text is the line as it was
    buffered, stripped and still opening with the dash or star and the
    space, and not escaped; reportlab accepted each of these texts.  The
    pattern [flush_bullets] substitutes asks for a backslash in second
    place and so never removes a marker. *)
Theorem bullet_lists_keep_their_markers
    (paragraph_error : str -> AppPdf.style -> option exn) (md_text : option str)
    (flow : list AppPdf.flowable) (i : nat) (items : list AppPdf.flowable) :
  AppPdf.markdownish_to_flowables paragraph_error md_text = Ok flow ->
  flow !! i = Some (AppPdf.ListFlowable items) ->
  exists lines,
    items = Flow.bullet_items lines
    /\ lines <> []
    /\ Forall Flow.bullet_line lines
    /\ Forall (fun t => paragraph_error t AppPdf.Base = None) lines
    /\ flow !! S i = Some (AppPdf.Spacer 1 6).
Proof.
  intros Hrun H.
  destruct (flowables_invariant paragraph_error md_text flow Hrun) as [Hw Hs].
  rewrite Forall_forall in Hw.
  destruct (Hw _ (list_elem_of_lookup_2 _ _ _ H)) as (lines & -> & Hne & Hb & Hacc).
  exists lines. repeat split; try assumption. eapply Hs; eauto.
Qed.

Lemma bullet_lists_keep_their_markers_witness :
  exists lines,
    Flow.bullet_items [lit "- a & b"; lit "* c"] = Flow.bullet_items lines
    /\ lines <> []
    /\ Forall Flow.bullet_line lines
    /\ Forall (fun t => Flow.no_open_tag t AppPdf.Base = None) lines
    /\ [AppPdf.ListFlowable (Flow.bullet_items [lit "- a & b"; lit "* c"]);
        AppPdf.Spacer 1 6] !! 1%nat = Some (AppPdf.Spacer 1 6).
Proof.
  apply (bullet_lists_keep_their_markers Flow.no_open_tag
           (Some (lit "- a & b" ++ [LF] ++ lit " * c")) _ 0
           (Flow.bullet_items [lit "- a & b"; lit "* c"])).
  - vm_compute. reflexivity.
  - reflexivity.
Defined.

(** X23: the text of a bullet line reaches reportlab as it is, not
    escaped: when a line of the text opens, once stripped, with a dash or
    a star and a space, and reportlab rejects the stripped line as the
    text of a paragraph in the base style, [markdownish_to_flowables]
    raises, with an exception [Paragraph] raised, whatever the other
    lines are. *)
Theorem rejected_bullet_raises
    (paragraph_error : str -> AppPdf.style -> option exn) (md_text : option str)
    (raw : str) :
  In raw (PyText.splitlines (default [] md_text)) ->
  PyText.startswith (lit "- ") (strip raw)
  || PyText.startswith (lit "* ") (strip raw) = true ->
  is_Some (paragraph_error (strip raw) AppPdf.Base) ->
  exists e t st,
    AppPdf.markdownish_to_flowables paragraph_error md_text = Raise e
    /\ paragraph_error t st = Some e.
Proof.
  intros Hin Hb Hrej.
  assert (Hnot : is_ok (AppPdf.markdownish_to_flowables paragraph_error md_text) = false).
  { unfold AppPdf.markdownish_to_flowables.
    apply in_split in Hin as (l1 & l2 & ->).
    rewrite for_lines_app.
    destruct (AppPdf.for_lines paragraph_error l1 ([], [])) as [s1|e]; [|reflexivity].
    cbn [AppPdf.and_then AppPdf.for_lines]. rewrite (step_bullet _ _ _ Hb).
    cbn [AppPdf.and_then].
    assert (Hd : Flow.doomed paragraph_error (fst s1, snd s1 ++ [strip raw])).
    { exists (strip raw). cbn [snd]. split; [apply in_or_app; right; now left|].
      split; [split; [exact Hb | apply strip_idem] | exact Hrej]. }
    pose proof (for_lines_doomed paragraph_error l2 _ Hd) as Hl.
    destruct (AppPdf.for_lines paragraph_error l2 _) as [s2|e]; [|reflexivity].
    cbn [AppPdf.and_then]. apply flush_doomed in Hl.
    destruct (AppPdf.flush_bullets paragraph_error s2); [discriminate | reflexivity]. }
  destruct (AppPdf.markdownish_to_flowables paragraph_error md_text) as [flow|e] eqn:E;
    [discriminate|].
  apply flowables_raise in E as (t & st & He). eauto.
Qed.

Lemma rejected_bullet_raises_witness :
  exists e t st,
    AppPdf.markdownish_to_flowables Flow.no_open_tag
      (Some (lit "Summary" ++ [LF] ++ lit "- total <b charged twice"))
    = Raise e
    /\ Flow.no_open_tag t st = Some e.
Proof.
  apply (rejected_bullet_raises Flow.no_open_tag
           (Some (lit "Summary" ++ [LF] ++ lit "- total <b charged twice"))
           (lit "- total <b charged twice")).
  - vm_compute. auto.
  - reflexivity.
  - eexists. reflexivity.
Defined.

(** ** Blank text and the title heading *)

Lemma splitlines_from_chars (P : N -> Prop) (n : nat) :
  forall s cur,
    length s <= n -> Forall P cur -> Forall P s ->
    Forall (Forall P) (PyText.splitlines_from cur s).
Proof.
  induction n as [|n IH]; intros s cur Hlen Hcur Hs.
  - destruct s; [|cbn in Hlen; lia]. cbn [PyText.splitlines_from].
    destruct cur; [constructor|]. constructor; [exact Hcur | constructor].
  - destruct s as [|c rest]; cbn [PyText.splitlines_from].
    + destruct cur; [constructor|]. constructor; [exact Hcur | constructor].
    + apply Forall_cons in Hs as [Hc Hrest]. cbn in Hlen.
      destruct (PyText.is_linebreak c).
      * constructor; [exact Hcur|].
        destruct rest as [|d rest']; [constructor|].
        destruct ((c =? 0x0D)%N && (d =? 0x0A)%N).
        -- apply Forall_cons in Hrest as [_ Hrest']. cbn in Hlen.
           apply IH; [lia | constructor | exact Hrest'].
        -- apply IH; [lia | constructor | exact Hrest].
      * apply IH; [lia | | exact Hrest].
        apply Forall_app. split; [exact Hcur | repeat constructor; exact Hc].
Qed.

Lemma blank_lines_add_nothing
    (paragraph_error : str -> AppPdf.style -> option exn) (lines : list str) :
  Forall (fun l => strip l = []) lines ->
  AppPdf.for_lines paragraph_error lines ([], []) = Ok ([], []).
Proof.
  induction 1 as [|l lines Hl _ IH]; [reflexivity|].
  cbn [AppPdf.for_lines]. unfold AppPdf.step. rewrite Hl. exact IH.
Qed.

Lemma all_space_blank (l : str) : Forall (fun c => is_space c = true) l -> strip l = [].
Proof.
  intros H. apply strip_nil_iff. apply forallb_forall.
  intros c Hc. rewrite Forall_forall in H. apply H. now apply list_elem_of_In.
Qed.

(** X21: for a text that is [None], empty or white space only,
    [markdownish_to_flowables] returns, whatever reportlab accepts, and
    returns no flowable at all. *)
Theorem blank_text_gives_no_flowable
    (paragraph_error : str -> AppPdf.style -> option exn) (md_text : option str) :
  strip (default [] md_text) = [] ->
  AppPdf.markdownish_to_flowables paragraph_error md_text = Ok [].
Proof.
  intros H. unfold AppPdf.markdownish_to_flowables, PyText.splitlines.
  rewrite blank_lines_add_nothing; [reflexivity|].
  apply strip_nil_iff in H.
  assert (Hs : Forall (fun c => is_space c = true) (default [] md_text)).
  { apply Forall_forall. intros c Hc. apply list_elem_of_In in Hc.
    rewrite forallb_forall in H. now apply H. }
  eapply Forall_impl;
    [exact (splitlines_from_chars _ _ _ [] (le_n _) (Forall_nil_2 _) Hs)|].
  cbn. apply all_space_blank.
Qed.

Lemma blank_text_gives_no_flowable_witness :
  AppPdf.markdownish_to_flowables Flow.no_open_tag
    (Some ([0x20; 0x0A; 0x09; 0x0D; 0x0A; 0xA0]%N)) = Ok []
  /\ AppPdf.markdownish_to_flowables Flow.no_open_tag None = Ok [].
Proof.
  split; apply blank_text_gives_no_flowable; reflexivity.
Defined.

(** ** The title heading of a PDF *)

Lemma lstrip_app_nonblank (l k : str) :
  lstrip l <> [] -> lstrip (l ++ k) = lstrip l ++ k.
Proof.
  induction l as [|c l IH]; cbn [lstrip app]; [congruence|].
  destruct (is_space c); [exact IH | reflexivity].
Qed.

Lemma rstrip_cons_nonblank (c : N) (s : str) :
  rstrip s <> [] -> rstrip (c :: s) = c :: rstrip s.
Proof.
  unfold rstrip. intros H. cbn [rev].
  rewrite lstrip_app_nonblank.
  - now rewrite rev_app_distr.
  - intros E. apply H. now rewrite E.
Qed.

Lemma rstrip_nonblank (s : str) : strip s <> [] -> rstrip s <> [].
Proof.
  intros H E. apply H. apply strip_nil_iff.
  unfold rstrip in E.
  assert (E' : lstrip (rev s) = []).
  { destruct (lstrip (rev s)) as [|c t]; [reflexivity|].
    cbn [rev] in E. now destruct (rev t). }
  apply lstrip_nil_iff in E'.
  apply forallb_forall. intros c Hc.
  rewrite forallb_forall in E'. apply E'. now apply in_rev in Hc.
Qed.

Lemma splitlines_from_line (a cur rest : str) :
  Forall (fun c => PyText.is_linebreak c = false) a ->
  PyText.splitlines_from cur (a ++ LF :: rest)
  = (cur ++ a) :: match rest with
                  | [] => []
                  | _ => PyText.splitlines_from [] rest
                  end.
Proof.
  intros Ha. revert cur.
  induction Ha as [|c a Hc _ IH]; intros cur.
  - rewrite app_nil_r. cbn [app PyText.splitlines_from].
    change (PyText.is_linebreak LF) with true. cbn beta iota.
    destruct rest; reflexivity.
  - cbn [app PyText.splitlines_from]. rewrite Hc, IH.
    now rewrite <- app_assoc.
Qed.

Section Prefix.
Variable paragraph_error : str -> AppPdf.style -> option exn.

(** What was appended to [flow] earlier takes no part in what follows. *)
Lemma flush_prefix (f0 f : list AppPdf.flowable) (buf : list str) :
  AppPdf.flush_bullets paragraph_error (f0 ++ f, buf)
  = AppPdf.and_then (AppPdf.flush_bullets paragraph_error (f, buf))
      (fun s => Ok (f0 ++ fst s, snd s)).
Proof.
  unfold AppPdf.flush_bullets. cbn [fst snd].
  destruct buf as [|b buf]; [reflexivity|].
  destruct (for_append _ (b :: buf) []); cbn [AppPdf.and_then fst snd];
    [now rewrite app_assoc | reflexivity].
Qed.

Lemma flush_and_append_prefix (f0 f : list AppPdf.flowable) (buf : list str)
    (t : str) (st : AppPdf.style) :
  AppPdf.flush_and_append paragraph_error (f0 ++ f, buf) t st
  = AppPdf.and_then (AppPdf.flush_and_append paragraph_error (f, buf) t st)
      (fun s => Ok (f0 ++ fst s, snd s)).
Proof.
  unfold AppPdf.flush_and_append. rewrite flush_prefix.
  destruct (AppPdf.flush_bullets paragraph_error (f, buf)) as [[f1 b1]|e];
    cbn [AppPdf.and_then fst snd]; [|reflexivity].
  destruct (AppPdf.new_paragraph paragraph_error t st);
    cbn [AppPdf.and_then fst snd]; [now rewrite app_assoc | reflexivity].
Qed.

Lemma step_prefix (f0 f : list AppPdf.flowable) (buf : list str) (raw : str) :
  AppPdf.step paragraph_error (f0 ++ f, buf) raw
  = AppPdf.and_then (AppPdf.step paragraph_error (f, buf) raw)
      (fun s => Ok (f0 ++ fst s, snd s)).
Proof.
  unfold AppPdf.step.
  repeat match goal with
         | |- context [if ?b then _ else _] => destruct b
         end;
    first [apply flush_prefix | apply flush_and_append_prefix | reflexivity].
Qed.

Lemma for_lines_prefix (lines : list str) (f0 f : list AppPdf.flowable)
    (buf : list str) :
  AppPdf.for_lines paragraph_error lines (f0 ++ f, buf)
  = AppPdf.and_then (AppPdf.for_lines paragraph_error lines (f, buf))
      (fun s => Ok (f0 ++ fst s, snd s)).
Proof.
  revert f buf. induction lines as [|l lines IH]; intros f buf; [reflexivity|].
  cbn [AppPdf.for_lines]. rewrite step_prefix.
  destruct (AppPdf.step paragraph_error (f, buf) l) as [[f1 b1]|e];
    cbn [AppPdf.and_then fst snd]; [apply IH | reflexivity].
Qed.

End Prefix.

(** X22: for a title that is not blank and holds no line boundary,
    [build_pdf_bytes] first builds the paragraph of the title, stripped on
    the right, as a first-level heading, then the flowables of the
    stripped content alone, exactly as [markdownish_to_flowables] builds
    them from that content; it hands reportlab the heading followed by
    these, and raises what the first of the two steps to fail raised. *)
Theorem pdf_opens_with_title
    (paragraph_error : str -> AppPdf.style -> option exn) (title content : str) :
  Forall (fun c => PyText.is_linebreak c = false) title ->
  strip title <> [] ->
  AppPdf.build_pdf_flowables paragraph_error title content
  = AppPdf.and_then (AppPdf.new_paragraph paragraph_error (rstrip title) AppPdf.H1)
      (fun heading =>
         AppPdf.and_then
           (AppPdf.markdownish_to_flowables paragraph_error
              (Some (strip content ++ [LF])))
           (fun flow => Ok (heading :: flow))).
Proof.
  intros Hlb Hnb.
  unfold AppPdf.build_pdf_flowables, AppPdf.markdownish_to_flowables, AppPdf.full,
    PyText.splitlines.
  cbn [default from_option id].
  change ([LF; LF] ++ strip content ++ [LF]) with (LF :: LF :: strip content ++ [LF]).
  rewrite (app_assoc (lit "# ") title).
  rewrite (splitlines_from_line (lit "# " ++ title) [] (LF :: strip content ++ [LF])).
  2:{ apply Forall_app. split; [|exact Hlb]. repeat constructor. }
  cbn [app PyText.splitlines_from].
  change (PyText.is_linebreak LF) with true. cbn beta iota.
  assert (Hrest : match strip content ++ [LF] with
                  | [] => []
                  | d :: rest' =>
                      if (LF =? 13)%N && (d =? 10)%N
                      then PyText.splitlines_from [] rest'
                      else PyText.splitlines_from [] (strip content ++ [LF])
                  end = PyText.splitlines_from [] (strip content ++ [LF])).
  { destruct (strip content ++ [LF]) eqn:E; [|reflexivity].
    now destruct (strip content). }
  rewrite Hrest. clear Hrest.
  set (lines := PyText.splitlines_from [] (strip content ++ [LF])).
  cbn [AppPdf.for_lines].
  assert (H1 : AppPdf.step paragraph_error ([], []) (lit "# " ++ title)
               = AppPdf.and_then
                   (AppPdf.new_paragraph paragraph_error (rstrip title) AppPdf.H1)
                   (fun p => Ok ([p], []))).
  { unfold AppPdf.step.
    assert (Hs : strip (lit "# " ++ title) = 0x23%N :: 0x20%N :: rstrip title).
    { unfold strip. change (lit "# " ++ title) with (0x23%N :: 0x20%N :: title).
      rewrite lstrip_keeps by reflexivity.
      rewrite rstrip_head by reflexivity.
      rewrite rstrip_cons_nonblank by (now apply rstrip_nonblank).
      reflexivity. }
    cbn zeta. rewrite Hs. reflexivity. }
  rewrite H1.
  destruct (AppPdf.new_paragraph paragraph_error (rstrip title) AppPdf.H1)
    as [heading|e]; cbn [AppPdf.and_then]; [|reflexivity].
  change (AppPdf.step paragraph_error ([heading], []) [])
    with (@Ok (list AppPdf.flowable * list str) ([heading] ++ [], [])).
  cbn [AppPdf.and_then].
  rewrite for_lines_prefix.
  destruct (AppPdf.for_lines paragraph_error lines ([], [])) as [[f buf]|e];
    cbn [AppPdf.and_then fst snd]; [|reflexivity].
  rewrite flush_prefix.
  destruct (AppPdf.flush_bullets paragraph_error (f, buf)) as [[f2 b2]|e];
    cbn [AppPdf.and_then fst snd]; reflexivity.
Qed.

Lemma pdf_opens_with_title_witness :
  AppPdf.build_pdf_flowables Flow.no_open_tag (lit "Weekly PM Brief ") (lit " - a ")
  = Ok [AppPdf.Paragraph (lit "Weekly PM Brief") AppPdf.H1;
        AppPdf.ListFlowable (Flow.bullet_items [lit "- a"]);
        AppPdf.Spacer 1 6]
  /\ AppPdf.build_pdf_flowables Flow.no_open_tag (lit "Q3 <b") (lit "fine")
     = Raise ValueError.
Proof.
  split.
  - rewrite pdf_opens_with_title;
      [reflexivity | vm_compute; repeat constructor | vm_compute; discriminate].
  - rewrite pdf_opens_with_title;
      [reflexivity | vm_compute; repeat constructor | vm_compute; discriminate].
Defined.
